(** * herflowstate-pwa: the analytics engine and the goal optimizer

    A shallow embedding of [src/utils/goalOptimization.ts] (class
    [GoalOptimizer]) and of [src/lib/mood-analytics.ts] (class
    [MoodAnalytics]), with the properties of the specification stated
    over it.

    Numbers.  A JavaScript [number] is modelled over exact arithmetic:
    a finite value is a real number, and the three special values of
    IEEE 754 that the code can produce by dividing by zero (the two
    infinities and NaN) are kept, because several functions of the
    source divide without a guard.  Rounding and overflow are not
    modelled there, and zero carries no sign (every zero divisor the
    code can build is a positive zero).  The statements over exact
    arithmetic hold of the code up to rounding; where a property turns
    on a comparison that rounding can move (the threshold of the weekly
    patterns), the method is embedded a second time in double
    precision (module [Float64]) and the property is stated there.

    Arrays.  A JavaScript array is a [list]; an array that the code
    sorts in place is the state of a small state monad, so that what
    the caller sees after a call is part of the model.

    Dates.  A [Date] (and a date string handed to [new Date]) is its
    time value, an integer number of milliseconds; invalid dates are
    outside the model.  The clock read by [new Date()] is an explicit
    argument [now]. *)

From Stdlib Require Import Reals Lra Psatz List Bool Arith ZArith Lia.
From Stdlib Require Import Permutation Sorted String Ascii.
From Stdlib Require Floats.
Import ListNotations.

(* ================================================================= *)
(** * Part I: the embedding *)
(* ================================================================= *)

(** ** JavaScript numbers over exact arithmetic *)

Module JS.

Inductive number : Type :=
| Fin (v : R)
| PosInf
| NegInf
| NaN.

Inductive sign : Type := Neg | Zero | Pos.

Definition Rsign (v : R) : sign :=
  match total_order_T v 0 with
  | inleft (left _) => Neg
  | inleft (right _) => Zero
  | inright _ => Pos
  end.

Definition sign_opp (s : sign) : sign :=
  match s with Neg => Pos | Zero => Zero | Pos => Neg end.

(** The infinity of a given sign; a zero factor gives NaN
    ([0 * Infinity], [0 / 0]). *)
Definition inf_of (s : sign) : number :=
  match s with Neg => NegInf | Zero => NaN | Pos => PosInf end.

Definition Rltb (u v : R) : bool := if Rlt_dec u v then true else false.
Definition Rleb (u v : R) : bool := if Rle_dec u v then true else false.
Definition Reqb (u v : R) : bool := if Req_dec_T u v then true else false.

Definition add (a b : number) : number :=
  match a, b with
  | NaN, _ | _, NaN => NaN
  | Fin u, Fin v => Fin (u + v)
  | PosInf, NegInf | NegInf, PosInf => NaN
  | PosInf, _ | _, PosInf => PosInf
  | NegInf, _ | _, NegInf => NegInf
  end.

Definition neg (a : number) : number :=
  match a with
  | Fin u => Fin (- u)
  | PosInf => NegInf
  | NegInf => PosInf
  | NaN => NaN
  end.

Definition sub (a b : number) : number :=
  match a, b with
  | Fin u, Fin v => Fin (u - v)
  | _, _ => add a (neg b)
  end.

Definition mul (a b : number) : number :=
  match a, b with
  | NaN, _ | _, NaN => NaN
  | Fin u, Fin v => Fin (u * v)
  | Fin u, PosInf | PosInf, Fin u => inf_of (Rsign u)
  | Fin u, NegInf | NegInf, Fin u => inf_of (sign_opp (Rsign u))
  | PosInf, PosInf | NegInf, NegInf => PosInf
  | PosInf, NegInf | NegInf, PosInf => NegInf
  end.

Definition div (a b : number) : number :=
  match a, b with
  | NaN, _ | _, NaN => NaN
  | Fin u, Fin v => if Req_dec_T v 0 then inf_of (Rsign u) else Fin (u / v)
  | Fin _, (PosInf | NegInf) => Fin 0
  | PosInf, Fin v => match Rsign v with Neg => NegInf | _ => PosInf end
  | NegInf, Fin v => match Rsign v with Neg => PosInf | _ => NegInf end
  | _, _ => NaN
  end.

(** [a < b]; every comparison with NaN is false. *)
Definition lt (a b : number) : bool :=
  match a, b with
  | NaN, _ | _, NaN => false
  | Fin u, Fin v => Rltb u v
  | _, NegInf => false
  | NegInf, _ => true
  | PosInf, _ => false
  | _, PosInf => true
  end.

(** [a <= b]. *)
Definition le (a b : number) : bool :=
  match a, b with
  | NaN, _ | _, NaN => false
  | Fin u, Fin v => Rleb u v
  | NegInf, _ => true
  | _, PosInf => true
  | _, _ => false
  end.

Definition gt (a b : number) : bool := lt b a.
Definition ge (a b : number) : bool := le b a.

(** [a === b] on numbers. *)
Definition eq (a b : number) : bool :=
  match a, b with
  | Fin u, Fin v => Reqb u v
  | PosInf, PosInf | NegInf, NegInf => true
  | _, _ => false
  end.

(** [Math.min(a, b)] and [Math.max(a, b)]: NaN if either is NaN. *)
Definition min (a b : number) : number :=
  match a, b with
  | NaN, _ | _, NaN => NaN
  | Fin u, Fin v => Fin (Rmin u v)
  | NegInf, _ | _, NegInf => NegInf
  | PosInf, c | c, PosInf => c
  end.

Definition max (a b : number) : number :=
  match a, b with
  | NaN, _ | _, NaN => NaN
  | Fin u, Fin v => Fin (Rmax u v)
  | PosInf, _ | _, PosInf => PosInf
  | NegInf, c | c, NegInf => c
  end.

(** [Math.abs], [Math.sqrt], [Math.exp], [Math.log]. *)
Definition abs (a : number) : number :=
  match a with
  | Fin u => Fin (Rabs u)
  | PosInf | NegInf => PosInf
  | NaN => NaN
  end.

Definition sqrt (a : number) : number :=
  match a with
  | Fin u => if Rlt_dec u 0 then NaN else Fin (R_sqrt.sqrt u)
  | PosInf => PosInf
  | NegInf | NaN => NaN
  end.

Definition exp (a : number) : number :=
  match a with
  | Fin u => Fin (Rtrigo_def.exp u)
  | PosInf => PosInf
  | NegInf => Fin 0
  | NaN => NaN
  end.

Definition log (a : number) : number :=
  match a with
  | Fin u => match Rsign u with
             | Neg => NaN
             | Zero => NegInf
             | Pos => Fin (ln u)
             end
  | PosInf => PosInf
  | NegInf | NaN => NaN
  end.

(** [Math.pow(a, 2)]. *)
Definition pow2 (a : number) : number := mul a a.

(** A [nat] (an array length, a loop counter) and an integer time
    value, as numbers. *)
Definition ofNat (k : nat) : number := Fin (INR k).
Definition ofZ (z : Z) : number := Fin (IZR z).

(** The truncation of [new Date(t)] ([TimeClip]): a time value is an
    integer, and a time out of range, infinite or NaN gives an invalid
    date (time value NaN). *)
Definition Rtrunc (v : R) : Z :=
  if Rle_dec 0 v then Int_part v else (- Int_part (- v))%Z.

Definition timeClip (t : number) : number :=
  match t with
  | Fin v => if Rltb 8.64e15 (Rabs v) then NaN else Fin (IZR (Rtrunc v))
  | _ => NaN
  end.

(** *** Arrays *)

(** [arr.reduce((acc, val, i) => f acc val i, init)]. *)
Fixpoint reduceFrom {A B : Type} (f : B -> A -> nat -> B)
         (i : nat) (acc : B) (arr : list A) : B :=
  match arr with
  | [] => acc
  | val :: rest => reduceFrom f (S i) (f acc val i) rest
  end.

Definition reduce {A B : Type} (f : B -> A -> nat -> B) (init : B)
           (arr : list A) : B :=
  reduceFrom f 0 init arr.

(** [arr[i]] read as a number: a read past the end is [undefined],
    which arithmetic turns into NaN. *)
Definition index (arr : list R) (i : nat) : number :=
  match nth_error arr i with
  | Some v => Fin v
  | None => NaN
  end.

(** [Math.max(...arr)] and [Math.min(...arr)]: the spread of an empty
    array gives [-Infinity] and [Infinity]. *)
Definition maxOf (arr : list number) : number := fold_left max arr NegInf.
Definition minOf (arr : list number) : number := fold_left min arr PosInf.

(** [Array.prototype.sort(cmp)] is a stable sort: [a] goes after [b]
    only when [cmp(a, b) > 0]; a comparator value that is 0 or NaN
    keeps the two in their order.  It is modelled by a stable insertion
    sort.  (For a comparator that is not consistent the order is left
    to the engine; the properties below use the order only for the
    consistent date comparators.) *)
Fixpoint insert {A : Type} (cmp : A -> A -> number) (a : A)
         (arr : list A) : list A :=
  match arr with
  | [] => [a]
  | b :: rest => if gt (cmp a b) (Fin 0)
                 then b :: insert cmp a rest
                 else a :: b :: rest
  end.

Fixpoint sort {A : Type} (cmp : A -> A -> number) (arr : list A) : list A :=
  match arr with
  | [] => []
  | a :: rest => insert cmp a (sort cmp rest)
  end.

(** [a] may stand before [b]: the comparator does not ask for them to
    be swapped. *)
Definition inOrder {A : Type} (cmp : A -> A -> number) (a b : A) : Prop :=
  gt (cmp a b) (Fin 0) = false.

(** *** The state monad of an array that is shared with the caller *)

Definition State (S A : Type) : Type := S -> A * S.

Definition ret {S A : Type} (a : A) : State S A := fun s => (a, s).

Definition bind {S A B : Type} (m : State S A) (k : A -> State S B)
  : State S B :=
  fun s => let (a, s') := m s in k a s'.

(** Reading the array. *)
Definition get {S : Type} : State S S := fun s => (s, s).

(** A call that leaves the array as it found it. *)
Definition readOnly {S A : Type} (m : State S A) (s : S) : Prop :=
  snd (m s) = s.

(** A call that, made again on the array as the first call left it,
    returns the same result and leaves the same array. *)
Definition repeatable {S A : Type} (m : State S A) (s : S) : Prop :=
  m (snd (m s)) = m s.

(** [arr.sort(cmp)]: sorts the array in place and returns that same
    array. *)
Definition sortInPlace {A : Type} (cmp : A -> A -> number)
  : State (list A) (list A) :=
  fun arr => let sorted := sort cmp arr in (sorted, sorted).

End JS.

Declare Scope js_scope.
Delimit Scope js_scope with js.
Bind Scope js_scope with JS.number.
Notation "a + b" := (JS.add a b) : js_scope.
Notation "a - b" := (JS.sub a b) : js_scope.
Notation "a * b" := (JS.mul a b) : js_scope.
Notation "a / b" := (JS.div a b) : js_scope.
Notation "- a" := (JS.neg a) : js_scope.
Notation "a <? b" := (JS.lt a b) : js_scope.
Notation "a <=? b" := (JS.le a b) : js_scope.
Notation "a >? b" := (JS.gt a b) : js_scope.
Notation "a >=? b" := (JS.ge a b) : js_scope.
Notation "a === b" := (JS.eq a b) (at level 70) : js_scope.
Notation "x <- m ;; k" := (JS.bind m (fun x => k))
  (at level 61, m at next level, right associativity) : js_scope.

Local Open Scope js_scope.

(** ** [src/types/goals.ts] *)

Module Goals.

(** [Goal]: the fields that the optimizer reads (the identifier, the
    texts, the category, the status and the milestones are never read
    by it). *)
Record Goal : Type := {
  targetValue : R;
  currentValue : R;
  deadline : Z;
  createdAt : Z
}.

Record GoalProgress : Type := {
  goalId : string;
  date : Z;
  value : R;
  notes : option string;
  mood : option R
}.

Record GoalMetrics : Type := {
  completionRate : JS.number;
  timeRemaining : JS.number;
  averageDailyProgress : JS.number;
  projectedCompletion : JS.number;
  efficiencyScore : JS.number;
  consistencyScore : JS.number
}.

Inductive RecommendationType : Type :=
| increase_frequency
| adjust_target
| change_approach
| add_support.

Record OptimizationRecommendation : Type := {
  type : RecommendationType;
  priority : nat;
  description : string;
  expectedImprovement : R
}.

Record CorrelationData : Type := {
  variable1 : string;
  variable2 : string;
  correlation : R;
  significance : R;
  interpretation : string
}.

Record OptimizationAnalysis : Type := {
  currentEfficiency : JS.number;
  bottlenecks : list string;
  recommendations : list OptimizationRecommendation;
  correlationMatrix : list CorrelationData
}.

End Goals.

(** ** [src/utils/goalOptimization.ts]: class [GoalOptimizer] *)

Module GoalOptimizer.
Import Goals.

(** [(1000 * 60 * 60 * 24)], the milliseconds of a day. *)
Definition msPerDay : JS.number :=
  JS.Fin 1000 * JS.Fin 60 * JS.Fin 60 * JS.Fin 24.

(** [(a, b) => a.date.getTime() - b.date.getTime()] *)
Definition byDate (a b : GoalProgress) : JS.number :=
  JS.ofZ (date a) - JS.ofZ (date b).

(** The loop of [calculateAverageDailyProgress] over
    [i = 1 .. length - 1]; [prev] is [sortedData[i-1]]. *)
Fixpoint pooledLoop (prev : GoalProgress) (rest : list GoalProgress)
         (totalProgress totalDays : JS.number) : JS.number * JS.number :=
  match rest with
  | [] => (totalProgress, totalDays)
  | cur :: rest' =>
      let progress := JS.Fin (value cur) - JS.Fin (value prev) in
      let days := (JS.ofZ (date cur) - JS.ofZ (date prev)) / msPerDay in
      if days >? JS.Fin 0
      then pooledLoop cur rest' (totalProgress + progress) (totalDays + days)
      else pooledLoop cur rest' totalProgress totalDays
  end.

(** The rate computed from the sorted samples, from
    [let totalProgress = 0] on. *)
Definition pooledRate (sortedData : list GoalProgress) : JS.number :=
  let '(totalProgress, totalDays) :=
    match sortedData with
    | [] => (JS.Fin 0, JS.Fin 0)
    | first :: rest => pooledLoop first rest (JS.Fin 0) (JS.Fin 0)
    end in
  if totalDays >? JS.Fin 0 then totalProgress / totalDays else JS.Fin 0.

Definition calculateAverageDailyProgress
  : JS.State (list GoalProgress) JS.number :=
  progressData <- JS.get ;;
  if (List.length progressData <? 2)%nat then JS.ret (JS.Fin 0) else
  sortedData <- JS.sortInPlace byDate ;;
  JS.ret (pooledRate sortedData).

(** The loop of [calculateConsistencyScore]: the positive part of each
    step between consecutive samples. *)
Fixpoint changesLoop (prev : GoalProgress) (rest : list GoalProgress)
  : list JS.number :=
  match rest with
  | [] => []
  | cur :: rest' =>
      let change := JS.Fin (value cur) - JS.Fin (value prev) in
      JS.max (JS.Fin 0) change :: changesLoop cur rest'
  end.

Definition dailyChangesOf (sortedData : list GoalProgress)
  : list JS.number :=
  match sortedData with
  | [] => []
  | first :: rest => changesLoop first rest
  end.

(** The score computed from the steps, from [const mean = ...] on. *)
Definition scoreOfChanges (dailyChanges : list JS.number) : JS.number :=
  let len := JS.ofNat (List.length dailyChanges) in
  let mean := JS.reduce (fun sum val _ => sum + val) (JS.Fin 0)
                        dailyChanges / len in
  let variance := JS.reduce (fun sum val _ => sum + JS.pow2 (val - mean))
                            (JS.Fin 0) dailyChanges / len in
  let stdDev := JS.sqrt variance in
  let cv := if mean >? JS.Fin 0 then stdDev / mean else JS.Fin 1 in
  JS.max (JS.Fin 0) (JS.Fin 100 - cv * JS.Fin 100).

Definition calculateConsistencyScore
  : JS.State (list GoalProgress) JS.number :=
  progressData <- JS.get ;;
  if (List.length progressData <? 3)%nat then JS.ret (JS.Fin 50) else
  sortedData <- JS.sortInPlace byDate ;;
  JS.ret (scoreOfChanges (dailyChangesOf sortedData)).

(** [targetValue / (timeTotal / msPerDay)], the rate that meets the
    deadline exactly. *)
Definition theoreticalRate (goal : Goal) : JS.number :=
  let timeTotal := JS.ofZ (deadline goal) - JS.ofZ (createdAt goal) in
  JS.Fin (targetValue goal) / (timeTotal / msPerDay).

Definition calculateGoalMetrics (now : Z) (goal : Goal)
  : JS.State (list GoalProgress) GoalMetrics :=
  let timeElapsed := JS.ofZ now - JS.ofZ (createdAt goal) in
  let timeRemaining :=
    JS.max (JS.Fin 0) (JS.ofZ (deadline goal) - JS.ofZ now) / msPerDay in
  let completionRate :=
    JS.Fin (currentValue goal) / JS.Fin (targetValue goal) * JS.Fin 100 in
  progressData <- JS.get ;;
  dailyProgress <-
    (if (1 <? List.length progressData)%nat
     then calculateAverageDailyProgress
     else JS.ret (JS.Fin (currentValue goal) / (timeElapsed / msPerDay))) ;;
  let projectedDays :=
    (JS.Fin (targetValue goal) - JS.Fin (currentValue goal))
    / JS.max dailyProgress (JS.Fin 0.001) in
  let projectedCompletion :=
    JS.timeClip (JS.ofZ now + projectedDays * JS.Fin 24 * JS.Fin 60
                                * JS.Fin 60 * JS.Fin 1000) in
  let efficiencyScore :=
    JS.min (JS.Fin 100)
           (dailyProgress / theoreticalRate goal * JS.Fin 100) in
  consistencyScore <- calculateConsistencyScore ;;
  JS.ret {| completionRate := completionRate;
            timeRemaining := timeRemaining;
            averageDailyProgress := dailyProgress;
            projectedCompletion := projectedCompletion;
            efficiencyScore := efficiencyScore;
            consistencyScore := consistencyScore |}.

(** [identifyBottlenecks]; [progressData.filter] reads the array and
    builds a new one. *)
Definition identifyBottlenecks (now : Z) (goal : Goal)
           (metrics : GoalMetrics)
  : JS.State (list GoalProgress) (list string) :=
  progressData <- JS.get ;;
  let b1 := if efficiencyScore metrics <? JS.Fin 50
            then ["Low progress rate - may need increased frequency or intensity"%string]
            else [] in
  let b2 := if consistencyScore metrics <? JS.Fin 40
            then ["High variability in progress - inconsistent effort patterns"%string]
            else [] in
  let b3 := if (timeRemaining metrics <? JS.Fin 7)
               && (completionRate metrics <? JS.Fin 80)
            then ["Time constraint - approaching deadline with significant work remaining"%string]
            else [] in
  let recentProgress :=
    List.length
      (filter (fun p => JS.ofZ now - JS.ofZ (date p)
                        <? JS.Fin 7 * JS.Fin 24 * JS.Fin 60 * JS.Fin 60
                           * JS.Fin 1000)
              progressData) in
  let b4 := if (recentProgress =? 0)%nat
               && (0 <? List.length progressData)%nat
            then ["Progress stagnation - no recent activity recorded"%string]
            else [] in
  JS.ret (b1 ++ b2 ++ b3 ++ b4)%list.

Definition generateRecommendations (goal : Goal) (metrics : GoalMetrics)
           (bottlenecks : list string) : list OptimizationRecommendation :=
  let r1 := if efficiencyScore metrics <? JS.Fin 60
            then [{| type := increase_frequency; priority := 1;
                     description := "Increase activity frequency by 25-50% to improve progress rate";
                     expectedImprovement := 30 |}]
            else [] in
  let r2 := if consistencyScore metrics <? JS.Fin 50
            then [{| type := add_support; priority := 2;
                     description := "Add accountability measures or tracking reminders to improve consistency";
                     expectedImprovement := 25 |}]
            else [] in
  let r3 := if (completionRate metrics >? JS.Fin 80)
               && (timeRemaining metrics >? JS.Fin 30)
            then [{| type := adjust_target; priority := 3;
                     description := "Consider increasing target value to maintain challenge level";
                     expectedImprovement := 15 |}]
            else [] in
  JS.sort (fun a b => JS.ofNat (priority a) - JS.ofNat (priority b))
          (r1 ++ r2 ++ r3)%list.

Definition calculateCorrelations (goal : Goal)
           (progressData : list GoalProgress) (allGoals : list Goal)
  : list CorrelationData :=
  [{| variable1 := "Daily Progress";
      variable2 := "Mood Score";
      correlation := 0.65;
      significance := 0.02;
      interpretation := "Moderate positive correlation between progress and mood" |}].

Definition analyzeGoalOptimization (now : Z) (goal : Goal)
           (allGoals : list Goal)
  : JS.State (list GoalProgress) OptimizationAnalysis :=
  metrics <- calculateGoalMetrics now goal ;;
  bottlenecks <- identifyBottlenecks now goal metrics ;;
  let recommendations := generateRecommendations goal metrics bottlenecks in
  progressData <- JS.get ;;
  let correlationMatrix := calculateCorrelations goal progressData allGoals in
  JS.ret {| currentEfficiency := efficiencyScore metrics;
            bottlenecks := bottlenecks;
            recommendations := recommendations;
            correlationMatrix := correlationMatrix |}.

(** The consistency score as the specification words it: the
    coefficient of variation is the standard deviation over the mean,
    with no case for a zero mean. *)
Definition specScoreOfChanges (dailyChanges : list JS.number)
  : JS.number :=
  let len := JS.ofNat (List.length dailyChanges) in
  let mean := JS.reduce (fun sum val _ => sum + val) (JS.Fin 0)
                        dailyChanges / len in
  let variance := JS.reduce (fun sum val _ => sum + JS.pow2 (val - mean))
                            (JS.Fin 0) dailyChanges / len in
  let cv := JS.sqrt variance / mean in
  JS.max (JS.Fin 0) (JS.Fin 100 - cv * JS.Fin 100).

End GoalOptimizer.

(** ** [src/types/mood-tracker.ts] *)

Module MoodTracker.

(** [MoodEntry]; [date] is the time value of [new Date(entry.date)].
    The fields [timestamp], [factors], [weather] and [location] are
    never read by the engine and are left out. *)
Record MoodEntry : Type := {
  id : string;
  date : Z;
  mood : R;
  energy : R;
  stress : R;
  sleep : R;
  hydration : R;
  exercise : R;
  nutrition : R;
  notes : string
}.

Inductive Interpretation : Type :=
| strong_positive | moderate_positive | weak_positive
| weak_negative | moderate_negative | strong_negative
| negligible.

Record CorrelationData : Type := {
  factor : string;
  correlation : JS.number;
  significance : JS.number;
  sampleSize : nat;
  interpretation : Interpretation
}.

(** [MoodEntryNumericKeys], the keys of the numeric fields. *)
Inductive MoodEntryNumericKeys : Type :=
| key_mood | key_energy | key_stress | key_sleep
| key_hydration | key_exercise | key_nutrition.

Inductive Direction : Type := increasing | decreasing | stable.

Record TrendAnalysis : Type := {
  metric : MoodEntryNumericKeys;
  direction : Direction;
  magnitude : JS.number;
  trendSignificance : JS.number;
  timeframe : nat
}.

Inductive ImprovementTrend : Type := improving | declining | trend_stable.

Record WellnessMetrics : Type := {
  averageMood : JS.number;
  averageEnergy : JS.number;
  averageStress : JS.number;
  averageSleep : JS.number;
  averageHydration : JS.number;
  averageExercise : JS.number;
  averageNutrition : JS.number;
  consistencyScore : JS.number;
  improvementTrend : ImprovementTrend
}.

Inductive PatternType : Type := weekly | monthly | seasonal | cyclical.

Inductive Weekday : Type :=
| Sunday | Monday | Tuesday | Wednesday | Thursday | Friday | Saturday.

(** [MoodPattern]; the two generated texts ([description], which
    prints the variation with [toFixed], and [recommendations]) are
    presentation and are left out. *)
Record MoodPattern : Type := {
  patternType : PatternType;
  strength : JS.number;
  peakDays : list Weekday;
  lowDays : list Weekday
}.

Record CorrelationThresholds : Type := {
  strong : R;
  moderate : R;
  weak : R
}.

Record AnalyticsConfig : Type := {
  minEntriesForCorrelation : nat;
  minEntriesForTrends : nat;
  confidenceThreshold : R;
  correlationThresholds : CorrelationThresholds
}.

Definition DEFAULT_ANALYTICS_CONFIG : AnalyticsConfig :=
  {| minEntriesForCorrelation := 7;
     minEntriesForTrends := 14;
     confidenceThreshold := 0.05;
     correlationThresholds :=
       {| strong := 0.5; moderate := 0.3; weak := 0.1 |} |}.

Inductive Category : Type :=
| cat_sleep | cat_exercise | cat_nutrition | cat_stress | cat_hydration
| cat_lifestyle.

Inductive Difficulty : Type :=
| difficulty_easy | difficulty_moderate | difficulty_challenging.

Record OptimizationSuggestion : Type := {
  category : Category;
  priority : nat;
  title : string;
  description : string;
  expectedImpact : JS.number;
  suggestionTimeframe : string;
  difficulty : Difficulty;
  basedOnCorrelation : JS.number
}.

Record Predictions : Type := {
  nextWeekMood : JS.number;
  confidence : JS.number;
  basedOn : list string
}.

Record AdvancedInsights : Type := {
  correlations : list CorrelationData;
  trends : list TrendAnalysis;
  patterns : list MoodPattern;
  optimizations : list OptimizationSuggestion;
  predictions : Predictions
}.

End MoodTracker.

(** ** [src/lib/mood-analytics.ts]: class [MoodAnalytics]

    The object keeps a reference to the array it was built on
    ([this.entries = entries.sort(...)], and [sort] returns the array
    it sorted), so the state of every method is that one array, shared
    with the caller.  [config] is never assigned after construction and
    is the constant below. *)

Module MoodAnalytics.
Import MoodTracker.

Definition config : AnalyticsConfig := DEFAULT_ANALYTICS_CONFIG.

(** [(a, b) => new Date(a.date).getTime() - new Date(b.date).getTime()] *)
Definition byDate (a b : MoodEntry) : JS.number :=
  JS.ofZ (date a) - JS.ofZ (date b).

Definition constructor : JS.State (list MoodEntry) unit :=
  _ <- JS.sortInPlace byDate ;; JS.ret tt.

Record Correlation : Type := { r : JS.number; p : JS.number; n : nat }.

Record Regression : Type := {
  slope : JS.number;
  intercept : JS.number;
  r2 : JS.number
}.

(** *** The p-value approximation *)

Definition cof : list R :=
  [76.18009172947146; -86.50532032941677; 24.01409824083091;
   -1.231739572450155; 0.1208650973866179e-2; -0.5395239384953e-5]%R.

Definition logGamma (x : JS.number) : JS.number :=
  let xx := x in
  let tmp := xx + JS.Fin 5.5 in
  let tmp := tmp - (xx + JS.Fin 0.5) * JS.log tmp in
  let '(ser, _) :=
    fold_left (fun '(ser, y) c =>
                 let y := y + JS.Fin 1 in
                 (ser + JS.Fin c / y, y))
              cof (JS.Fin 1.000000000190015, xx) in
  - tmp + JS.log (JS.Fin 2.5066282746310005 * ser / xx).

(** [if (Math.abs(v) < 1e-30) v = 1e-30] *)
Definition tiny (v : JS.number) : JS.number :=
  if JS.abs v <? JS.Fin 1e-30 then JS.Fin 1e-30 else v.

(** The loop of [betaContinuedFraction]; [fuel] is the number of
    iterations left of the [maxIter = 100]. *)
Fixpoint cfLoop (fuel m : nat) (a b x qab qap qam c d h : JS.number)
  : JS.number :=
  match fuel with
  | O => h
  | S fuel' =>
      let mm := JS.ofNat m in
      let m2 := JS.Fin 2 * mm in
      let aa := mm * (b - mm) * x / ((qam + m2) * (a + m2)) in
      let d := tiny (JS.Fin 1 + aa * d) in
      let c := tiny (JS.Fin 1 + aa / c) in
      let d := JS.Fin 1 / d in
      let h := h * (d * c) in
      let aa := - (a + mm) * (qab + mm) * x / ((a + m2) * (qap + m2)) in
      let d := tiny (JS.Fin 1 + aa * d) in
      let c := tiny (JS.Fin 1 + aa / c) in
      let d := JS.Fin 1 / d in
      let del := d * c in
      let h := h * del in
      if JS.abs (del - JS.Fin 1) <? JS.Fin 3e-7 then h
      else cfLoop fuel' (S m) a b x qab qap qam c d h
  end.

Definition betaContinuedFraction (a b x : JS.number) : JS.number :=
  let qab := a + b in
  let qap := a + JS.Fin 1 in
  let qam := a - JS.Fin 1 in
  let c := JS.Fin 1 in
  let d := tiny (JS.Fin 1 - qab * x / qap) in
  let d := JS.Fin 1 / d in
  let h := d in
  cfLoop 100 1 a b x qab qap qam c d h.

Definition betaIncomplete (a b x : JS.number) : JS.number :=
  if x <=? JS.Fin 0 then JS.Fin 0 else
  if x >=? JS.Fin 1 then JS.Fin 1 else
  let bt := JS.exp (logGamma (a + b) - logGamma a - logGamma b
                    + a * JS.log x + b * JS.log (JS.Fin 1 - x)) in
  if x <? (a + JS.Fin 1) / (a + b + JS.Fin 2)
  then bt * betaContinuedFraction a b x / a
  else JS.Fin 1 - bt * betaContinuedFraction b a (JS.Fin 1 - x) / b.

Definition tTestPValue (t df : JS.number) : JS.number :=
  let x := df / (df + t * t) in
  betaIncomplete (df / JS.Fin 2) (JS.Fin 0.5) x.

(** *** Correlation and regression *)

(** The five sums that [pearsonCorrelation] and [linearRegression]
    both start with. *)
Definition sumOf (x : list R) : JS.number :=
  JS.reduce (fun sum val _ => sum + JS.Fin val) (JS.Fin 0) x.

Definition sumProd (x y : list R) : JS.number :=
  JS.reduce (fun sum val i => sum + JS.Fin val * JS.index y i) (JS.Fin 0) x.

Definition sumSq (x : list R) : JS.number :=
  JS.reduce (fun sum val _ => sum + JS.Fin val * JS.Fin val) (JS.Fin 0) x.

(** [n * sumXY - sumX * sumY] *)
Definition numerator (x y : list R) : JS.number :=
  JS.ofNat (List.length x) * sumProd x y - sumOf x * sumOf y.

(** [(n * sumX2 - sumX * sumX) * (n * sumY2 - sumY * sumY)]; [n] is
    the length of [x]. *)
Definition denominatorTerm (x y : list R) : JS.number :=
  let n := JS.ofNat (List.length x) in
  (n * sumSq x - sumOf x * sumOf x) * (n * sumSq y - sumOf y * sumOf y).

Definition denominator (x y : list R) : JS.number :=
  JS.sqrt (denominatorTerm x y).

Definition pearsonCorrelation (x y : list R) : Correlation :=
  let n := List.length x in
  if (n <? 3)%nat then {| r := JS.Fin 0; p := JS.Fin 1; n := n |} else
  let r := if denominator x y === JS.Fin 0 then JS.Fin 0
           else numerator x y / denominator x y in
  let t := JS.abs r
           * JS.sqrt ((JS.ofNat n - JS.Fin 2) / (JS.Fin 1 - r * r)) in
  let p := tTestPValue t (JS.ofNat n - JS.Fin 2) in
  {| r := r; p := p; n := n |}.

Definition linearRegression (x y : list R) : Regression :=
  let n := JS.ofNat (List.length x) in
  let sumX := sumOf x in
  let sumY := sumOf y in
  let sumXY := sumProd x y in
  let sumX2 := sumSq x in
  let slope := (n * sumXY - sumX * sumY) / (n * sumX2 - sumX * sumX) in
  let intercept := (sumY - slope * sumX) / n in
  let yMean := sumY / n in
  let ssRes :=
    JS.reduce (fun sum val i =>
                 let predicted := slope * JS.index x i + intercept in
                 sum + JS.pow2 (JS.Fin val - predicted))
              (JS.Fin 0) y in
  let ssTot :=
    JS.reduce (fun sum val _ => sum + JS.pow2 (JS.Fin val - yMean))
              (JS.Fin 0) y in
  let r2 := JS.Fin 1 - ssRes / ssTot in
  {| slope := slope; intercept := intercept; r2 := r2 |}.

(** *** Entries *)

(** [getEntryValue(entry, factor)].  Every caller passes one of the
    numeric keys, whose value is a number, so the fallback [return 0]
    for a value that is not a number is not reached. *)
Definition getEntryValue (entry : MoodEntry)
           (factor : MoodEntryNumericKeys) : R :=
  match factor with
  | key_mood => mood entry
  | key_energy => energy entry
  | key_stress => (10 - stress entry)%R
  | key_sleep => sleep entry
  | key_hydration => hydration entry
  | key_exercise => exercise entry
  | key_nutrition => nutrition entry
  end.

Definition keyName (k : MoodEntryNumericKeys) : string :=
  match k with
  | key_mood => "mood"
  | key_energy => "energy"
  | key_stress => "stress"
  | key_sleep => "sleep"
  | key_hydration => "hydration"
  | key_exercise => "exercise"
  | key_nutrition => "nutrition"
  end.

Definition upperChar (c : ascii) : ascii :=
  let k := nat_of_ascii c in
  if ((97 <=? k) && (k <=? 122))%nat then ascii_of_nat (k - 32) else c.

Definition lowerChar (c : ascii) : ascii :=
  let k := nat_of_ascii c in
  if ((65 <=? k) && (k <=? 90))%nat then ascii_of_nat (k + 32) else c.

(** [s.charAt(0).toUpperCase() + s.slice(1)] *)
Definition capitalize (s : string) : string :=
  match s with
  | EmptyString => EmptyString
  | String c rest => String (upperChar c) rest
  end.

Fixpoint toLowerCase (s : string) : string :=
  match s with
  | EmptyString => EmptyString
  | String c rest => String (lowerChar c) (toLowerCase rest)
  end.

Definition interpret (rr : JS.number) : Interpretation :=
  let absR := JS.abs rr in
  let th := correlationThresholds config in
  if absR >=? JS.Fin (strong th)
  then (if rr >? JS.Fin 0 then strong_positive else strong_negative)
  else if absR >=? JS.Fin (moderate th)
  then (if rr >? JS.Fin 0 then moderate_positive else moderate_negative)
  else if absR >=? JS.Fin (weak th)
  then (if rr >? JS.Fin 0 then weak_positive else weak_negative)
  else negligible.

(** The body of [factors.forEach] in [calculateCorrelations]. *)
Definition correlationOf (entries : list MoodEntry)
           (fct : MoodEntryNumericKeys) : CorrelationData :=
  let moodValues := map mood entries in
  let factorValues := map (fun entry => getEntryValue entry fct) entries in
  let result := pearsonCorrelation moodValues factorValues in
  {| factor := capitalize (keyName fct);
     correlation := r result;
     significance := p result;
     sampleSize := n result;
     interpretation := interpret (r result) |}.

Definition calculateCorrelations
  : JS.State (list MoodEntry) (list CorrelationData) :=
  entries <- JS.get ;;
  if (List.length entries <? minEntriesForCorrelation config)%nat
  then JS.ret []
  else
    let factors := [key_energy; key_stress; key_sleep; key_hydration;
                    key_exercise; key_nutrition] in
    let correlationResults := map (correlationOf entries) factors in
    JS.ret (JS.sort (fun a b => JS.abs (correlation b)
                                - JS.abs (correlation a))
                    correlationResults).

(** *** Trends *)

Definition directionOf (weeklyChange : JS.number) : Direction :=
  if JS.abs weeklyChange <? JS.Fin 0.1 then stable
  else if weeklyChange >? JS.Fin 0 then increasing else decreasing.

(** The days since the first entry. *)
Definition timeIndicesOf (entries : list MoodEntry) : list R :=
  match entries with
  | [] => []
  | first :: _ =>
      map (fun entry =>
             ((IZR (date entry) - IZR (date first))
              / (1000 * 60 * 60 * 24))%R)
          entries
  end.

(** The trend pushed for a metric, from its regression on. *)
Definition trendFrom (m : MoodEntryNumericKeys) (regression : Regression)
           (size : nat) : TrendAnalysis :=
  let weeklyChange := slope regression * JS.Fin 7 in
  {| metric := m;
     direction := directionOf weeklyChange;
     magnitude := JS.abs weeklyChange;
     trendSignificance := r2 regression;
     timeframe := size |}.

(** The body of [metrics.forEach] in [analyzeTrends]. *)
Definition trendOf (entries : list MoodEntry)
           (m : MoodEntryNumericKeys) : TrendAnalysis :=
  let values := map (fun entry => getEntryValue entry m) entries in
  let regression := linearRegression (timeIndicesOf entries) values in
  trendFrom m regression (List.length entries).

Definition analyzeTrends : JS.State (list MoodEntry) (list TrendAnalysis) :=
  entries <- JS.get ;;
  if (List.length entries <? minEntriesForTrends config)%nat
  then JS.ret []
  else
    let metrics := [key_mood; key_energy; key_stress; key_sleep;
                    key_hydration; key_exercise; key_nutrition] in
    let trends := map (trendOf entries) metrics in
    JS.ret (JS.sort (fun a b => trendSignificance b - trendSignificance a)
                    trends).

(** *** Wellness metrics *)

(** [arr.slice(-k)] and [arr.slice(-k, -j)]. *)
Definition sliceLast {A : Type} (k : nat) (arr : list A) : list A :=
  skipn (List.length arr - k) arr.

Definition sliceBetween {A : Type} (k j : nat) (arr : list A) : list A :=
  let start := (List.length arr - k)%nat in
  let stop := (List.length arr - j)%nat in
  firstn (stop - start) (skipn start arr).

(** [arr.reduce((sum, e) => sum + e.field, 0) / arr.length] *)
Definition averageOf (field : MoodEntry -> R) (arr : list MoodEntry)
  : JS.number :=
  JS.reduce (fun sum e _ => sum + JS.Fin (field e)) (JS.Fin 0) arr
  / JS.ofNat (List.length arr).

Definition calculateWellnessMetrics
  : JS.State (list MoodEntry) WellnessMetrics :=
  entries <- JS.get ;;
  if (List.length entries =? 0)%nat
  then JS.ret {| averageMood := JS.Fin 0; averageEnergy := JS.Fin 0;
                 averageStress := JS.Fin 0; averageSleep := JS.Fin 0;
                 averageHydration := JS.Fin 0; averageExercise := JS.Fin 0;
                 averageNutrition := JS.Fin 0; consistencyScore := JS.Fin 0;
                 improvementTrend := trend_stable |}
  else
    let recent := sliceLast 14 entries in
    let older := sliceBetween 28 14 entries in
    let trend :=
      if ((7 <=? List.length recent) && (7 <=? List.length older))%nat
      then
        let recentAvg := averageOf mood recent in
        let olderAvg := averageOf mood older in
        if recentAvg >? olderAvg + JS.Fin 0.3 then improving
        else if recentAvg <? olderAvg - JS.Fin 0.3 then declining
        else trend_stable
      else trend_stable in
    JS.ret {| averageMood := averageOf mood entries;
              averageEnergy := averageOf energy entries;
              averageStress := averageOf stress entries;
              averageSleep := averageOf sleep entries;
              averageHydration := averageOf hydration entries;
              averageExercise := averageOf exercise entries;
              averageNutrition := averageOf nutrition entries;
              consistencyScore :=
                JS.min (JS.Fin 100)
                       (JS.ofNat (List.length entries) / JS.Fin 30
                        * JS.Fin 100);
              improvementTrend := trend |}.

(** *** Weekly patterns *)

Definition allDays : list Weekday :=
  [Sunday; Monday; Tuesday; Wednesday; Thursday; Friday; Saturday].

Definition Weekday_eqb (a b : Weekday) : bool :=
  match a, b with
  | Sunday, Sunday | Monday, Monday | Tuesday, Tuesday
  | Wednesday, Wednesday | Thursday, Thursday | Friday, Friday
  | Saturday, Saturday => true
  | _, _ => false
  end.

(** [new Date(t).toLocaleDateString('en-US', { weekday: 'long' })] on a
    host whose local time is [tz] milliseconds ahead of UTC: the time
    value 0 falls on a Thursday. *)
Definition dayName (tz : Z) (t : Z) : Weekday :=
  nth (Z.to_nat (((t + tz) / 86400000 + 4) mod 7)) allDays Sunday.

(** [dayOfWeekMoods]: an object whose seven keys were inserted from
    Sunday to Saturday, which is the order [Object.entries] lists
    them in. *)
Definition emptyWeek : list (Weekday * list R) :=
  map (fun d => (d, [])) allDays.

(** [obj[day].push(v)] *)
Fixpoint push (day : Weekday) (v : R) (obj : list (Weekday * list R))
  : list (Weekday * list R) :=
  match obj with
  | [] => []
  | (k, moods) :: rest =>
      if Weekday_eqb k day then (k, (moods ++ [v])%list) :: rest
      else (k, moods) :: push day v rest
  end.

Record DayAverage : Type := {
  day : Weekday;
  average : JS.number;
  count : nat
}.

Definition dayAverageOf (kv : Weekday * list R) : DayAverage :=
  let '(d, moods) := kv in
  {| day := d;
     average := if (0 <? List.length moods)%nat
                then JS.reduce (fun sum v _ => sum + JS.Fin v) (JS.Fin 0) moods
                     / JS.ofNat (List.length moods)
                else JS.Fin 0;
     count := List.length moods |}.

Definition dayAveragesOf (tz : Z) (entries : list MoodEntry)
  : list DayAverage :=
  let dayOfWeekMoods :=
    fold_left (fun obj entry => push (dayName tz (date entry)) (mood entry) obj)
              entries emptyWeek in
  filter (fun item => (0 <? count item)%nat)
         (map dayAverageOf dayOfWeekMoods).

Definition detectWeeklyPatterns (tz : Z)
  : JS.State (list MoodEntry) (list MoodPattern) :=
  entries <- JS.get ;;
  if (List.length entries <? 14)%nat then JS.ret [] else
  let dayAverages := dayAveragesOf tz entries in
  if (List.length dayAverages <? 4)%nat then JS.ret [] else
  let maxMood := JS.maxOf (map average dayAverages) in
  let minMood := JS.minOf (map average dayAverages) in
  let variation := maxMood - minMood in
  if variation <? JS.Fin 0.5 then JS.ret [] else
  let peakDays :=
    map day (filter (fun d => average d >=? maxMood - JS.Fin 0.3)
                    dayAverages) in
  let lowDays :=
    map day (filter (fun d => average d <=? minMood + JS.Fin 0.3)
                    dayAverages) in
  JS.ret [{| patternType := weekly;
             strength := JS.min (JS.Fin 1) (variation / JS.Fin 3);
             peakDays := peakDays;
             lowDays := lowDays |}].

(** *** Suggestions and insights *)

(** The [switch] of [generateOptimizations]; [None] is the [default]
    branch, which skips the correlation. *)
Definition suggestionFor (corr : CorrelationData)
  : option OptimizationSuggestion :=
  let c := correlation corr in
  let fct := toLowerCase (factor corr) in
  if (fct =? "sleep")%string then
    Some {| category := cat_sleep;
            priority := if JS.abs c >? JS.Fin 0.5 then 1 else 2;
            title := if c >? JS.Fin 0 then "Optimize Sleep Duration"
                     else "Improve Sleep Quality";
            description :=
              if c >? JS.Fin 0
              then "Increase sleep duration to 7-9 hours per night for better mood regulation."
              else "Focus on sleep quality through consistent bedtime routines and sleep hygiene.";
            expectedImpact := JS.abs c * JS.Fin 3;
            suggestionTimeframe := "1-2 weeks";
            difficulty := difficulty_moderate;
            basedOnCorrelation := c |}
  else if (fct =? "exercise")%string then
    Some {| category := cat_exercise;
            priority := if JS.abs c >? JS.Fin 0.4 then 1 else 2;
            title := "Increase Physical Activity";
            description := "Regular exercise shows strong correlation with improved mood. Aim for 30 minutes of moderate activity daily.";
            expectedImpact := JS.abs c * JS.Fin 2.5;
            suggestionTimeframe := "2-3 weeks";
            difficulty := difficulty_moderate;
            basedOnCorrelation := c |}
  else if (fct =? "nutrition")%string then
    Some {| category := cat_nutrition;
            priority := 2;
            title := "Improve Nutritional Quality";
            description := "Focus on whole foods, balanced meals, and consistent eating patterns.";
            expectedImpact := JS.abs c * JS.Fin 2;
            suggestionTimeframe := "1-3 weeks";
            difficulty := difficulty_easy;
            basedOnCorrelation := c |}
  else if (fct =? "stress")%string then
    Some {| category := cat_stress;
            priority := 1;
            title := "Implement Stress Management";
            description := "Practice stress reduction techniques like meditation, deep breathing, or progressive muscle relaxation.";
            expectedImpact := JS.abs c * JS.Fin 3.5;
            suggestionTimeframe := "1-4 weeks";
            difficulty := difficulty_moderate;
            basedOnCorrelation := c |}
  else if (fct =? "hydration")%string then
    Some {| category := cat_hydration;
            priority := 3;
            title := "Maintain Proper Hydration";
            description := "Aim for 8-10 glasses of water daily. Dehydration can significantly impact mood and energy.";
            expectedImpact := JS.abs c * JS.Fin 1.5;
            suggestionTimeframe := "1 week";
            difficulty := difficulty_easy;
            basedOnCorrelation := c |}
  else if (fct =? "energy")%string then
    Some {| category := cat_lifestyle;
            priority := 2;
            title := "Boost Energy Levels";
            description := "Energy and mood are closely linked. Focus on sleep, nutrition, and regular activity.";
            expectedImpact := JS.abs c * JS.Fin 2;
            suggestionTimeframe := "2-4 weeks";
            difficulty := difficulty_moderate;
            basedOnCorrelation := c |}
  else None.

(** The body of [correlations.forEach] in [generateOptimizations]: the
    suggestions that one correlation pushes. *)
Definition suggestionsOf (corr : CorrelationData)
  : list OptimizationSuggestion :=
  if (JS.abs (correlation corr)
      >=? JS.Fin (weak (correlationThresholds config)))
     && (significance corr <? JS.Fin (confidenceThreshold config))
  then match suggestionFor corr with
       | Some suggestion => [suggestion]
       | None => []
       end
  else [].

Definition bySuggestionRank (a b : OptimizationSuggestion) : JS.number :=
  if negb (priority a =? priority b)%nat
  then JS.ofNat (priority a) - JS.ofNat (priority b)
  else expectedImpact b - expectedImpact a.

Definition generateOptimizations
  : JS.State (list MoodEntry) (list OptimizationSuggestion) :=
  correlations <- calculateCorrelations ;;
  let suggestions := flat_map suggestionsOf correlations in
  JS.ret (JS.sort bySuggestionRank suggestions).

Definition directionName (d : Direction) : string :=
  match d with
  | increasing => "increasing"
  | decreasing => "decreasing"
  | stable => "stable"
  end.

Definition isMood (k : MoodEntryNumericKeys) : bool :=
  match k with key_mood => true | _ => false end.

Definition isIncreasing (d : Direction) : bool :=
  match d with increasing => true | _ => false end.

Definition generateAdvancedInsights (tz : Z)
  : JS.State (list MoodEntry) AdvancedInsights :=
  correlations <- calculateCorrelations ;;
  trends <- analyzeTrends ;;
  patterns <- detectWeeklyPatterns tz ;;
  optimizations <- generateOptimizations ;;
  entries <- JS.get ;;
  let recentEntries := sliceLast 7 entries in
  let avgRecentMood :=
    if (0 <? List.length recentEntries)%nat
    then averageOf mood recentEntries
    else JS.Fin 5 in
  let moodTrend := find (fun t => isMood (metric t)) trends in
  let nextWeekMood :=
    match moodTrend with
    | Some t =>
        JS.max (JS.Fin 1)
               (JS.min (JS.Fin 10)
                       (avgRecentMood
                        + magnitude t
                          * (if isIncreasing (direction t)
                             then JS.Fin 1 else JS.Fin (-1))))
    | None => avgRecentMood
    end in
  let predictionFactors :=
    (map factor (firstn 3 correlations)
     ++ match moodTrend with
        | Some t => [(directionName (direction t) ++ " mood trend")%string]
        | None => []
        end)%list in
  JS.ret {| correlations := correlations;
            trends := trends;
            patterns := patterns;
            optimizations := optimizations;
            predictions :=
              {| nextWeekMood := nextWeekMood;
                 confidence :=
                   JS.min (JS.Fin 90)
                          (JS.ofNat (List.length entries) * JS.Fin 3);
                 basedOn := predictionFactors |} |}.

End MoodAnalytics.

(** ** Exact sums

    The real-valued sums that the reductions of the code compute on
    arrays of finite numbers; the statements over exact arithmetic are
    phrased with them. *)

Module Exact.

Definition Rsum (l : list R) : R := fold_right Rplus 0%R l.

(** The sum of the products of two sequences, position by position. *)
Fixpoint Rdot (x y : list R) : R :=
  match x, y with
  | a :: x', b :: y' => (a * b + Rdot x' y')%R
  | _, _ => 0%R
  end.

(** [n * sum(x y) - sum(x) sum(y)], the numerator of the product-moment
    formula; with [y = x] it is [n] squared times the variance. *)
Definition cross (x y : list R) : R :=
  (INR (List.length x) * Rdot x y - Rsum x * Rsum y)%R.

(** The sum of the squared residuals of the line [s x + c]. *)
Fixpoint sqResiduals (s c : R) (x y : list R) : R :=
  match x, y with
  | a :: x', b :: y' =>
      ((b - (s * a + c)) * (b - (s * a + c)) + sqResiduals s c x' y')%R
  | _, _ => 0%R
  end.

(** A sequence that holds two different values. *)
Definition varies (x : list R) : Prop :=
  exists u v : R, In u x /\ In v x /\ u <> v.

(** *** The consistency score over exact arithmetic *)

(** The positive parts of the steps between consecutive samples. *)
Fixpoint stepsFrom (prev : Goals.GoalProgress)
         (rest : list Goals.GoalProgress) : list R :=
  match rest with
  | [] => []
  | cur :: rest' =>
      Rmax 0 (Goals.value cur - Goals.value prev) :: stepsFrom cur rest'
  end.

Definition positiveSteps (samples : list Goals.GoalProgress) : list R :=
  match samples with
  | [] => []
  | first :: rest => stepsFrom first rest
  end.

Definition mean (l : list R) : R := (Rsum l / INR (List.length l))%R.

Definition stddev (l : list R) : R :=
  sqrt (Rsum (map (fun v => (v - mean l) * (v - mean l)) l)
        / INR (List.length l))%R.

(** [max(0, 100 - CV * 100)], where the coefficient of variation is
    the standard deviation over the mean when the mean is positive and
    is 1 otherwise. *)
Definition consistency (steps : list R) : R :=
  let cv := if Rlt_dec 0 (mean steps)
            then (stddev steps / mean steps)%R else 1%R in
  Rmax 0 (100 - cv * 100).

(** *** The rates of a goal over exact arithmetic *)

(** The days from time [a] to time [b]. *)
Definition daysBetween (a b : Z) : R :=
  ((IZR b - IZR a) / (1000 * 60 * 60 * 24))%R.

(** The steps between consecutive samples that go forward in time,
    each with its gain and its length in days. *)
Fixpoint forwardSteps (prev : Goals.GoalProgress)
         (rest : list Goals.GoalProgress) : list (R * R) :=
  match rest with
  | [] => []
  | cur :: rest' =>
      if Rlt_dec 0 (daysBetween (Goals.date prev) (Goals.date cur))
      then ((Goals.value cur - Goals.value prev)%R,
            daysBetween (Goals.date prev) (Goals.date cur))
           :: forwardSteps cur rest'
      else forwardSteps cur rest'
  end.

Definition stepsOf (samples : list Goals.GoalProgress) : list (R * R) :=
  match samples with
  | [] => []
  | first :: rest => forwardSteps first rest
  end.

(** The whole gain of the forward steps over their whole length; 0
    when no step goes forward. *)
Definition gainPerDay (samples : list Goals.GoalProgress) : R :=
  if Rlt_dec 0 (Rsum (map snd (stepsOf samples)))
  then (Rsum (map fst (stepsOf samples))
        / Rsum (map snd (stepsOf samples)))%R
  else 0%R.

(** The actual daily rate of a goal at time [now]: from a history of
    two samples or more, the gain per day of the samples in order of
    date; otherwise the current value over the days since the goal was
    created (a division of numbers, as no day may have passed). *)
Definition actualRate (now : Z) (goal : Goals.Goal)
           (history : list Goals.GoalProgress) : JS.number :=
  if (2 <=? List.length history)%nat
  then JS.Fin (gainPerDay (JS.sort GoalOptimizer.byDate history))
  else JS.Fin (Goals.currentValue goal)
       / JS.Fin (daysBetween (Goals.createdAt goal) now).

(** The rate that meets the target on the deadline: the target over
    the planned days. *)
Definition plannedRate (goal : Goals.Goal) : R :=
  (Goals.targetValue goal
   / daysBetween (Goals.createdAt goal) (Goals.deadline goal))%R.

(** *** The values of a metric as they are stored *)

(** [entry[k]], the field itself. *)
Definition rawValue (entry : MoodTracker.MoodEntry)
           (k : MoodTracker.MoodEntryNumericKeys) : R :=
  match k with
  | MoodTracker.key_mood => MoodTracker.mood entry
  | MoodTracker.key_energy => MoodTracker.energy entry
  | MoodTracker.key_stress => MoodTracker.stress entry
  | MoodTracker.key_sleep => MoodTracker.sleep entry
  | MoodTracker.key_hydration => MoodTracker.hydration entry
  | MoodTracker.key_exercise => MoodTracker.exercise entry
  | MoodTracker.key_nutrition => MoodTracker.nutrition entry
  end.

(** *** The weekday means over exact arithmetic *)

(** The moods recorded on weekday [d], oldest first. *)
Definition moodsOn (tz : Z) (entries : list MoodTracker.MoodEntry)
           (d : MoodTracker.Weekday) : list R :=
  map MoodTracker.mood
      (filter (fun e => MoodAnalytics.Weekday_eqb
                          (MoodAnalytics.dayName tz (MoodTracker.date e)) d)
              entries).

Definition represented (tz : Z) (entries : list MoodTracker.MoodEntry)
           (d : MoodTracker.Weekday) : bool :=
  (0 <? List.length (moodsOn tz entries d))%nat.

(** The weekdays with at least one entry, from Sunday to Saturday. *)
Definition representedDays (tz : Z) (entries : list MoodTracker.MoodEntry)
  : list MoodTracker.Weekday :=
  filter (represented tz entries) MoodAnalytics.allDays.

Definition meanOn (tz : Z) (entries : list MoodTracker.MoodEntry)
           (d : MoodTracker.Weekday) : R :=
  mean (moodsOn tz entries d).

(** [hi] is the greatest and [lo] the least of the means of the
    represented weekdays. *)
Definition greatestMean (tz : Z) (entries : list MoodTracker.MoodEntry)
           (hi : R) : Prop :=
  (exists d, In d (representedDays tz entries) /\ meanOn tz entries d = hi)
  /\ forall d, In d (representedDays tz entries)
               -> (meanOn tz entries d <= hi)%R.

Definition leastMean (tz : Z) (entries : list MoodTracker.MoodEntry)
           (lo : R) : Prop :=
  (exists d, In d (representedDays tz entries) /\ meanOn tz entries d = lo)
  /\ forall d, In d (representedDays tz entries)
               -> (lo <= meanOn tz entries d)%R.

End Exact.

(** ** JavaScript numbers in double precision

    The threshold of [detectWeeklyPatterns] is compared with the
    difference of two averages, which the engine computes in IEEE 754
    binary64 and rounds.  The method is therefore embedded a second
    time, over the binary64 numbers of the kernel, whose operations
    round to nearest, ties to even, as the engine's do. *)

Module Float64.
Import PrimFloat.

Definition number : Set := float.

(** An array length as a number (lengths are below 2^32, and every
    integer below 2^53 is a binary64 number). *)
Definition ofNat (k : nat) : number :=
  of_uint63 (Uint63.of_Z (Z.of_nat k)).

(** [Math.max(a, b)] and [Math.min(a, b)]: NaN if either is NaN, and
    [+0] is greater than [-0]. *)
Definition max (a b : number) : number :=
  if is_nan a || is_nan b then nan
  else if (a <? b)%float then b
  else if (b <? a)%float then a
  else if get_sign a then b else a.

Definition min (a b : number) : number :=
  if is_nan a || is_nan b then nan
  else if (a <? b)%float then a
  else if (b <? a)%float then b
  else if get_sign a then a else b.

(** [Math.max(...arr)] and [Math.min(...arr)]. *)
Definition maxOf (arr : list number) : number :=
  fold_left max arr neg_infinity.
Definition minOf (arr : list number) : number :=
  fold_left min arr infinity.

(** [MoodEntry]: the two fields that [detectWeeklyPatterns] reads;
    [date] is the time value of [new Date(entry.date)]. *)
Record MoodEntry : Type := {
  date : Z;
  mood : number
}.

Record MoodPattern : Type := {
  patternType : MoodTracker.PatternType;
  strength : number;
  peakDays : list MoodTracker.Weekday;
  lowDays : list MoodTracker.Weekday
}.

(** [dayOfWeekMoods], with its keys from Sunday to Saturday. *)
Definition emptyWeek : list (MoodTracker.Weekday * list number) :=
  map (fun d => (d, [])) MoodAnalytics.allDays.

(** [obj[day].push(v)] *)
Fixpoint push (day : MoodTracker.Weekday) (v : number)
         (obj : list (MoodTracker.Weekday * list number))
  : list (MoodTracker.Weekday * list number) :=
  match obj with
  | [] => []
  | (k, moods) :: rest =>
      if MoodAnalytics.Weekday_eqb k day then (k, (moods ++ [v])%list) :: rest
      else (k, moods) :: push day v rest
  end.

Record DayAverage : Type := {
  day : MoodTracker.Weekday;
  average : number;
  count : nat
}.

Definition dayAverageOf (kv : MoodTracker.Weekday * list number)
  : DayAverage :=
  let '(d, moods) := kv in
  {| day := d;
     average := if (0 <? List.length moods)%nat
                then (JS.reduce (fun sum v _ => sum + v) 0 moods
                      / ofNat (List.length moods))%float
                else 0%float;
     count := List.length moods |}.

Definition dayAveragesOf (tz : Z) (entries : list MoodEntry)
  : list DayAverage :=
  let dayOfWeekMoods :=
    fold_left (fun obj entry =>
                 push (MoodAnalytics.dayName tz (date entry)) (mood entry) obj)
              entries emptyWeek in
  filter (fun item => (0 <? count item)%nat)
         (map dayAverageOf dayOfWeekMoods).

(** The literal [0.3] of the source, read as the engine reads it: the
    binary64 number nearest to three tenths. *)
#[warnings="-inexact-float"]
Definition threeTenths : number := 0.3%float.

Definition detectWeeklyPatterns (tz : Z)
  : JS.State (list MoodEntry) (list MoodPattern) :=
  entries <- JS.get ;;
  if (List.length entries <? 14)%nat then JS.ret [] else
  let dayAverages := dayAveragesOf tz entries in
  if (List.length dayAverages <? 4)%nat then JS.ret [] else
  let maxMood := maxOf (map average dayAverages) in
  let minMood := minOf (map average dayAverages) in
  let variation := (maxMood - minMood)%float in
  if (variation <? 0.5)%float then JS.ret [] else
  let peakDays :=
    map day (filter (fun d => (maxMood - threeTenths <=? average d)%float)
                    dayAverages) in
  let lowDays :=
    map day (filter (fun d => (average d <=? minMood + threeTenths)%float)
                    dayAverages) in
  JS.ret [{| patternType := MoodTracker.weekly;
             strength := min 1%float (variation / 3)%float;
             peakDays := peakDays;
             lowDays := lowDays |}].

(** *** The weekday means in double precision *)

(** The moods recorded on weekday [d], oldest first. *)
Definition moodsOn (tz : Z) (entries : list MoodEntry)
           (d : MoodTracker.Weekday) : list number :=
  map mood
      (filter (fun e => MoodAnalytics.Weekday_eqb
                          (MoodAnalytics.dayName tz (date e)) d)
              entries).

(** The weekdays with at least one entry, from Sunday to Saturday. *)
Definition representedDays (tz : Z) (entries : list MoodEntry)
  : list MoodTracker.Weekday :=
  filter (fun d => (0 <? List.length (moodsOn tz entries d))%nat)
         MoodAnalytics.allDays.

(** The mean of an array as the engine computes it: the sum from the
    left, each addition rounded, then one division. *)
Definition meanOf (arr : list number) : number :=
  (fold_left add arr 0 / ofNat (List.length arr))%float.

Definition meanOn (tz : Z) (entries : list MoodEntry)
           (d : MoodTracker.Weekday) : number :=
  meanOf (moodsOn tz entries d).

(** The greatest and the least of the means of the represented
    weekdays, and the variation: their difference, rounded. *)
Definition greatestMean (tz : Z) (entries : list MoodEntry) : number :=
  maxOf (map (meanOn tz entries) (representedDays tz entries)).

Definition leastMean (tz : Z) (entries : list MoodEntry) : number :=
  minOf (map (meanOn tz entries) (representedDays tz entries)).

Definition variation (tz : Z) (entries : list MoodEntry) : number :=
  (greatestMean tz entries - leastMean tz entries)%float.

End Float64.

(** ** [src/components/goals/AnalyticsDashboard.tsx]: the bottleneck
    analysis *)

Module Dashboard.

(** The [Goal] object as the pages read it: its identifier beside the
    fields that the optimizer reads. *)
Record TrackedGoal : Type := {
  id : string;
  goal : Goals.Goal
}.

(** [progressData : Record<string, GoalProgress[]>], an object whose
    keys are goal identifiers, in the order they were inserted. *)
Definition ProgressData : Type := list (string * list Goals.GoalProgress).

(** [obj[key]] *)
Fixpoint lookup (key : string) (obj : ProgressData)
  : option (list Goals.GoalProgress) :=
  match obj with
  | [] => None
  | (k, arr) :: rest => if (k =? key)%string then Some arr
                        else lookup key rest
  end.

(** The array held under [key] after it was changed in place. *)
Fixpoint store (key : string) (arr : list Goals.GoalProgress)
         (obj : ProgressData) : ProgressData :=
  match obj with
  | [] => []
  | (k, old) :: rest => if (k =? key)%string then (k, arr) :: rest
                        else (k, old) :: store key arr rest
  end.

(** [s.includes(search)] *)
Fixpoint includes (search s : string) : bool :=
  String.prefix search s
  || match s with
     | EmptyString => false
     | String _ rest => includes search rest
     end.

(** The type that the dashboard gives to a bottleneck text. *)
Definition classify (bottleneck : string) : string :=
  if includes "efficiency" bottleneck then "Low Efficiency"
  else if includes "consistency" bottleneck then "Poor Consistency"
  else if includes "time" bottleneck then "Time Pressure"
  else if includes "stagnation" bottleneck then "Progress Stagnation"
  else "Other".

(** [counts[type] = (counts[type] || 0) + 1] on an object whose keys
    are listed in the order they were inserted. *)
Fixpoint bump (type : string) (counts : list (string * nat))
  : list (string * nat) :=
  match counts with
  | [] => [(type, 1%nat)]
  | (k, c) :: rest => if (k =? type)%string then (k, S c) :: rest
                      else (k, c) :: bump type rest
  end.

Record BottleneckStat : Type := {
  type : string;
  count : nat;
  percentage : JS.number
}.

(** [analyzeGoalOptimization(goal, progressData[goal.id] || [], goals)]:
    the call runs on the array that the object holds for the goal,
    which it may sort in place, or on a new empty array when the object
    holds none. *)
Definition analyzeStored (now : Z) (g : TrackedGoal)
           (allGoals : list Goals.Goal)
  : JS.State ProgressData Goals.OptimizationAnalysis :=
  fun obj =>
    match lookup (id g) obj with
    | Some arr =>
        let (analysis, arr') :=
          GoalOptimizer.analyzeGoalOptimization now (goal g) allGoals arr in
        (analysis, store (id g) arr' obj)
    | None =>
        (fst (GoalOptimizer.analyzeGoalOptimization now (goal g) allGoals []),
         obj)
    end.

Definition bottleneckAnalysis (now : Z) (filteredGoals : list TrackedGoal)
  : JS.State ProgressData (list BottleneckStat) :=
  fun obj =>
    let allGoals := map goal filteredGoals in
    let '(bottleneckTypes, obj') :=
      fold_left
        (fun '(counts, o) g =>
           let (analysis, o') := analyzeStored now g allGoals o in
           (fold_left (fun c bottleneck => bump (classify bottleneck) c)
                      (Goals.bottlenecks analysis) counts,
            o'))
        filteredGoals ([], obj) in
    (map (fun '(t, c) =>
            {| type := t;
               count := c;
               percentage := JS.ofNat c
                             / JS.ofNat (List.length filteredGoals)
                             * JS.Fin 100 |})
         bottleneckTypes,
     obj').

End Dashboard.

(** ** [src/app/goal-tracker/goals/page.tsx]: recording progress *)

Module GoalsPage.

Inductive GoalStatus : Type :=
| ACTIVE | PAUSED | COMPLETED | CANCELLED | OVERDUE.

(** The [Goal] object of the page: the fields that the optimizer reads
    ([goal]) and those that [handleUpdateProgress] reads or writes. *)
Record PageGoal : Type := {
  id : string;
  goal : Goals.Goal;
  status : GoalStatus;
  metrics : Goals.GoalMetrics;
  updatedAt : Z
}.

(** [{ ...goal, currentValue: value }] on the fields of the optimizer. *)
Definition withCurrentValue (g : Goals.Goal) (value : R) : Goals.Goal :=
  {| Goals.targetValue := Goals.targetValue g;
     Goals.currentValue := value;
     Goals.deadline := Goals.deadline g;
     Goals.createdAt := Goals.createdAt g |}.

(** [progressData[goalId] || []] *)
Definition progressOf (goalId : string) (progressData : Dashboard.ProgressData)
  : list Goals.GoalProgress :=
  match Dashboard.lookup goalId progressData with
  | Some arr => arr
  | None => []
  end.

(** The function handed to [setGoals], on one goal.  The metrics are
    computed on a new array, [[...(progressData[goalId] || []),
    progress]], so that what [calculateGoalMetrics] sorts is not seen
    by anyone else. *)
Definition updateGoal (now : Z) (goalId : string) (value : R)
           (progressData : Dashboard.ProgressData)
           (progress : Goals.GoalProgress) (g : PageGoal) : PageGoal :=
  if (id g =? goalId)%string then
    let goalProgressData := (progressOf goalId progressData ++ [progress])%list in
    let newMetrics :=
      fst (GoalOptimizer.calculateGoalMetrics now (goal g) goalProgressData) in
    {| id := id g;
       goal := withCurrentValue (goal g) value;
       status := if Goals.completionRate newMetrics >=? JS.Fin 100
                 then COMPLETED else status g;
       metrics := newMetrics;
       updatedAt := now |}
  else g.

(** [{ ...prev, [goalId]: [...(prev[goalId] || []), progress] }] *)
Fixpoint appendProgress (goalId : string) (progress : Goals.GoalProgress)
         (prev : Dashboard.ProgressData) : Dashboard.ProgressData :=
  match prev with
  | [] => [(goalId, [progress])]
  | (k, arr) :: rest =>
      if (k =? goalId)%string then (k, (arr ++ [progress])%list) :: rest
      else (k, arr) :: appendProgress goalId progress rest
  end.

(** [handleUpdateProgress(goalId, value, notes, mood)] on the two
    states of the page, the progress object and the goals. *)
Definition handleUpdateProgress (now : Z) (goalId : string) (value : R)
           (notes : option string) (mood : option R)
           (state : Dashboard.ProgressData * list PageGoal)
  : Dashboard.ProgressData * list PageGoal :=
  let '(progressData, goals) := state in
  let progress :=
    {| Goals.goalId := goalId; Goals.date := now; Goals.value := value;
       Goals.notes := notes; Goals.mood := mood |} in
  (appendProgress goalId progress progressData,
   map (updateGoal now goalId value progressData progress) goals).

End GoalsPage.

(** ** [src/hooks/useMoodTracker.ts]: the entries and their analytics *)

Module MoodTrackerHook.

(** [addEntry]: the state becomes a sorted copy of the entries with
    the new one, which is the form data with an identifier and the date
    of the day. *)
Definition addEntry (newEntry : MoodTracker.MoodEntry)
           (entries : list MoodTracker.MoodEntry)
  : list MoodTracker.MoodEntry :=
  JS.sort MoodAnalytics.byDate (entries ++ [newEntry])%list.

Definition deleteEntry (id : string) (entries : list MoodTracker.MoodEntry)
  : list MoodTracker.MoodEntry :=
  filter (fun entry => negb (MoodTracker.id entry =? id)%string) entries.

(** The memoized [analytics]: [null] under three entries, else the
    insights of a [MoodAnalytics] built on the state array itself. *)
Definition analytics (tz : Z)
  : JS.State (list MoodTracker.MoodEntry)
             (option MoodTracker.AdvancedInsights) :=
  entries <- JS.get ;;
  if (List.length entries <? 3)%nat then JS.ret None else
  _ <- MoodAnalytics.constructor ;;
  insights <- MoodAnalytics.generateAdvancedInsights tz ;;
  JS.ret (Some insights).

(** The memoized [wellnessMetrics]. *)
Definition wellnessMetrics
  : JS.State (list MoodTracker.MoodEntry) MoodTracker.WellnessMetrics :=
  entries <- JS.get ;;
  if (List.length entries =? 0)%nat
  then JS.ret {| MoodTracker.averageMood := JS.Fin 0;
                 MoodTracker.averageEnergy := JS.Fin 0;
                 MoodTracker.averageStress := JS.Fin 0;
                 MoodTracker.averageSleep := JS.Fin 0;
                 MoodTracker.averageHydration := JS.Fin 0;
                 MoodTracker.averageExercise := JS.Fin 0;
                 MoodTracker.averageNutrition := JS.Fin 0;
                 MoodTracker.consistencyScore := JS.Fin 0;
                 MoodTracker.improvementTrend := MoodTracker.trend_stable |}
  else
    _ <- MoodAnalytics.constructor ;;
    MoodAnalytics.calculateWellnessMetrics.

End MoodTrackerHook.

(** ** Concrete inputs *)

Module Fixtures.

(** One day, in milliseconds. *)
Definition oneDay : Z := 86400000.

(** A goal of 100 units over ten days, created at time 0, with 40
    units reached. *)
Definition tenDayGoal : Goals.Goal :=
  {| Goals.targetValue := 100; Goals.currentValue := 40;
     Goals.deadline := 10 * oneDay; Goals.createdAt := 0 |}.

Definition sampleAt (day : Z) (v : R) : Goals.GoalProgress :=
  {| Goals.goalId := "g1"; Goals.date := day * oneDay; Goals.value := v;
     Goals.notes := None; Goals.mood := None |}.

(** Two samples handed over newest first. *)
Definition newestFirst : list Goals.GoalProgress :=
  [sampleAt 2 30; sampleAt 1 10].

(** Three samples, handed over out of order, that gain 20 units a
    day: twice the rate that [tenDayGoal] plans. *)
Definition twiceThePlan : list Goals.GoalProgress :=
  [sampleAt 2 40; sampleAt 0 0; sampleAt 1 20].

(** Three samples in order with no progress between them. *)
Definition flatProgress : list Goals.GoalProgress :=
  [sampleAt 1 10; sampleAt 2 10; sampleAt 3 10].

Definition entryAt (name : string) (day : Z) (m s : R)
  : MoodTracker.MoodEntry :=
  {| MoodTracker.id := name; MoodTracker.date := day * oneDay;
     MoodTracker.mood := m; MoodTracker.energy := 5;
     MoodTracker.stress := s; MoodTracker.sleep := 7;
     MoodTracker.hydration := 8; MoodTracker.exercise := 30;
     MoodTracker.nutrition := 6; MoodTracker.notes := "" |}.

(** Two entries handed over newest first. *)
Definition entriesNewestFirst : list MoodTracker.MoodEntry :=
  [entryAt "b" 2 6 4; entryAt "a" 1 5 3].

(** Fourteen daily entries, from day 0 (a Thursday) on, whose stress
    rises by a tenth a day and whose mood is 7 on Saturdays and Sundays
    and 5 on the other days. *)
Definition fortnight : list MoodTracker.MoodEntry :=
  map (fun k => entryAt "e" (Z.of_nat k)
                        (if ((k mod 7 =? 2) || (k mod 7 =? 3))%nat
                         then 7 else 5)
                        (3 + INR k / 10))
      (seq 0 14).

(** Fourteen daily entries, from day 0 on, whose stress rises by a
    hundredth a day. *)
Definition slowRise : list MoodTracker.MoodEntry :=
  map (fun k => entryAt "e" (Z.of_nat k) 5 (3 + INR k / 100)) (seq 0 14).

(** Fourteen entries in order of date, as day and whole-number mood:
    three Thursdays (moods 4, 4, 5), six Fridays (4, 4, 4, 4, 4, 3),
    three Saturdays and two Sundays (all 4).  The weekday means are
    13/3, 23/6, 4 and 4: a variation of exactly one half. *)
Definition halfPointData : list (nat * nat) :=
  [(0, 4); (1, 4); (2, 4); (3, 4); (7, 4); (8, 4); (9, 4); (10, 4);
   (14, 5); (15, 4); (16, 4); (22, 4); (29, 4); (36, 3)].

Definition halfPoint : list MoodTracker.MoodEntry :=
  map (fun dm => entryAt "e" (Z.of_nat (fst dm)) (INR (snd dm)) 5) halfPointData.

Definition halfPoint64 : list Float64.MoodEntry :=
  map (fun dm => {| Float64.date := Z.of_nat (fst dm) * oneDay;
                    Float64.mood := Float64.ofNat (snd dm) |})
      halfPointData.

(** The moods of [fortnight] in double precision. *)
Definition fortnight64 : list Float64.MoodEntry :=
  map (fun k => {| Float64.date := Z.of_nat k * oneDay;
                   Float64.mood :=
                     Float64.ofNat
                       (if ((k mod 7 =? 2) || (k mod 7 =? 3))%nat
                        then 7 else 5) |})
      (seq 0 14).

End Fixtures.

(* ================================================================= *)
(** * Part II: properties *)
(* ================================================================= *)

(** ** Numbers *)

Lemma Rltb_true (u v : R) : (u < v)%R -> JS.Rltb u v = true.
Proof. intros H. unfold JS.Rltb. destruct (Rlt_dec u v); [reflexivity | contradiction]. Qed.

Lemma Rltb_false (u v : R) : (v <= u)%R -> JS.Rltb u v = false.
Proof. intros H. unfold JS.Rltb. destruct (Rlt_dec u v); [lra | reflexivity]. Qed.

Lemma Rleb_true (u v : R) : (u <= v)%R -> JS.Rleb u v = true.
Proof. intros H. unfold JS.Rleb. destruct (Rle_dec u v); [reflexivity | contradiction]. Qed.

Lemma Rleb_false (u v : R) : (v < u)%R -> JS.Rleb u v = false.
Proof. intros H. unfold JS.Rleb. destruct (Rle_dec u v); [lra | reflexivity]. Qed.

Lemma Reqb_true (u v : R) : u = v -> JS.Reqb u v = true.
Proof. intros H. unfold JS.Reqb. destruct (Req_dec_T u v); [reflexivity | contradiction]. Qed.

Lemma Reqb_false (u v : R) : u <> v -> JS.Reqb u v = false.
Proof. intros H. unfold JS.Reqb. destruct (Req_dec_T u v); [contradiction | reflexivity]. Qed.

Lemma div_fin (u v : R) : v <> 0%R -> JS.Fin u / JS.Fin v = JS.Fin (u / v).
Proof. intros H. simpl. destruct (Req_dec_T v 0); [contradiction | reflexivity]. Qed.

Lemma div_zero_zero : JS.Fin 0 / JS.Fin 0 = JS.NaN.
Proof.
  simpl. destruct (Req_dec_T 0 0) as [_ | H]; [| now elim H].
  unfold JS.Rsign. destruct (total_order_T 0 0) as [[H | _] | H]; try lra.
  reflexivity.
Qed.

Lemma sqrt_fin (u : R) : (0 <= u)%R -> JS.sqrt (JS.Fin u) = JS.Fin (sqrt u).
Proof. intros H. simpl. destruct (Rlt_dec u 0); [lra | reflexivity]. Qed.

Lemma mul_comm (a b : JS.number) : a * b = b * a.
Proof.
  destruct a, b; simpl; try reflexivity. now rewrite Rmult_comm.
Qed.

Lemma div_zero_nan (u v : R) :
  v = 0%R -> u = 0%R -> JS.Fin u / JS.Fin v = JS.NaN.
Proof. intros -> ->. apply div_zero_zero. Qed.

Lemma div_zero_pos (u v : R) :
  v = 0%R -> (0 < u)%R -> JS.Fin u / JS.Fin v = JS.PosInf.
Proof.
  intros -> H. simpl. destruct (Req_dec_T 0 0) as [_ | E]; [| now elim E].
  unfold JS.Rsign. destruct (total_order_T u 0) as [[? | ?] | ?]; try lra.
  reflexivity.
Qed.

Lemma gt_fin (u v : R) : (JS.Fin u >? JS.Fin v) = JS.Rltb v u.
Proof. reflexivity. Qed.

Lemma lt_fin (u v : R) : (JS.Fin u <? JS.Fin v) = JS.Rltb u v.
Proof. reflexivity. Qed.

(** Evaluating the arithmetic of the code on concrete finite numbers:
    the total operations compute, a division is rewritten once its
    divisor is known to be zero or not, a comparison once it is
    decided. *)
Ltac js_arith :=
  cbn [JS.add JS.sub JS.mul JS.pow2 JS.neg JS.max JS.min JS.abs JS.ofNat
       JS.ofZ JS.reduce JS.reduceFrom JS.index nth_error].

(** Unfolding the concrete data around the partial operations. *)
Ltac js_unfold :=
  cbn -[JS.div JS.lt JS.gt JS.le JS.ge JS.eq JS.sqrt JS.log JS.exp
        JS.timeClip].

Ltac js_div :=
  match goal with
  | |- context [JS.div (JS.Fin ?u) (JS.Fin ?v)] =>
      first [ rewrite (div_fin u v) by lra
            | rewrite (div_zero_nan u v) by lra
            | rewrite (div_zero_pos u v) by lra ]
  end.

Ltac js_cmp :=
  match goal with
  | |- context [JS.gt (JS.Fin ?u) (JS.Fin ?v)] =>
      rewrite (gt_fin u v);
      first [ rewrite (Rltb_true v u) by lra
            | rewrite (Rltb_false v u) by lra ]
  | |- context [JS.lt (JS.Fin ?u) (JS.Fin ?v)] =>
      rewrite (lt_fin u v);
      first [ rewrite (Rltb_true u v) by lra
            | rewrite (Rltb_false u v) by lra ]
  end.

Ltac js_eval :=
  repeat first [js_div | js_cmp]; js_arith;
  repeat (first [js_div | js_cmp]; js_arith).

(** Deciding the comparisons of a goal on concrete reals. *)
Ltac js_decide :=
  unfold JS.Rltb, JS.Rleb, JS.Reqb, JS.Rsign;
  repeat match goal with
    | |- context [Req_dec_T ?a ?b] =>
        destruct (Req_dec_T a b); try (exfalso; lra)
    | |- context [Rlt_dec ?a ?b] =>
        destruct (Rlt_dec a b); try (exfalso; lra)
    | |- context [Rle_dec ?a ?b] =>
        destruct (Rle_dec a b); try (exfalso; lra)
    | |- context [total_order_T ?a ?b] =>
        destruct (total_order_T a b) as [[?|?]|?]; try (exfalso; lra)
    end.

(** ** The sums of the code are the exact sums *)

Lemma reduceFrom_sum (x : list R) :
  forall (i : nat) (a : R),
    JS.reduceFrom (fun sum val (_ : nat) => sum + JS.Fin val) i (JS.Fin a) x
    = JS.Fin (a + Exact.Rsum x).
Proof.
  induction x as [| v x IH]; intros i a; simpl.
  - f_equal. lra.
  - rewrite IH. f_equal. lra.
Qed.

Lemma sumOf_exact (x : list R) :
  MoodAnalytics.sumOf x = JS.Fin (Exact.Rsum x).
Proof.
  unfold MoodAnalytics.sumOf, JS.reduce. rewrite reduceFrom_sum.
  f_equal. lra.
Qed.

Lemma reduceFrom_sq (x : list R) :
  forall (i : nat) (a : R),
    JS.reduceFrom (fun sum val (_ : nat) => sum + JS.Fin val * JS.Fin val)
                  i (JS.Fin a) x
    = JS.Fin (a + Exact.Rdot x x).
Proof.
  induction x as [| v x IH]; intros i a; simpl.
  - f_equal. lra.
  - rewrite IH. f_equal. lra.
Qed.

Lemma sumSq_exact (x : list R) :
  MoodAnalytics.sumSq x = JS.Fin (Exact.Rdot x x).
Proof.
  unfold MoodAnalytics.sumSq, JS.reduce. rewrite reduceFrom_sq.
  f_equal. lra.
Qed.

Lemma index_app (pre : list R) (b : R) (y : list R) :
  JS.index (pre ++ b :: y) (List.length pre) = JS.Fin b.
Proof.
  unfold JS.index. rewrite nth_error_app2 by lia.
  now rewrite Nat.sub_diag.
Qed.

Lemma reduceFrom_prod (x : list R) :
  forall (pre y : list R) (a : R),
    List.length x = List.length y ->
    JS.reduceFrom (fun sum val i => sum + JS.Fin val * JS.index (pre ++ y) i)
                  (List.length pre) (JS.Fin a) x
    = JS.Fin (a + Exact.Rdot x y).
Proof.
  induction x as [| v x IH]; intros pre y a Hlen.
  - destruct y; [| discriminate]. simpl. f_equal. lra.
  - destruct y as [| b y]; [discriminate |].
    cbn [JS.reduceFrom]. rewrite index_app.
    change (JS.Fin a + JS.Fin v * JS.Fin b) with (JS.Fin (a + v * b)).
    replace (pre ++ b :: y)%list with ((pre ++ [b]) ++ y)%list
      by (now rewrite <- app_assoc).
    replace (S (List.length pre)) with (List.length (pre ++ [b])%list)
      by (rewrite length_app; simpl; lia).
    rewrite IH by (simpl in Hlen; lia).
    simpl. f_equal. lra.
Qed.

Lemma sumProd_exact (x y : list R) :
  List.length x = List.length y ->
  MoodAnalytics.sumProd x y = JS.Fin (Exact.Rdot x y).
Proof.
  intros Hlen. unfold MoodAnalytics.sumProd, JS.reduce.
  pose proof (reduceFrom_prod x [] y 0%R Hlen) as H.
  cbn [app List.length] in H. rewrite H. f_equal. lra.
Qed.

Lemma Rdot_comm (x : list R) : forall y, Exact.Rdot x y = Exact.Rdot y x.
Proof.
  induction x as [| a x IH]; intros [| b y]; simpl; try reflexivity.
  rewrite IH. lra.
Qed.

Lemma numerator_exact (x y : list R) :
  List.length x = List.length y ->
  MoodAnalytics.numerator x y = JS.Fin (Exact.cross x y).
Proof.
  intros Hlen. unfold MoodAnalytics.numerator, Exact.cross.
  rewrite sumProd_exact, !sumOf_exact by assumption. reflexivity.
Qed.

Lemma denominatorTerm_exact (x y : list R) :
  List.length x = List.length y ->
  MoodAnalytics.denominatorTerm x y
  = JS.Fin (Exact.cross x x * Exact.cross y y).
Proof.
  intros Hlen. unfold MoodAnalytics.denominatorTerm, Exact.cross.
  rewrite !sumSq_exact, !sumOf_exact. rewrite <- Hlen. reflexivity.
Qed.

(** ** The product-moment inequality *)

Section CauchySchwarz.

Local Open Scope R_scope.

Lemma Rsum_shift_sq (a : R) (l : list R) :
  Exact.Rsum (map (fun z => (z - a) * (z - a)) l)
  = Exact.Rdot l l - 2 * a * Exact.Rsum l + INR (List.length l) * (a * a).
Proof.
  induction l as [| z l IH].
  - simpl. lra.
  - change (List.length (z :: l)) with (S (List.length l)).
    rewrite S_INR. simpl. rewrite IH. lra.
Qed.

Lemma Rsum_sq_nonneg (a : R) (l : list R) :
  0 <= Exact.Rsum (map (fun z => (z - a) * (z - a)) l).
Proof.
  induction l as [| z l IH]; simpl; [lra |].
  fold (Exact.Rsum (map (fun z => (z - a) * (z - a)) l)).
  pose proof (Rle_0_sqr (z - a)) as H. unfold Rsqr in H. lra.
Qed.

(** [n sum(z²) - (sum z)²] is never negative. *)
Lemma cross_self_nonneg (l : list R) : 0 <= Exact.cross l l.
Proof.
  unfold Exact.cross. induction l as [| a l IH].
  - simpl. lra.
  - change (List.length (a :: l)) with (S (List.length l)).
    rewrite S_INR. simpl.
    pose proof (Rsum_sq_nonneg a l) as H.
    rewrite Rsum_shift_sq in H. nra.
Qed.

(** The sequence [s x_i + t y_i]. *)
Lemma lin_sums (s t : R) (x : list R) :
  forall y, List.length x = List.length y ->
  let z := map (fun ab => s * fst ab + t * snd ab) (combine x y) in
  List.length z = List.length x
  /\ Exact.Rsum z = s * Exact.Rsum x + t * Exact.Rsum y
  /\ Exact.Rdot z z = s * s * Exact.Rdot x x + 2 * s * t * Exact.Rdot x y
                      + t * t * Exact.Rdot y y.
Proof.
  induction x as [| a x IH]; intros [| b y] Hlen; try discriminate.
  - simpl. repeat split; lra.
  - injection Hlen as Hlen. destruct (IH y Hlen) as (Hl & Hs & Hd).
    cbn zeta. simpl. repeat split.
    + now rewrite Hl.
    + rewrite Hs. lra.
    + rewrite Hd. lra.
Qed.

Lemma cross_quadratic (x y : list R) :
  List.length x = List.length y ->
  forall s t,
    0 <= s * s * Exact.cross x x + 2 * s * t * Exact.cross x y
         + t * t * Exact.cross y y.
Proof.
  intros Hlen s t.
  destruct (lin_sums s t x y Hlen) as (Hl & Hs & Hd).
  pose proof (cross_self_nonneg
                (map (fun ab => s * fst ab + t * snd ab) (combine x y)))
    as H.
  unfold Exact.cross in *. rewrite Hl, Hs, Hd in H. rewrite <- Hlen.
  nra.
Qed.

Lemma cross_Cauchy_Schwarz (x y : list R) :
  List.length x = List.length y ->
  Exact.cross x y * Exact.cross x y <= Exact.cross x x * Exact.cross y y.
Proof.
  intros Hlen.
  pose proof (cross_quadratic x y Hlen) as Q.
  pose proof (cross_self_nonneg x) as HA.
  pose proof (cross_self_nonneg y) as HB.
  set (A := Exact.cross x x) in *. set (B := Exact.cross y y) in *.
  set (C := Exact.cross x y) in *.
  destruct (Rle_lt_or_eq_dec 0 B HB) as [Bpos | Bzero].
  - pose proof (Q B (- C)) as H.
    assert (0 <= B * (A * B - C * C)) by nra.
    assert (0 <= A * B - C * C); [| lra].
    apply Rmult_le_reg_l with B; [assumption | lra].
  - rewrite <- Bzero in *.
    destruct (Req_dec C 0) as [-> | Cnz]; [lra |].
    pose proof (Q 1 (- (A + 1) / (2 * C))) as H.
    replace (1 * 1 * A + 2 * 1 * (- (A + 1) / (2 * C)) * C
             + - (A + 1) / (2 * C) * (- (A + 1) / (2 * C)) * 0)
      with (-1) in H by (field; assumption).
    lra.
Qed.

End CauchySchwarz.

(** ** Sequences that vary *)

Lemma Rsum_sq_member (a w : R) (l : list R) :
  In w l ->
  ((w - a) * (w - a)
   <= Exact.Rsum (map (fun z => (z - a) * (z - a)) l))%R.
Proof.
  induction l as [| z l IH]; [contradiction |].
  pose proof (Rsum_sq_nonneg a l) as Hl.
  pose proof (Rle_0_sqr (z - a)) as Hz. unfold Rsqr in Hz.
  cbn [map Exact.Rsum fold_right].
  fold (Exact.Rsum (map (fun z => ((z - a) * (z - a))%R) l)).
  intros [-> | Hw]; [lra |]. specialize (IH Hw). lra.
Qed.

Lemma cross_cons (a : R) (l : list R) :
  Exact.cross (a :: l) (a :: l)
  = (Exact.cross l l
     + Exact.Rsum (map (fun z => (z - a) * (z - a)) l))%R.
Proof.
  rewrite Rsum_shift_sq. unfold Exact.cross.
  change (List.length (a :: l)) with (S (List.length l)).
  rewrite S_INR. simpl. fold (Exact.Rsum l). lra.
Qed.

(** [n sum(x²) - (sum x)²] is positive as soon as two values differ. *)
Lemma cross_varies (x : list R) : Exact.varies x -> (0 < Exact.cross x x)%R.
Proof.
  intros (u & v & Hu & Hv & Huv).
  destruct x as [| a l]; [contradiction |].
  rewrite cross_cons. pose proof (cross_self_nonneg l) as Hl.
  assert (Hw : exists w, In w l /\ w <> a).
  { destruct (Req_dec u a) as [Eu | Nu].
    - exists v. split; [| congruence].
      destruct Hv as [Ev | Hv]; [congruence | exact Hv].
    - exists u. split; [| exact Nu].
      destruct Hu as [Eu | Hu]; [congruence | exact Hu]. }
  destruct Hw as (w & Hw & Hwa).
  pose proof (Rsum_sq_member a w l Hw) as Hs.
  assert (0 < (w - a) * (w - a))%R.
  { assert (w - a <> 0)%R by lra. nra. }
  lra.
Qed.

(** ** Pearson correlation *)

(** C4.  With fewer than three values [pearsonCorrelation] returns
    [r = 0], [p = 1] and the length, as a value and not as an error;
    and whenever the denominator of the formula is 0 the coefficient
    returned is 0. *)
Theorem pearsonCorrelation_neutral (x y : list R) :
  (List.length x < 3 ->
   MoodAnalytics.pearsonCorrelation x y
   = {| MoodAnalytics.r := JS.Fin 0; MoodAnalytics.p := JS.Fin 1;
        MoodAnalytics.n := List.length x |})
  /\ (MoodAnalytics.denominator x y = JS.Fin 0 ->
      MoodAnalytics.r (MoodAnalytics.pearsonCorrelation x y) = JS.Fin 0).
Proof.
  unfold MoodAnalytics.pearsonCorrelation. split.
  - intros Hn. apply Nat.ltb_lt in Hn. now rewrite Hn.
  - intros Hd. destruct (List.length x <? 3)%nat; [reflexivity |].
    cbn [MoodAnalytics.r]. rewrite Hd. simpl. now rewrite Reqb_true.
Qed.

Lemma pearsonCorrelation_neutral_witness :
  MoodAnalytics.pearsonCorrelation [1; 2]%R [3; 4]%R
  = {| MoodAnalytics.r := JS.Fin 0; MoodAnalytics.p := JS.Fin 1;
       MoodAnalytics.n := 2 |}
  /\ MoodAnalytics.r
       (MoodAnalytics.pearsonCorrelation [1; 1; 1]%R [1; 2; 3]%R)
     = JS.Fin 0.
Proof.
  split.
  - apply (proj1 (pearsonCorrelation_neutral [1; 2]%R [3; 4]%R)).
    simpl. lia.
  - apply (proj2 (pearsonCorrelation_neutral [1; 1; 1]%R [1; 2; 3]%R)).
    unfold MoodAnalytics.denominator.
    rewrite denominatorTerm_exact by reflexivity.
    rewrite sqrt_fin by (unfold Exact.cross; simpl; lra). f_equal.
    replace (Exact.cross [1; 1; 1] [1; 1; 1])%R with 0%R
      by (unfold Exact.cross; simpl; lra).
    rewrite Rmult_0_l. apply sqrt_0.
Defined.

(** C5.  On sequences of equal length the correlation is symmetric in
    its two arguments, in the coefficient, the p-value and the sample
    size. *)
Theorem pearsonCorrelation_symmetric (x y : list R) :
  List.length x = List.length y ->
  MoodAnalytics.pearsonCorrelation x y = MoodAnalytics.pearsonCorrelation y x.
Proof.
  intros Hlen.
  assert (Hnum : MoodAnalytics.numerator x y = MoodAnalytics.numerator y x).
  { unfold MoodAnalytics.numerator.
    rewrite !sumProd_exact by congruence.
    rewrite (Rdot_comm x y), Hlen. f_equal. apply mul_comm. }
  assert (Hden : MoodAnalytics.denominator x y = MoodAnalytics.denominator y x).
  { unfold MoodAnalytics.denominator, MoodAnalytics.denominatorTerm.
    rewrite Hlen. f_equal. apply mul_comm. }
  unfold MoodAnalytics.pearsonCorrelation.
  rewrite Hnum, Hden, Hlen. reflexivity.
Qed.

Lemma pearsonCorrelation_symmetric_witness :
  MoodAnalytics.pearsonCorrelation [1; 2; 3; 4]%R [2; 1; 4; 3]%R
  = MoodAnalytics.pearsonCorrelation [2; 1; 4; 3]%R [1; 2; 3; 4]%R.
Proof.
  apply (pearsonCorrelation_symmetric [1; 2; 3; 4]%R [2; 1; 4; 3]%R).
  reflexivity.
Defined.

(** C3.  On sequences of equal length at least 3 whose denominator
    term is not 0, the coefficient is a finite number between -1
    and 1. *)
Theorem pearsonCorrelation_bounds (x y : list R) :
  List.length x = List.length y ->
  3 <= List.length x ->
  MoodAnalytics.denominatorTerm x y <> JS.Fin 0 ->
  exists v : R,
    MoodAnalytics.r (MoodAnalytics.pearsonCorrelation x y) = JS.Fin v
    /\ (-1 <= v <= 1)%R.
Proof.
  intros Hlen Hn Hnz.
  pose proof (cross_Cauchy_Schwarz x y Hlen) as CS.
  pose proof (cross_self_nonneg x) as HA.
  pose proof (cross_self_nonneg y) as HB.
  unfold MoodAnalytics.pearsonCorrelation.
  replace (List.length x <? 3)%nat with false
    by (symmetry; apply Nat.ltb_ge; lia).
  cbn [MoodAnalytics.r].
  unfold MoodAnalytics.denominator.
  rewrite denominatorTerm_exact in * by assumption.
  rewrite numerator_exact by assumption.
  set (A := Exact.cross x x) in *. set (B := Exact.cross y y) in *.
  set (C := Exact.cross x y) in *.
  assert (HAB : (0 < A * B)%R).
  { destruct (Rle_lt_or_eq_dec 0 (A * B)) as [H | H]; [nra | assumption |].
    elim Hnz. now rewrite <- H. }
  rewrite sqrt_fin by lra.
  pose proof (sqrt_lt_R0 _ HAB) as HD.
  pose proof (sqrt_sqrt (A * B) (Rlt_le _ _ HAB)) as HDD.
  set (D := sqrt (A * B)) in *.
  simpl JS.eq. rewrite Reqb_false by lra.
  rewrite div_fin by lra.
  exists (C / D)%R. split; [reflexivity |].
  assert (HCD : (C / D * D = C)%R) by (field; lra).
  assert (HC : (- D <= C <= D)%R) by nra.
  split.
  - apply Rmult_le_reg_r with D; [assumption | lra].
  - apply Rmult_le_reg_r with D; [assumption | lra].
Qed.

Lemma pearsonCorrelation_bounds_witness :
  exists v : R,
    MoodAnalytics.r
      (MoodAnalytics.pearsonCorrelation [1; 2; 3]%R [2; 4; 7]%R)
    = JS.Fin v /\ (-1 <= v <= 1)%R.
Proof.
  apply (pearsonCorrelation_bounds [1; 2; 3]%R [2; 4; 7]%R).
  - reflexivity.
  - simpl. lia.
  - rewrite denominatorTerm_exact by reflexivity.
    intros H. injection H as H. unfold Exact.cross in H. simpl in H. lra.
Defined.

(** ** Linear regression *)

(** C1, evaluated at the input of the specification's own example: on
    [x = [0,1,2,3]] and the constant [y = [5,5,5,5]] the slope is 0 and
    the intercept 5, but [ssTot] is 0 and [ssRes / ssTot] is [0 / 0], so
    the R² returned is NaN and not 0: [linearRegression] has no case
    for a zero [ssTot]. *)
Theorem linearRegression_constant_y :
  MoodAnalytics.linearRegression [0; 1; 2; 3]%R [5; 5; 5; 5]%R
  = {| MoodAnalytics.slope := JS.Fin 0;
       MoodAnalytics.intercept := JS.Fin 5;
       MoodAnalytics.r2 := JS.NaN |}.
Proof.
  unfold MoodAnalytics.linearRegression.
  rewrite !sumOf_exact, sumSq_exact, sumProd_exact by reflexivity.
  simpl Exact.Rsum. simpl Exact.Rdot. simpl List.length.
  unfold JS.ofNat. simpl INR. cbv zeta.
  js_eval.
  f_equal; f_equal; lra.
Qed.

(** ** Sorting in place *)


Section Sorting.

Context {A : Type} (cmp : A -> A -> JS.number).

Lemma insert_length (a : A) (l : list A) :
  List.length (JS.insert cmp a l) = S (List.length l).
Proof.
  induction l as [| b l IH]; cbn [JS.insert]; [reflexivity |].
  destruct (cmp a b >? JS.Fin 0); simpl; [now rewrite IH | reflexivity].
Qed.

Lemma sort_length (l : list A) :
  List.length (JS.sort cmp l) = List.length l.
Proof.
  induction l as [| a l IH]; simpl; [reflexivity |].
  now rewrite insert_length, IH.
Qed.

Lemma insert_perm (a : A) (l : list A) :
  Permutation (JS.insert cmp a l) (a :: l).
Proof.
  induction l as [| b l IH]; cbn [JS.insert]; [reflexivity |].
  destruct (cmp a b >? JS.Fin 0); [| reflexivity].
  rewrite IH. apply perm_swap.
Qed.

Lemma sort_perm (l : list A) : Permutation (JS.sort cmp l) l.
Proof.
  induction l as [| a l IH]; simpl; [reflexivity |].
  rewrite insert_perm. now constructor.
Qed.

(** An array that is in order already is left as it is. *)
Lemma sort_of_Sorted (l : list A) :
  Sorted (JS.inOrder cmp) l -> JS.sort cmp l = l.
Proof.
  induction 1 as [| a l Hs IH Hd]; cbn [JS.sort]; [reflexivity |].
  rewrite IH. destruct Hd as [| b l Hab]; cbn [JS.insert]; [reflexivity |].
  unfold JS.inOrder in Hab. now rewrite Hab.
Qed.

Hypothesis cmp_antisym :
  forall a b, (cmp a b >? JS.Fin 0) = true -> (cmp b a >? JS.Fin 0) = false.

Lemma insert_Sorted (a : A) (l : list A) :
  Sorted (JS.inOrder cmp) l -> Sorted (JS.inOrder cmp) (JS.insert cmp a l).
Proof.
  induction 1 as [| b l Hs IH Hd]; cbn [JS.insert].
  - repeat constructor.
  - destruct (cmp a b >? JS.Fin 0) eqn:Hab.
    + constructor; [assumption |].
      destruct Hd as [| c l Hbc]; cbn [JS.insert].
      * constructor. now apply cmp_antisym.
      * destruct (cmp a c >? JS.Fin 0); constructor;
          first [assumption | now apply cmp_antisym].
    + constructor; [now constructor | now constructor].
Qed.

Lemma sort_Sorted (l : list A) : Sorted (JS.inOrder cmp) (JS.sort cmp l).
Proof.
  induction l as [| a l IH]; simpl; [constructor | now apply insert_Sorted].
Qed.

Lemma sort_idempotent (l : list A) :
  JS.sort cmp (JS.sort cmp l) = JS.sort cmp l.
Proof. apply sort_of_Sorted, sort_Sorted. Qed.

End Sorting.

Lemma byDate_antisym_fin (u v : R) :
  (JS.Fin u - JS.Fin v >? JS.Fin 0) = true ->
  (JS.Fin v - JS.Fin u >? JS.Fin 0) = false.
Proof.
  simpl. unfold JS.gt, JS.lt, JS.Rltb.
  destruct (Rlt_dec 0 (u - v)); [| discriminate].
  intros _. destruct (Rlt_dec 0 (v - u)); [lra | reflexivity].
Qed.

Lemma goal_byDate_antisym (a b : Goals.GoalProgress) :
  (GoalOptimizer.byDate a b >? JS.Fin 0) = true ->
  (GoalOptimizer.byDate b a >? JS.Fin 0) = false.
Proof. apply byDate_antisym_fin. Qed.

Lemma mood_byDate_antisym (a b : MoodTracker.MoodEntry) :
  (MoodAnalytics.byDate a b >? JS.Fin 0) = true ->
  (MoodAnalytics.byDate b a >? JS.Fin 0) = false.
Proof. apply byDate_antisym_fin. Qed.

(** ** The goal optimizer and the caller's array *)

Lemma calculateAverageDailyProgress_run (pd : list Goals.GoalProgress) :
  GoalOptimizer.calculateAverageDailyProgress pd
  = if (List.length pd <? 2)%nat then (JS.Fin 0, pd)
    else (GoalOptimizer.pooledRate (JS.sort GoalOptimizer.byDate pd),
          JS.sort GoalOptimizer.byDate pd).
Proof.
  unfold GoalOptimizer.calculateAverageDailyProgress, JS.bind, JS.get.
  destruct (List.length pd <? 2)%nat; reflexivity.
Qed.

Lemma calculateConsistencyScore_run (pd : list Goals.GoalProgress) :
  GoalOptimizer.calculateConsistencyScore pd
  = if (List.length pd <? 3)%nat then (JS.Fin 50, pd)
    else (GoalOptimizer.scoreOfChanges
            (GoalOptimizer.dailyChangesOf (JS.sort GoalOptimizer.byDate pd)),
          JS.sort GoalOptimizer.byDate pd).
Proof.
  unfold GoalOptimizer.calculateConsistencyScore, JS.bind, JS.get.
  destruct (List.length pd <? 3)%nat; reflexivity.
Qed.

(** What [calculateGoalMetrics] leaves in the caller's array: with two
    samples or more, the samples sorted by date. *)
Lemma calculateGoalMetrics_array (now : Z) (goal : Goals.Goal)
      (pd : list Goals.GoalProgress) :
  snd (GoalOptimizer.calculateGoalMetrics now goal pd)
  = if (1 <? List.length pd)%nat then JS.sort GoalOptimizer.byDate pd
    else pd.
Proof.
  unfold GoalOptimizer.calculateGoalMetrics, JS.bind, JS.get.
  destruct (1 <? List.length pd)%nat eqn:Hlen.
  - rewrite calculateAverageDailyProgress_run.
    replace (List.length pd <? 2)%nat with false
      by (symmetry; apply Nat.ltb_ge; apply Nat.ltb_lt in Hlen; lia).
    rewrite calculateConsistencyScore_run, sort_length.
    destruct (List.length pd <? 3)%nat; cbn [snd JS.ret]; [reflexivity |].
    apply sort_idempotent, goal_byDate_antisym.
  - unfold JS.ret at 1. rewrite calculateConsistencyScore_run.
    replace (List.length pd <? 3)%nat with true
      by (symmetry; apply Nat.ltb_lt; apply Nat.ltb_ge in Hlen; lia).
    reflexivity.
Qed.

Lemma analyzeGoalOptimization_array (now : Z) (goal : Goals.Goal)
      (allGoals : list Goals.Goal) (pd : list Goals.GoalProgress) :
  snd (GoalOptimizer.analyzeGoalOptimization now goal allGoals pd)
  = snd (GoalOptimizer.calculateGoalMetrics now goal pd).
Proof.
  unfold GoalOptimizer.analyzeGoalOptimization, JS.bind.
  destruct (GoalOptimizer.calculateGoalMetrics now goal pd) as [m s1].
  reflexivity.
Qed.

Lemma sort_newestFirst :
  JS.sort GoalOptimizer.byDate Fixtures.newestFirst
  = [Fixtures.sampleAt 1 10; Fixtures.sampleAt 2 30].
Proof.
  unfold Fixtures.newestFirst. cbn [JS.sort JS.insert].
  unfold GoalOptimizer.byDate. cbn. js_decide; reflexivity.
Qed.

(** C2, evaluated: [Array.prototype.sort] sorts the array it is called
    on, and neither class copies its argument first.  Two samples (two
    entries) handed over newest first are in the other order in the
    caller's array after [calculateGoalMetrics],
    [analyzeGoalOptimization] and the [MoodAnalytics] constructor. *)
Theorem analysis_reorders_caller_array :
  snd (GoalOptimizer.calculateGoalMetrics (3 * Fixtures.oneDay)
         Fixtures.tenDayGoal Fixtures.newestFirst)
  = [Fixtures.sampleAt 1 10; Fixtures.sampleAt 2 30]
  /\ snd (GoalOptimizer.analyzeGoalOptimization (3 * Fixtures.oneDay)
            Fixtures.tenDayGoal [Fixtures.tenDayGoal] Fixtures.newestFirst)
     = [Fixtures.sampleAt 1 10; Fixtures.sampleAt 2 30]
  /\ snd (MoodAnalytics.constructor Fixtures.entriesNewestFirst)
     = [Fixtures.entryAt "a" 1 5 3; Fixtures.entryAt "b" 2 6 4]
  /\ Fixtures.newestFirst <> [Fixtures.sampleAt 1 10; Fixtures.sampleAt 2 30]
  /\ Fixtures.entriesNewestFirst
     <> [Fixtures.entryAt "a" 1 5 3; Fixtures.entryAt "b" 2 6 4].
Proof.
  split; [| split; [| split; [| split]]].
  - rewrite calculateGoalMetrics_array. apply sort_newestFirst.
  - rewrite analyzeGoalOptimization_array, calculateGoalMetrics_array.
    apply sort_newestFirst.
  - unfold MoodAnalytics.constructor, JS.bind, JS.sortInPlace, JS.ret.
    cbn [snd]. unfold Fixtures.entriesNewestFirst. cbn [JS.sort JS.insert].
    unfold MoodAnalytics.byDate. cbn. js_decide; reflexivity.
  - unfold Fixtures.newestFirst, Fixtures.sampleAt. intros H.
    injection H as H. revert H. cbn. discriminate.
  - unfold Fixtures.entriesNewestFirst, Fixtures.entryAt. intros H.
    injection H as H. discriminate.
Qed.

(** ** Efficiency *)

Lemma calculateGoalMetrics_efficiency (now : Z) (goal : Goals.Goal)
      (pd : list Goals.GoalProgress) :
  let m := fst (GoalOptimizer.calculateGoalMetrics now goal pd) in
  Goals.efficiencyScore m
  = JS.min (JS.Fin 100)
           (Goals.averageDailyProgress m / GoalOptimizer.theoreticalRate goal
            * JS.Fin 100).
Proof.
  unfold GoalOptimizer.calculateGoalMetrics, JS.bind, JS.get.
  destruct (if (1 <? List.length pd)%nat
            then GoalOptimizer.calculateAverageDailyProgress
            else _) as [dailyProgress s1].
  destruct (GoalOptimizer.calculateConsistencyScore s1) as [c s2].
  reflexivity.
Qed.

Lemma msPerDay_fin : GoalOptimizer.msPerDay = JS.Fin (1000 * 60 * 60 * 24).
Proof. reflexivity. Qed.

Lemma pooledLoop_exact (rest : list Goals.GoalProgress) :
  forall (prev : Goals.GoalProgress) (tp td : R),
    GoalOptimizer.pooledLoop prev rest (JS.Fin tp) (JS.Fin td)
    = (JS.Fin (tp + Exact.Rsum (map fst (Exact.forwardSteps prev rest))),
       JS.Fin (td + Exact.Rsum (map snd (Exact.forwardSteps prev rest)))).
Proof.
  induction rest as [| cur rest IH]; intros prev tp td.
  - cbn. f_equal; f_equal; lra.
  - cbn [GoalOptimizer.pooledLoop Exact.forwardSteps]. rewrite msPerDay_fin.
    unfold JS.ofZ. cbn [JS.sub]. rewrite div_fin by lra. rewrite gt_fin.
    fold (Exact.daysBetween (Goals.date prev) (Goals.date cur)).
    unfold JS.Rltb.
    destruct (Rlt_dec 0 (Exact.daysBetween (Goals.date prev) (Goals.date cur)))
      as [Hd | Hd].
    + cbn [JS.add]. rewrite IH. cbn [map fst snd Exact.Rsum fold_right].
      fold (Exact.Rsum (map fst (Exact.forwardSteps cur rest))).
      fold (Exact.Rsum (map snd (Exact.forwardSteps cur rest))).
      f_equal; f_equal; lra.
    + apply IH.
Qed.

(** The rate that the loop of the code computes is the gain per day
    of the forward steps. *)
Lemma pooledRate_exact (samples : list Goals.GoalProgress) :
  GoalOptimizer.pooledRate samples = JS.Fin (Exact.gainPerDay samples).
Proof.
  unfold GoalOptimizer.pooledRate, Exact.gainPerDay.
  destruct samples as [| first rest].
  - cbn [Exact.stepsOf map Exact.Rsum fold_right]. rewrite gt_fin.
    rewrite Rltb_false by lra. destruct (Rlt_dec 0 0); [lra | reflexivity].
  - rewrite pooledLoop_exact. cbn [Exact.stepsOf]. rewrite gt_fin.
    rewrite !Rplus_0_l. unfold JS.Rltb.
    destruct (Rlt_dec 0 (Exact.Rsum (map snd (Exact.forwardSteps first rest))));
      [| reflexivity].
    now rewrite div_fin by lra.
Qed.

Lemma plannedRate_fin (goal : Goals.Goal) :
  (0 < Exact.plannedRate goal)%R ->
  GoalOptimizer.theoreticalRate goal = JS.Fin (Exact.plannedRate goal).
Proof.
  intros Hpos. unfold GoalOptimizer.theoreticalRate. rewrite msPerDay_fin.
  unfold JS.ofZ. cbn [JS.sub]. rewrite div_fin by lra.
  fold (Exact.daysBetween (Goals.createdAt goal) (Goals.deadline goal)).
  rewrite div_fin; [reflexivity |].
  intros Hz. unfold Exact.plannedRate in Hpos. rewrite Hz in Hpos.
  unfold Rdiv in Hpos. rewrite Rinv_0, Rmult_0_r in Hpos. lra.
Qed.

(** The average daily progress of the metrics is the actual rate of
    the goal on its history. *)
Lemma dailyProgress_exact (now : Z) (goal : Goals.Goal)
      (pd : list Goals.GoalProgress) :
  Goals.averageDailyProgress
    (fst (GoalOptimizer.calculateGoalMetrics now goal pd))
  = Exact.actualRate now goal pd.
Proof.
  unfold GoalOptimizer.calculateGoalMetrics, Exact.actualRate,
    JS.bind, JS.get.
  change (2 <=? List.length pd)%nat with (1 <? List.length pd)%nat.
  destruct (1 <? List.length pd)%nat eqn:Hlen.
  - rewrite calculateAverageDailyProgress_run.
    replace (List.length pd <? 2)%nat with false
      by (symmetry; apply Nat.ltb_ge; apply Nat.ltb_lt in Hlen; lia).
    destruct (GoalOptimizer.calculateConsistencyScore
                (JS.sort GoalOptimizer.byDate pd)) as [c s2].
    cbn [fst JS.ret Goals.averageDailyProgress].
    apply pooledRate_exact.
  - unfold JS.ret at 1.
    destruct (GoalOptimizer.calculateConsistencyScore pd) as [c s2].
    cbn [fst JS.ret Goals.averageDailyProgress].
    rewrite msPerDay_fin. unfold JS.ofZ. cbn [JS.sub].
    now rewrite div_fin by lra.
Qed.

Lemma efficiency_of_history (now : Z) (goal : Goals.Goal)
      (pd : list Goals.GoalProgress) :
  (0 < Exact.plannedRate goal)%R ->
  Goals.efficiencyScore (fst (GoalOptimizer.calculateGoalMetrics now goal pd))
  = JS.min (JS.Fin 100)
           (Exact.actualRate now goal pd / JS.Fin (Exact.plannedRate goal)
            * JS.Fin 100).
Proof.
  intros Hpos. rewrite calculateGoalMetrics_efficiency.
  now rewrite dailyProgress_exact, plannedRate_fin.
Qed.

(** C6.  For every goal whose planned rate (the target over the
    planned days) is positive, and every progress history, the
    efficiency score of [calculateGoalMetrics] is
    [min(100, actual / planned * 100)], where the actual rate is read
    off the history: the gain per day of the samples in order of date
    (two samples or more), or else the current value over the days
    since the goal was created.  When the actual rate is twice the
    planned one the score is exactly 100. *)
Theorem efficiencyScore_capped (now : Z) (goal : Goals.Goal)
        (pd : list Goals.GoalProgress) :
  (0 < Exact.plannedRate goal)%R ->
  let score :=
    Goals.efficiencyScore
      (fst (GoalOptimizer.calculateGoalMetrics now goal pd)) in
  score = JS.min (JS.Fin 100)
                 (Exact.actualRate now goal pd
                  / JS.Fin (Exact.plannedRate goal) * JS.Fin 100)
  /\ (forall actual : R,
        Exact.actualRate now goal pd = JS.Fin actual ->
        score = JS.Fin (Rmin 100 (actual / Exact.plannedRate goal * 100)))
  /\ (Exact.actualRate now goal pd = JS.Fin (2 * Exact.plannedRate goal) ->
      score = JS.Fin 100).
Proof.
  intros Hpos score.
  pose proof (efficiency_of_history now goal pd Hpos) as H. fold score in H.
  assert (Hfin : forall actual : R,
             Exact.actualRate now goal pd = JS.Fin actual ->
             score = JS.Fin (Rmin 100
                               (actual / Exact.plannedRate goal * 100))).
  { intros actual Ha. rewrite H, Ha. rewrite div_fin by lra. reflexivity. }
  split; [exact H | split; [exact Hfin |]].
  intros Ha. rewrite (Hfin _ Ha). f_equal.
  replace (2 * Exact.plannedRate goal / Exact.plannedRate goal * 100)%R
    with 200%R by (field; lra).
  apply Rmin_left. lra.
Qed.

Lemma plannedRate_tenDayGoal : Exact.plannedRate Fixtures.tenDayGoal = 10%R.
Proof.
  unfold Exact.plannedRate, Exact.daysBetween. cbn. lra.
Qed.

Lemma sort_twiceThePlan :
  JS.sort GoalOptimizer.byDate Fixtures.twiceThePlan
  = [Fixtures.sampleAt 0 0; Fixtures.sampleAt 1 20; Fixtures.sampleAt 2 40].
Proof.
  unfold Fixtures.twiceThePlan. cbn [JS.sort JS.insert].
  unfold GoalOptimizer.byDate. repeat (progress (cbn; js_decide)).
  reflexivity.
Qed.

Lemma actualRate_twiceThePlan :
  Exact.actualRate (2 * Fixtures.oneDay) Fixtures.tenDayGoal
                   Fixtures.twiceThePlan
  = JS.Fin (2 * Exact.plannedRate Fixtures.tenDayGoal).
Proof.
  rewrite plannedRate_tenDayGoal.
  unfold Exact.actualRate. cbn [Fixtures.twiceThePlan List.length Nat.leb].
  rewrite sort_twiceThePlan. f_equal.
  unfold Exact.gainPerDay, Exact.stepsOf, Exact.forwardSteps.
  assert (D01 : Exact.daysBetween (Goals.date (Fixtures.sampleAt 0 0))
                                  (Goals.date (Fixtures.sampleAt 1 20)) = 1%R)
    by (unfold Exact.daysBetween; cbn; lra).
  assert (D12 : Exact.daysBetween (Goals.date (Fixtures.sampleAt 1 20))
                                  (Goals.date (Fixtures.sampleAt 2 40)) = 1%R)
    by (unfold Exact.daysBetween; cbn; lra).
  rewrite D01, D12.
  destruct (Rlt_dec 0 1) as [_ | H]; [| lra].
  cbn [map fst snd Exact.Rsum fold_right Fixtures.sampleAt Goals.value].
  destruct (Rlt_dec 0 (1 + (1 + 0))) as [_ | H]; [| lra].
  lra.
Qed.

Lemma efficiencyScore_capped_witness :
  Goals.efficiencyScore
    (fst (GoalOptimizer.calculateGoalMetrics (2 * Fixtures.oneDay)
            Fixtures.tenDayGoal Fixtures.twiceThePlan))
  = JS.Fin 100.
Proof.
  refine (proj2 (proj2 (efficiencyScore_capped
                          (2 * Fixtures.oneDay) Fixtures.tenDayGoal
                          Fixtures.twiceThePlan _))
                actualRate_twiceThePlan).
  rewrite plannedRate_tenDayGoal. lra.
Defined.

(** ** Consistency *)

Lemma dailyChanges_exact (samples : list Goals.GoalProgress) :
  GoalOptimizer.dailyChangesOf samples
  = map JS.Fin (Exact.positiveSteps samples).
Proof.
  destruct samples as [| first rest]; [reflexivity |].
  simpl. revert first.
  induction rest as [| cur rest IH]; intros prev; simpl; [reflexivity |].
  now rewrite IH.
Qed.

Lemma positiveSteps_length (samples : list Goals.GoalProgress) :
  List.length (Exact.positiveSteps samples) = (List.length samples - 1)%nat.
Proof.
  destruct samples as [| first rest]; [reflexivity |].
  simpl. rewrite Nat.sub_0_r. revert first.
  induction rest as [| cur rest IH]; intros prev; simpl; [reflexivity |].
  now rewrite IH.
Qed.

Lemma reduceFrom_sum_fin (l : list R) :
  forall (i : nat) (a : R),
    JS.reduceFrom (fun sum val (_ : nat) => sum + val) i (JS.Fin a)
                  (map JS.Fin l)
    = JS.Fin (a + Exact.Rsum l).
Proof.
  induction l as [| v l IH]; intros i a; simpl.
  - f_equal. lra.
  - rewrite IH. f_equal. lra.
Qed.

Lemma reduceFrom_dev_fin (mu : R) (l : list R) :
  forall (i : nat) (a : R),
    JS.reduceFrom (fun sum val (_ : nat) => sum + JS.pow2 (val - JS.Fin mu))
                  i (JS.Fin a) (map JS.Fin l)
    = JS.Fin (a + Exact.Rsum (map (fun v => (v - mu) * (v - mu))%R l)).
Proof.
  induction l as [| v l IH]; intros i a; simpl.
  - f_equal. lra.
  - rewrite IH. f_equal. lra.
Qed.

Lemma Rsum_squares_nonneg (mu : R) (l : list R) :
  (0 <= Exact.Rsum (map (fun v => (v - mu) * (v - mu)) l))%R.
Proof. apply Rsum_sq_nonneg. Qed.

(** On a non-empty array of finite steps the score of the code is the
    exact score. *)
Lemma scoreOfChanges_exact (steps : list R) :
  (0 < List.length steps)%nat ->
  GoalOptimizer.scoreOfChanges (map JS.Fin steps)
  = JS.Fin (Exact.consistency steps).
Proof.
  intros Hlen.
  assert (Hn : (0 < INR (List.length steps))%R) by (apply lt_0_INR; lia).
  unfold GoalOptimizer.scoreOfChanges, Exact.consistency, JS.reduce.
  rewrite length_map. unfold JS.ofNat.
  rewrite reduceFrom_sum_fin. rewrite Rplus_0_l.
  rewrite div_fin by lra. fold (Exact.mean steps).
  rewrite reduceFrom_dev_fin. rewrite Rplus_0_l.
  rewrite div_fin by lra.
  rewrite sqrt_fin.
  2:{ apply Rmult_le_pos; [apply Rsum_sq_nonneg |].
      left. now apply Rinv_0_lt_compat. }
  fold (Exact.stddev steps).
  cbv zeta. rewrite gt_fin. unfold JS.Rltb.
  destruct (Rlt_dec 0 (Exact.mean steps)) as [Hmu | Hmu].
  - rewrite div_fin by lra. reflexivity.
  - reflexivity.
Qed.

Lemma consistency_of_three_or_more (pd : list Goals.GoalProgress) :
  3 <= List.length pd ->
  fst (GoalOptimizer.calculateConsistencyScore pd)
  = JS.Fin (Exact.consistency
              (Exact.positiveSteps (JS.sort GoalOptimizer.byDate pd))).
Proof.
  intros Hlen. rewrite calculateConsistencyScore_run.
  replace (List.length pd <? 3)%nat with false
    by (symmetry; apply Nat.ltb_ge; lia).
  cbn [fst]. rewrite dailyChanges_exact. apply scoreOfChanges_exact.
  rewrite positiveSteps_length, sort_length. lia.
Qed.

(** C8, as the code has it.  With fewer than three samples the
    consistency score is 50.  With three or more it is
    [max(0, 100 - CV * 100)] over the positive parts of the steps
    between consecutive samples sorted by date, where CV is the
    standard deviation over the mean when the mean is positive, and is
    1 (so that the score is 0) when no step is positive. *)
Theorem calculateConsistencyScore_spec (pd : list Goals.GoalProgress) :
  (List.length pd < 3 ->
   fst (GoalOptimizer.calculateConsistencyScore pd) = JS.Fin 50)
  /\ (3 <= List.length pd ->
      fst (GoalOptimizer.calculateConsistencyScore pd)
      = JS.Fin (Exact.consistency
                  (Exact.positiveSteps (JS.sort GoalOptimizer.byDate pd)))).
Proof.
  split; intros Hlen.
  - rewrite calculateConsistencyScore_run.
    apply Nat.ltb_lt in Hlen. now rewrite Hlen.
  - now apply consistency_of_three_or_more.
Qed.

Lemma sort_flatProgress :
  JS.sort GoalOptimizer.byDate Fixtures.flatProgress = Fixtures.flatProgress.
Proof.
  unfold Fixtures.flatProgress. cbn [JS.sort JS.insert].
  unfold GoalOptimizer.byDate. repeat (progress (cbn; js_decide)).
  reflexivity.
Qed.

Lemma calculateConsistencyScore_spec_witness :
  fst (GoalOptimizer.calculateConsistencyScore [Fixtures.sampleAt 1 10])
  = JS.Fin 50
  /\ fst (GoalOptimizer.calculateConsistencyScore Fixtures.flatProgress)
     = JS.Fin (Exact.consistency
                 (Exact.positiveSteps
                    (JS.sort GoalOptimizer.byDate Fixtures.flatProgress))).
Proof.
  split.
  - apply (proj1 (calculateConsistencyScore_spec [Fixtures.sampleAt 1 10])).
    simpl. lia.
  - apply (proj2 (calculateConsistencyScore_spec Fixtures.flatProgress)).
    simpl. lia.
Defined.

Lemma positiveSteps_flatProgress :
  Exact.positiveSteps Fixtures.flatProgress = [0; 0]%R.
Proof.
  unfold Fixtures.flatProgress. simpl.
  replace (10 - 10)%R with 0%R by lra.
  rewrite Rmax_left by lra. reflexivity.
Qed.

(** C8 as it is worded fails where no step is positive: on three
    samples of equal value the code returns 0, while
    [max(0, 100 - (stddev / mean) * 100)] has a zero mean to divide by
    and is NaN. *)
Lemma calculateConsistencyScore_zero_mean :
  fst (GoalOptimizer.calculateConsistencyScore Fixtures.flatProgress)
  = JS.Fin 0
  /\ GoalOptimizer.specScoreOfChanges
       (GoalOptimizer.dailyChangesOf
          (JS.sort GoalOptimizer.byDate Fixtures.flatProgress))
     = JS.NaN
  /\ fst (GoalOptimizer.calculateConsistencyScore Fixtures.flatProgress)
     <> GoalOptimizer.specScoreOfChanges
          (GoalOptimizer.dailyChangesOf
             (JS.sort GoalOptimizer.byDate Fixtures.flatProgress)).
Proof.
  assert (Hcode :
            fst (GoalOptimizer.calculateConsistencyScore
                   Fixtures.flatProgress) = JS.Fin 0).
  { rewrite (consistency_of_three_or_more Fixtures.flatProgress)
      by (simpl; lia).
    rewrite sort_flatProgress, positiveSteps_flatProgress.
    unfold Exact.consistency, Exact.mean. simpl Exact.Rsum.
    destruct (Rlt_dec 0 ((0 + (0 + 0)) / INR (List.length [0%R; 0%R])))
      as [H | _].
    - exfalso. revert H. simpl. lra.
    - f_equal. apply Rmax_left. lra. }
  assert (Hspec :
            GoalOptimizer.specScoreOfChanges
              (GoalOptimizer.dailyChangesOf
                 (JS.sort GoalOptimizer.byDate Fixtures.flatProgress))
            = JS.NaN).
  { rewrite sort_flatProgress, dailyChanges_exact, positiveSteps_flatProgress.
    unfold GoalOptimizer.specScoreOfChanges, JS.reduce, JS.ofNat.
    rewrite length_map, reduceFrom_sum_fin.
    simpl Exact.Rsum. simpl List.length. simpl INR.
    rewrite div_fin by lra.
    rewrite reduceFrom_dev_fin. simpl Exact.Rsum.
    rewrite div_fin by lra. rewrite sqrt_fin by lra.
    match goal with
    | |- context [sqrt ?e] => replace e with 0%R by lra
    end.
    rewrite sqrt_0. rewrite div_zero_nan by lra. reflexivity. }
  split; [exact Hcode | split; [exact Hspec |]].
  rewrite Hcode, Hspec. discriminate.
Qed.

(** ** Repeated calls *)

Lemma readOnly_repeatable {S A : Type} (m : JS.State S A) (s : S) :
  JS.readOnly m s -> JS.repeatable m s.
Proof. unfold JS.readOnly, JS.repeatable. now intros ->. Qed.

Lemma calculateGoalMetrics_timeRemaining (now : Z) (goal : Goals.Goal)
      (pd : list Goals.GoalProgress) :
  Goals.timeRemaining (fst (GoalOptimizer.calculateGoalMetrics now goal pd))
  = JS.max (JS.Fin 0) (JS.ofZ (Goals.deadline goal) - JS.ofZ now)
    / GoalOptimizer.msPerDay.
Proof.
  unfold GoalOptimizer.calculateGoalMetrics, JS.bind, JS.get.
  destruct (if (1 <? List.length pd)%nat
            then GoalOptimizer.calculateAverageDailyProgress
            else _) as [dailyProgress s1].
  destruct (GoalOptimizer.calculateConsistencyScore s1) as [c s2].
  reflexivity.
Qed.

(** C9 as it is worded fails for [calculateGoalMetrics], which reads
    the clock ([new Date()]): on the same goal and the same (empty)
    progress array, a call made two days after the goal was created and
    a call made a day later return different metrics (8 and 7 days
    remaining). *)
Lemma calculateGoalMetrics_reads_clock :
  fst (GoalOptimizer.calculateGoalMetrics (2 * Fixtures.oneDay)
         Fixtures.tenDayGoal [])
  <> fst (GoalOptimizer.calculateGoalMetrics (3 * Fixtures.oneDay)
            Fixtures.tenDayGoal []).
Proof.
  intros H. apply (f_equal Goals.timeRemaining) in H.
  rewrite !calculateGoalMetrics_timeRemaining in H.
  unfold GoalOptimizer.msPerDay in H. revert H.
  js_unfold. rewrite !Rmax_right by lra. js_eval.
  intros H. injection H as H. lra.
Qed.

Lemma calculateGoalMetrics_sorted (now : Z) (goal : Goals.Goal)
      (pd : list Goals.GoalProgress) :
  (1 <? List.length pd)%nat = true ->
  GoalOptimizer.calculateGoalMetrics now goal
    (JS.sort GoalOptimizer.byDate pd)
  = GoalOptimizer.calculateGoalMetrics now goal pd.
Proof.
  intros Hlen.
  unfold GoalOptimizer.calculateGoalMetrics, JS.bind, JS.get.
  rewrite sort_length, Hlen.
  rewrite !calculateAverageDailyProgress_run, sort_length.
  replace (List.length pd <? 2)%nat with false
    by (symmetry; apply Nat.ltb_ge; apply Nat.ltb_lt in Hlen; lia).
  rewrite (sort_idempotent _ goal_byDate_antisym).
  reflexivity.
Qed.

Lemma calculateGoalMetrics_repeatable (now : Z) (goal : Goals.Goal)
      (pd : list Goals.GoalProgress) :
  JS.repeatable (GoalOptimizer.calculateGoalMetrics now goal) pd.
Proof.
  unfold JS.repeatable. rewrite calculateGoalMetrics_array.
  destruct (1 <? List.length pd)%nat eqn:Hlen; [| reflexivity].
  now apply calculateGoalMetrics_sorted.
Qed.

Lemma analyzeGoalOptimization_repeatable (now : Z) (goal : Goals.Goal)
      (allGoals : list Goals.Goal) (pd : list Goals.GoalProgress) :
  JS.repeatable (GoalOptimizer.analyzeGoalOptimization now goal allGoals) pd.
Proof.
  unfold JS.repeatable. rewrite analyzeGoalOptimization_array.
  unfold GoalOptimizer.analyzeGoalOptimization, JS.bind.
  now rewrite calculateGoalMetrics_repeatable.
Qed.

Lemma calculateCorrelations_readOnly (entries : list MoodTracker.MoodEntry) :
  JS.readOnly MoodAnalytics.calculateCorrelations entries.
Proof.
  unfold JS.readOnly, MoodAnalytics.calculateCorrelations, JS.bind, JS.get.
  destruct (_ <? _)%nat; reflexivity.
Qed.

Lemma analyzeTrends_readOnly (entries : list MoodTracker.MoodEntry) :
  JS.readOnly MoodAnalytics.analyzeTrends entries.
Proof.
  unfold JS.readOnly, MoodAnalytics.analyzeTrends, JS.bind, JS.get.
  destruct (_ <? _)%nat; reflexivity.
Qed.

Lemma calculateWellnessMetrics_readOnly
      (entries : list MoodTracker.MoodEntry) :
  JS.readOnly MoodAnalytics.calculateWellnessMetrics entries.
Proof.
  unfold JS.readOnly, MoodAnalytics.calculateWellnessMetrics, JS.bind, JS.get.
  destruct (_ =? _)%nat; reflexivity.
Qed.

Lemma detectWeeklyPatterns_readOnly (tz : Z)
      (entries : list MoodTracker.MoodEntry) :
  JS.readOnly (MoodAnalytics.detectWeeklyPatterns tz) entries.
Proof.
  unfold JS.readOnly, MoodAnalytics.detectWeeklyPatterns, JS.bind, JS.get.
  destruct (List.length entries <? 14)%nat; [reflexivity |].
  destruct (_ <? 4)%nat; [reflexivity |].
  destruct (JS.lt _ _); reflexivity.
Qed.

Lemma readOnly_run {S A : Type} (m : JS.State S A) (s : S) :
  JS.readOnly m s -> m s = (fst (m s), s).
Proof.
  unfold JS.readOnly. intros H. rewrite <- H at 3. apply surjective_pairing.
Qed.

Lemma generateOptimizations_readOnly (entries : list MoodTracker.MoodEntry) :
  JS.readOnly MoodAnalytics.generateOptimizations entries.
Proof.
  unfold JS.readOnly, MoodAnalytics.generateOptimizations, JS.bind.
  rewrite (readOnly_run _ _ (calculateCorrelations_readOnly entries)).
  reflexivity.
Qed.

Lemma generateAdvancedInsights_readOnly (tz : Z)
      (entries : list MoodTracker.MoodEntry) :
  JS.readOnly (MoodAnalytics.generateAdvancedInsights tz) entries.
Proof.
  unfold JS.readOnly, MoodAnalytics.generateAdvancedInsights, JS.bind.
  rewrite (readOnly_run _ _ (calculateCorrelations_readOnly entries)).
  rewrite (readOnly_run _ _ (analyzeTrends_readOnly entries)).
  rewrite (readOnly_run _ _ (detectWeeklyPatterns_readOnly tz entries)).
  rewrite (readOnly_run _ _ (generateOptimizations_readOnly entries)).
  reflexivity.
Qed.

(** C9, as the code has it.  [calculateGoalMetrics] and
    [analyzeGoalOptimization] depend on the clock they read; at one
    clock reading a second call, made on the array as the first call
    left it, returns the same result and leaves the same array.  The
    methods of [MoodAnalytics] read no clock and leave the entries as
    they are, so a second call returns the same result. *)
Theorem analysis_repeatable (now tz : Z) (goal : Goals.Goal)
        (allGoals : list Goals.Goal) (pd : list Goals.GoalProgress)
        (entries : list MoodTracker.MoodEntry) :
  JS.repeatable (GoalOptimizer.calculateGoalMetrics now goal) pd
  /\ JS.repeatable (GoalOptimizer.analyzeGoalOptimization now goal allGoals)
                   pd
  /\ (JS.readOnly MoodAnalytics.calculateCorrelations entries
      /\ JS.repeatable MoodAnalytics.calculateCorrelations entries)
  /\ (JS.readOnly MoodAnalytics.analyzeTrends entries
      /\ JS.repeatable MoodAnalytics.analyzeTrends entries)
  /\ (JS.readOnly MoodAnalytics.calculateWellnessMetrics entries
      /\ JS.repeatable MoodAnalytics.calculateWellnessMetrics entries)
  /\ (JS.readOnly (MoodAnalytics.detectWeeklyPatterns tz) entries
      /\ JS.repeatable (MoodAnalytics.detectWeeklyPatterns tz) entries)
  /\ (JS.readOnly MoodAnalytics.generateOptimizations entries
      /\ JS.repeatable MoodAnalytics.generateOptimizations entries)
  /\ (JS.readOnly (MoodAnalytics.generateAdvancedInsights tz) entries
      /\ JS.repeatable (MoodAnalytics.generateAdvancedInsights tz) entries).
Proof.
  repeat split.
  - apply calculateGoalMetrics_repeatable.
  - apply analyzeGoalOptimization_repeatable.
  - apply calculateCorrelations_readOnly.
  - apply readOnly_repeatable, calculateCorrelations_readOnly.
  - apply analyzeTrends_readOnly.
  - apply readOnly_repeatable, analyzeTrends_readOnly.
  - apply calculateWellnessMetrics_readOnly.
  - apply readOnly_repeatable, calculateWellnessMetrics_readOnly.
  - apply detectWeeklyPatterns_readOnly.
  - apply readOnly_repeatable, detectWeeklyPatterns_readOnly.
  - apply generateOptimizations_readOnly.
  - apply readOnly_repeatable, generateOptimizations_readOnly.
  - apply generateAdvancedInsights_readOnly.
  - apply readOnly_repeatable, generateAdvancedInsights_readOnly.
Qed.

(** ** Trends *)

Lemma slope_exact (x y : list R) :
  List.length x = List.length y ->
  MoodAnalytics.slope (MoodAnalytics.linearRegression x y)
  = JS.Fin (Exact.cross x y) / JS.Fin (Exact.cross x x).
Proof.
  intros Hlen. unfold MoodAnalytics.linearRegression.
  cbn [MoodAnalytics.slope].
  rewrite !sumOf_exact, sumSq_exact, sumProd_exact by assumption.
  reflexivity.
Qed.

Lemma Rsum_complement (c : R) (y : list R) :
  Exact.Rsum (map (fun v => c - v)%R y)
  = (c * INR (List.length y) - Exact.Rsum y)%R.
Proof.
  induction y as [| b y IH].
  - simpl. lra.
  - change (List.length (b :: y)) with (S (List.length y)).
    rewrite S_INR. simpl. fold (Exact.Rsum (map (fun v => c - v)%R y)).
    fold (Exact.Rsum y). rewrite IH. lra.
Qed.

Lemma Rdot_complement (c : R) (x : list R) :
  forall y, List.length x = List.length y ->
  Exact.Rdot x (map (fun v => c - v)%R y)
  = (c * Exact.Rsum x - Exact.Rdot x y)%R.
Proof.
  induction x as [| a x IH]; intros [| b y] Hlen; try discriminate.
  - simpl. lra.
  - injection Hlen as Hlen. simpl. fold (Exact.Rsum x).
    rewrite (IH y Hlen). lra.
Qed.

Lemma cross_complement (c : R) (x y : list R) :
  List.length x = List.length y ->
  Exact.cross x (map (fun v => c - v)%R y) = (- Exact.cross x y)%R.
Proof.
  intros Hlen. unfold Exact.cross.
  rewrite Rdot_complement, Rsum_complement by assumption.
  rewrite <- Hlen. lra.
Qed.

(** Regressing [c - y] instead of [y] negates a finite slope. *)
Lemma slope_complement (c : R) (x y : list R) (s : R) :
  List.length x = List.length y ->
  MoodAnalytics.slope (MoodAnalytics.linearRegression x y) = JS.Fin s ->
  MoodAnalytics.slope
    (MoodAnalytics.linearRegression x (map (fun v => c - v)%R y))
  = JS.Fin (- s).
Proof.
  intros Hlen. rewrite !slope_exact by (now rewrite ?length_map).
  rewrite cross_complement by assumption.
  destruct (Req_dec_T (Exact.cross x x) 0) as [Hz | Hnz].
  - rewrite Hz. simpl. destruct (Req_dec_T 0 0) as [_ | E]; [| now elim E].
    destruct (JS.Rsign (Exact.cross x y)); discriminate.
  - rewrite !div_fin by assumption. intros H. injection H as <-.
    f_equal. field. assumption.
Qed.

Lemma directionOf_fin (w : R) :
  MoodAnalytics.directionOf (JS.Fin w)
  = if Rlt_dec (Rabs w) 0.1 then MoodTracker.stable
    else if Rlt_dec 0 w then MoodTracker.increasing
         else MoodTracker.decreasing.
Proof.
  unfold MoodAnalytics.directionOf. simpl. unfold JS.gt, JS.lt, JS.Rltb.
  destruct (Rlt_dec (Rabs w) 0.1); [reflexivity |].
  destruct (Rlt_dec 0 w); reflexivity.
Qed.

Lemma timeIndicesOf_length (entries : list MoodTracker.MoodEntry) :
  List.length (MoodAnalytics.timeIndicesOf entries) = List.length entries.
Proof.
  destruct entries as [| first rest]; [reflexivity |].
  unfold MoodAnalytics.timeIndicesOf. now rewrite length_map.
Qed.

Lemma analyzeTrends_run (entries : list MoodTracker.MoodEntry) :
  MoodTracker.minEntriesForTrends MoodAnalytics.config
  <= List.length entries ->
  forall tr,
    In tr (fst (MoodAnalytics.analyzeTrends entries))
    <-> exists m, tr = MoodAnalytics.trendOf entries m.
Proof.
  intros Hlen tr.
  unfold MoodAnalytics.analyzeTrends, JS.bind, JS.get.
  replace (List.length entries
           <? MoodTracker.minEntriesForTrends MoodAnalytics.config)%nat
    with false by (symmetry; apply Nat.ltb_ge; assumption).
  cbn [fst JS.ret]. split.
  - intros Hin. apply (Permutation_in _ (sort_perm _ _)) in Hin.
    apply in_map_iff in Hin. destruct Hin as (m & <- & _). now exists m.
  - intros (m & ->).
    apply (Permutation_in _ (Permutation_sym (sort_perm _ _))).
    apply in_map. destruct m; cbn [In]; tauto.
Qed.

Lemma getEntryValue_raw (m : MoodTracker.MoodEntryNumericKeys)
      (entry : MoodTracker.MoodEntry) :
  m <> MoodTracker.key_stress ->
  MoodAnalytics.getEntryValue entry m = Exact.rawValue entry m.
Proof. destruct m; intros H; try reflexivity. now elim H. Qed.

(** C10, as the code has it.  With at least [minEntriesForTrends]
    entries, the trend that [analyzeTrends] reports for the stress
    metric is built from the regression of [10 - stress] on the day
    index, and the trend of every other metric from the regression of
    the stored values.  So the reported stress slope is the opposite of
    the slope [s] of the stored stress values, and the direction is
    subject to the threshold of every trend: it is [decreasing] when
    the stored values rise by more than 0.1 a week, [increasing] when
    they fall by more than 0.1 a week, and [stable] when they change by
    less than 0.1 a week, rising or not. *)
Theorem analyzeTrends_stress_inverted
        (entries : list MoodTracker.MoodEntry) :
  MoodTracker.minEntriesForTrends MoodAnalytics.config
  <= List.length entries ->
  let trends := fst (MoodAnalytics.analyzeTrends entries) in
  let days := MoodAnalytics.timeIndicesOf entries in
  let size := List.length entries in
  let stored := MoodAnalytics.linearRegression
                  days (map MoodTracker.stress entries) in
  let inverted := MoodAnalytics.linearRegression
                    days (map (fun e => 10 - MoodTracker.stress e)%R
                              entries) in
  let reported := MoodAnalytics.trendFrom MoodTracker.key_stress
                                          inverted size in
  (In reported trends
   /\ forall tr, In tr trends ->
                 MoodTracker.metric tr = MoodTracker.key_stress ->
                 tr = reported)
  /\ (forall m, m <> MoodTracker.key_stress ->
        let plain :=
          MoodAnalytics.trendFrom m
            (MoodAnalytics.linearRegression
               days (map (fun e => Exact.rawValue e m) entries)) size in
        In plain trends
        /\ forall tr, In tr trends -> MoodTracker.metric tr = m ->
                      tr = plain)
  /\ (Exact.varies days ->
      MoodAnalytics.slope stored
      = JS.Fin (Exact.cross days (map MoodTracker.stress entries)
                / Exact.cross days days))
  /\ (forall s, MoodAnalytics.slope stored = JS.Fin s ->
        MoodAnalytics.slope inverted = JS.Fin (- s)
        /\ MoodTracker.magnitude reported = JS.Fin (Rabs (s * 7))
        /\ ((0.1 < s * 7)%R ->
            MoodTracker.direction reported = MoodTracker.decreasing)
        /\ ((s * 7 < -0.1)%R ->
            MoodTracker.direction reported = MoodTracker.increasing)
        /\ ((Rabs (s * 7) < 0.1)%R ->
            MoodTracker.direction reported = MoodTracker.stable)).
Proof.
  intros Hlen trends days size stored inverted reported.
  pose proof (analyzeTrends_run entries Hlen) as Hrun. fold trends in Hrun.
  assert (Hstress : MoodAnalytics.trendOf entries MoodTracker.key_stress
                    = reported) by reflexivity.
  assert (Hplain : forall m, m <> MoodTracker.key_stress ->
             MoodAnalytics.trendOf entries m
             = MoodAnalytics.trendFrom m
                 (MoodAnalytics.linearRegression
                    days (map (fun e => Exact.rawValue e m) entries)) size).
  { intros m Hm. unfold MoodAnalytics.trendOf. fold days size.
    do 2 f_equal. apply map_ext. intros e. now apply getEntryValue_raw. }
  assert (Hmetric : forall m,
             MoodTracker.metric (MoodAnalytics.trendOf entries m) = m)
    by reflexivity.
  assert (Hsame : List.length days
                  = List.length (map MoodTracker.stress entries))
    by (unfold days; now rewrite timeIndicesOf_length, length_map).
  split; [| split; [| split]].
  - split.
    + apply Hrun. now exists MoodTracker.key_stress.
    + intros tr Hin Hm. apply Hrun in Hin. destruct Hin as (m & ->).
      rewrite Hmetric in Hm. now subst m.
  - intros m Hm plain. split.
    + apply Hrun. exists m. symmetry. now apply Hplain.
    + intros tr Hin Htr. apply Hrun in Hin. destruct Hin as (m' & ->).
      rewrite Hmetric in Htr. subst m'. now apply Hplain.
  - intros Hdays. unfold stored. rewrite slope_exact by exact Hsame.
    apply div_fin. pose proof (cross_varies days Hdays). lra.
  - intros s Hs.
    assert (Hinv : MoodAnalytics.slope inverted = JS.Fin (- s)).
    { unfold inverted.
      rewrite <- (map_map MoodTracker.stress (fun v => 10 - v)%R).
      apply slope_complement; [exact Hsame | exact Hs]. }
    split; [exact Hinv |].
    unfold reported, MoodAnalytics.trendFrom.
    cbn [MoodTracker.direction MoodTracker.magnitude].
    rewrite Hinv. cbn [JS.mul JS.abs].
    replace (- s * 7)%R with (- (s * 7))%R by lra.
    rewrite directionOf_fin, Rabs_Ropp.
    split; [reflexivity |].
    split; [| split]; intros Hw.
    + rewrite (Rabs_right (s * 7)) by lra.
      destruct (Rlt_dec (s * 7) 0.1); [lra |].
      destruct (Rlt_dec 0 (- (s * 7))); [lra | reflexivity].
    + rewrite (Rabs_left (s * 7)) by lra.
      destruct (Rlt_dec (- (s * 7)) 0.1); [lra |].
      destruct (Rlt_dec 0 (- (s * 7))); [reflexivity | lra].
    + destruct (Rlt_dec (Rabs (s * 7)) 0.1); [reflexivity | lra].
Qed.

Lemma fortnight_length :
  MoodTracker.minEntriesForTrends MoodAnalytics.config
  <= List.length Fixtures.fortnight.
Proof.
  unfold Fixtures.fortnight. rewrite length_map, length_seq.
  cbn [MoodAnalytics.config MoodTracker.DEFAULT_ANALYTICS_CONFIG
       MoodTracker.minEntriesForTrends]. lia.
Qed.

(** ** Weekly patterns *)

(** The week whose bucket for day [d] holds [f d]. *)
Lemma push_week (day : MoodTracker.Weekday) (v : R)
      (f : MoodTracker.Weekday -> list R) :
  MoodAnalytics.push day v (map (fun d => (d, f d)) MoodAnalytics.allDays)
  = map (fun d => (d, if MoodAnalytics.Weekday_eqb d day
                      then (f d ++ [v])%list else f d))
        MoodAnalytics.allDays.
Proof. destruct day; reflexivity. Qed.

Lemma Weekday_eqb_sym (a b : MoodTracker.Weekday) :
  MoodAnalytics.Weekday_eqb a b = MoodAnalytics.Weekday_eqb b a.
Proof. destruct a, b; reflexivity. Qed.

Lemma moodsOn_cons (tz : Z) (e : MoodTracker.MoodEntry)
      (es : list MoodTracker.MoodEntry) (d : MoodTracker.Weekday) :
  Exact.moodsOn tz (e :: es) d
  = if MoodAnalytics.Weekday_eqb
         (MoodAnalytics.dayName tz (MoodTracker.date e)) d
    then MoodTracker.mood e :: Exact.moodsOn tz es d
    else Exact.moodsOn tz es d.
Proof.
  unfold Exact.moodsOn. cbn [filter].
  destruct (MoodAnalytics.Weekday_eqb _ d); reflexivity.
Qed.

(** After the loop over the entries, the bucket of each weekday holds
    the moods recorded on that weekday, in the order of the entries. *)
Lemma buckets_exact (tz : Z) (es : list MoodTracker.MoodEntry) :
  forall f : MoodTracker.Weekday -> list R,
    fold_left (fun obj entry =>
                 MoodAnalytics.push
                   (MoodAnalytics.dayName tz (MoodTracker.date entry))
                   (MoodTracker.mood entry) obj)
              es (map (fun d => (d, f d)) MoodAnalytics.allDays)
    = map (fun d => (d, (f d ++ Exact.moodsOn tz es d)%list))
          MoodAnalytics.allDays.
Proof.
  induction es as [| e es IH]; intros f.
  - cbn [fold_left]. apply map_ext. intros d.
    unfold Exact.moodsOn. cbn [filter map]. now rewrite app_nil_r.
  - cbn [fold_left]. rewrite push_week, IH. apply map_ext. intros d.
    rewrite moodsOn_cons, (Weekday_eqb_sym d).
    destruct (MoodAnalytics.Weekday_eqb _ d); [| reflexivity].
    now rewrite <- app_assoc.
Qed.

Lemma filter_map_swap {A B : Type} (g : A -> B) (p : B -> bool)
      (l : list A) :
  filter p (map g l) = map g (filter (fun a => p (g a)) l).
Proof.
  induction l as [| a l IH]; [reflexivity |].
  cbn [map filter]. rewrite IH. destruct (p (g a)); reflexivity.
Qed.

Lemma dayAverageOf_exact (d : MoodTracker.Weekday) (moods : list R) :
  (0 < List.length moods)%nat ->
  MoodAnalytics.dayAverageOf (d, moods)
  = {| MoodAnalytics.day := d;
       MoodAnalytics.average := JS.Fin (Exact.mean moods);
       MoodAnalytics.count := List.length moods |}.
Proof.
  intros Hlen. unfold MoodAnalytics.dayAverageOf.
  replace (0 <? List.length moods)%nat with true
    by (symmetry; now apply Nat.ltb_lt).
  unfold JS.reduce, JS.ofNat. rewrite reduceFrom_sum, Rplus_0_l.
  rewrite div_fin; [reflexivity |].
  apply not_0_INR. lia.
Qed.

(** The averages that the code keeps are those of the represented
    weekdays, from Sunday to Saturday, each the exact mean of the moods
    of its day. *)
Lemma dayAveragesOf_exact (tz : Z) (entries : list MoodTracker.MoodEntry) :
  MoodAnalytics.dayAveragesOf tz entries
  = map (fun d => {| MoodAnalytics.day := d;
                     MoodAnalytics.average :=
                       JS.Fin (Exact.meanOn tz entries d);
                     MoodAnalytics.count :=
                       List.length (Exact.moodsOn tz entries d) |})
        (Exact.representedDays tz entries).
Proof.
  unfold MoodAnalytics.dayAveragesOf, MoodAnalytics.emptyWeek.
  rewrite (buckets_exact tz entries (fun _ => [])).
  rewrite map_map, filter_map_swap.
  cbn [app].
  assert (Hfilter :
            filter (fun d => (0 <? MoodAnalytics.count
                                     (MoodAnalytics.dayAverageOf
                                        (d, Exact.moodsOn tz entries d)))%nat)
                   MoodAnalytics.allDays
            = Exact.representedDays tz entries).
  { unfold Exact.representedDays. apply filter_ext. intros d. reflexivity. }
  rewrite Hfilter. apply map_ext_in. intros d Hd.
  apply filter_In in Hd. destruct Hd as [_ Hd].
  apply Nat.ltb_lt in Hd. now apply dayAverageOf_exact.
Qed.

Lemma fold_max_fin (l : list R) :
  forall a : R,
    exists hi : R,
      fold_left JS.max (map JS.Fin l) (JS.Fin a) = JS.Fin hi
      /\ (hi = a \/ In hi l)
      /\ (a <= hi)%R
      /\ forall v, In v l -> (v <= hi)%R.
Proof.
  induction l as [| v l IH]; intros a.
  - exists a. cbn. repeat split; [now left | lra | contradiction].
  - cbn [map fold_left JS.max].
    destruct (IH (Rmax a v)) as (hi & Hfold & Hin & Hge & Hall).
    exists hi. split; [exact Hfold |].
    pose proof (Rmax_l a v). pose proof (Rmax_r a v).
    repeat split.
    + destruct Hin as [-> | Hin].
      * destruct (Rmax_case a v (fun z => z = a \/ z = v)) as [E | E];
          [now left | now right | now left | right; left; congruence].
      * right. now right.
    + lra.
    + intros w [<- | Hw]; [lra | now apply Hall].
Qed.

Lemma fold_min_fin (l : list R) :
  forall a : R,
    exists lo : R,
      fold_left JS.min (map JS.Fin l) (JS.Fin a) = JS.Fin lo
      /\ (lo = a \/ In lo l)
      /\ (lo <= a)%R
      /\ forall v, In v l -> (lo <= v)%R.
Proof.
  induction l as [| v l IH]; intros a.
  - exists a. cbn. repeat split; [now left | lra | contradiction].
  - cbn [map fold_left JS.min].
    destruct (IH (Rmin a v)) as (lo & Hfold & Hin & Hle & Hall).
    exists lo. split; [exact Hfold |].
    pose proof (Rmin_l a v). pose proof (Rmin_r a v).
    repeat split.
    + destruct Hin as [-> | Hin].
      * destruct (Rmin_case a v (fun z => z = a \/ z = v)) as [E | E];
          [now left | now right | now left | right; left; congruence].
      * right. now right.
    + lra.
    + intros w [<- | Hw]; [lra | now apply Hall].
Qed.

(** [Math.max(...)] of a non-empty array of finite numbers is its
    greatest element, and [Math.min(...)] its least. *)
Lemma maxOf_fin (l : list R) :
  l <> [] ->
  exists hi : R,
    JS.maxOf (map JS.Fin l) = JS.Fin hi
    /\ In hi l /\ forall v, In v l -> (v <= hi)%R.
Proof.
  destruct l as [| a l]; [now intros H | intros _].
  unfold JS.maxOf. cbn [map fold_left JS.max].
  destruct (fold_max_fin l a) as (hi & Hfold & Hin & Hge & Hall).
  exists hi. split; [exact Hfold | split].
  - destruct Hin as [-> | Hin]; [now left | now right].
  - intros v [<- | Hv]; [exact Hge | now apply Hall].
Qed.

Lemma minOf_fin (l : list R) :
  l <> [] ->
  exists lo : R,
    JS.minOf (map JS.Fin l) = JS.Fin lo
    /\ In lo l /\ forall v, In v l -> (lo <= v)%R.
Proof.
  destruct l as [| a l]; [now intros H | intros _].
  unfold JS.minOf. cbn [map fold_left JS.min].
  destruct (fold_min_fin l a) as (lo & Hfold & Hin & Hle & Hall).
  exists lo. split; [exact Hfold | split].
  - destruct Hin as [-> | Hin]; [now left | now right].
  - intros v [<- | Hv]; [exact Hle | now apply Hall].
Qed.

Lemma representedDays_maxOf (tz : Z) (entries : list MoodTracker.MoodEntry)
      (hi : R) :
  Exact.representedDays tz entries <> [] ->
  Exact.greatestMean tz entries hi ->
  JS.maxOf (map MoodAnalytics.average
                (MoodAnalytics.dayAveragesOf tz entries))
  = JS.Fin hi.
Proof.
  intros Hne ((d & Hd & Hhi) & Hall).
  rewrite dayAveragesOf_exact, map_map. cbn [MoodAnalytics.average].
  rewrite <- (map_map (Exact.meanOn tz entries) JS.Fin).
  destruct (maxOf_fin (map (Exact.meanOn tz entries)
                           (Exact.representedDays tz entries)))
    as (M & HM & Hin & Hub).
  { destruct (Exact.representedDays tz entries); [now elim Hne | discriminate]. }
  rewrite HM. f_equal. apply in_map_iff in Hin.
  destruct Hin as (d' & <- & Hd').
  apply Rle_antisym.
  - now apply Hall.
  - rewrite <- Hhi. apply Hub. now apply in_map.
Qed.

Lemma representedDays_minOf (tz : Z) (entries : list MoodTracker.MoodEntry)
      (lo : R) :
  Exact.representedDays tz entries <> [] ->
  Exact.leastMean tz entries lo ->
  JS.minOf (map MoodAnalytics.average
                (MoodAnalytics.dayAveragesOf tz entries))
  = JS.Fin lo.
Proof.
  intros Hne ((d & Hd & Hlo) & Hall).
  rewrite dayAveragesOf_exact, map_map. cbn [MoodAnalytics.average].
  rewrite <- (map_map (Exact.meanOn tz entries) JS.Fin).
  destruct (minOf_fin (map (Exact.meanOn tz entries)
                           (Exact.representedDays tz entries)))
    as (M & HM & Hin & Hlb).
  { destruct (Exact.representedDays tz entries); [now elim Hne | discriminate]. }
  rewrite HM. f_equal. apply in_map_iff in Hin.
  destruct Hin as (d' & <- & Hd').
  apply Rle_antisym.
  - rewrite <- Hlo. apply Hlb. now apply in_map.
  - now apply Hall.
Qed.

Lemma days_of_filtered (tz : Z) (entries : list MoodTracker.MoodEntry)
      (p : JS.number -> bool) :
  map MoodAnalytics.day
      (filter (fun d => p (MoodAnalytics.average d))
              (MoodAnalytics.dayAveragesOf tz entries))
  = filter (fun d => p (JS.Fin (Exact.meanOn tz entries d)))
           (Exact.representedDays tz entries).
Proof.
  rewrite dayAveragesOf_exact, filter_map_swap, map_map.
  cbn [MoodAnalytics.day MoodAnalytics.average]. apply map_id.
Qed.

(** Over exact arithmetic the threshold is met at a variation of one
    half. *)
Lemma weekly_pattern_exact (tz : Z)
        (entries : list MoodTracker.MoodEntry) (hi lo : R) :
  14 <= List.length entries ->
  4 <= List.length (Exact.representedDays tz entries) ->
  Exact.greatestMean tz entries hi ->
  Exact.leastMean tz entries lo ->
  ((hi - lo < 0.5)%R ->
   fst (MoodAnalytics.detectWeeklyPatterns tz entries) = [])
  /\ ((0.5 <= hi - lo)%R ->
      fst (MoodAnalytics.detectWeeklyPatterns tz entries)
      = [{| MoodTracker.patternType := MoodTracker.weekly;
            MoodTracker.strength := JS.Fin (Rmin 1 ((hi - lo) / 3));
            MoodTracker.peakDays :=
              filter (fun d => JS.Rleb (hi - 0.3)
                                       (Exact.meanOn tz entries d))
                     (Exact.representedDays tz entries);
            MoodTracker.lowDays :=
              filter (fun d => JS.Rleb (Exact.meanOn tz entries d)
                                       (lo + 0.3))
                     (Exact.representedDays tz entries) |}]).
Proof.
  intros Hlen Hdays Hhi Hlo.
  assert (Hne : Exact.representedDays tz entries <> []).
  { intros E. rewrite E in Hdays. simpl in Hdays. lia. }
  unfold MoodAnalytics.detectWeeklyPatterns, JS.bind, JS.get.
  replace (List.length entries <? 14)%nat with false
    by (symmetry; apply Nat.ltb_ge; lia).
  replace (List.length (MoodAnalytics.dayAveragesOf tz entries) <? 4)%nat
    with false
    by (symmetry; apply Nat.ltb_ge;
        rewrite dayAveragesOf_exact, length_map; lia).
  rewrite (representedDays_maxOf tz entries hi Hne Hhi).
  rewrite (representedDays_minOf tz entries lo Hne Hlo).
  cbn [JS.sub]. rewrite lt_fin. split; intros Hvar.
  - now rewrite Rltb_true.
  - rewrite Rltb_false by lra. cbn [fst JS.ret JS.add].
    rewrite div_fin by lra. cbn [JS.min].
    rewrite (days_of_filtered tz entries
               (fun a => JS.ge a (JS.Fin (hi - 0.3)))).
    rewrite (days_of_filtered tz entries
               (fun a => JS.le a (JS.Fin (lo + 0.3)))).
    reflexivity.
Qed.

Lemma moodsOn_fortnight (d : MoodTracker.Weekday) :
  Exact.moodsOn 0 Fixtures.fortnight d
  = match d with
    | MoodTracker.Saturday | MoodTracker.Sunday => [7; 7]%R
    | _ => [5; 5]%R
    end.
Proof.
  destruct d;
    cbv -[Rplus Rmult Rdiv Rminus Rinv Ropp INR IZR]; reflexivity.
Qed.

Lemma representedDays_fortnight :
  Exact.representedDays 0 Fixtures.fortnight = MoodAnalytics.allDays.
Proof.
  unfold Exact.representedDays, Exact.represented, MoodAnalytics.allDays.
  cbn [filter]. rewrite !moodsOn_fortnight. reflexivity.
Qed.

Lemma meanOn_fortnight (d : MoodTracker.Weekday) :
  Exact.meanOn 0 Fixtures.fortnight d
  = match d with
    | MoodTracker.Saturday | MoodTracker.Sunday => 7%R
    | _ => 5%R
    end.
Proof.
  unfold Exact.meanOn, Exact.mean. rewrite moodsOn_fortnight.
  destruct d; simpl; lra.
Qed.

Lemma greatestMean_fortnight : Exact.greatestMean 0 Fixtures.fortnight 7.
Proof.
  split.
  - exists MoodTracker.Sunday. split.
    + rewrite representedDays_fortnight. now left.
    + now rewrite meanOn_fortnight.
  - intros d _. rewrite meanOn_fortnight. destruct d; lra.
Qed.

Lemma leastMean_fortnight : Exact.leastMean 0 Fixtures.fortnight 5.
Proof.
  split.
  - exists MoodTracker.Monday. split.
    + rewrite representedDays_fortnight. right. now left.
    + now rewrite meanOn_fortnight.
  - intros d _. rewrite meanOn_fortnight. destruct d; lra.
Qed.

Lemma fortnight_on_all_days :
  14 <= List.length Fixtures.fortnight
  /\ 4 <= List.length (Exact.representedDays 0 Fixtures.fortnight).
Proof.
  split.
  - unfold Fixtures.fortnight. rewrite length_map, length_seq. lia.
  - rewrite representedDays_fortnight. simpl. lia.
Qed.

(** The pattern found on the fortnight of the fixtures: the week-end
    days are the peak days and the five other days the low days. *)
Lemma detectWeeklyPatterns_fortnight :
  fst (MoodAnalytics.detectWeeklyPatterns 0 Fixtures.fortnight)
  = [{| MoodTracker.patternType := MoodTracker.weekly;
        MoodTracker.strength := JS.Fin (2 / 3);
        MoodTracker.peakDays := [MoodTracker.Sunday; MoodTracker.Saturday];
        MoodTracker.lowDays :=
          [MoodTracker.Monday; MoodTracker.Tuesday; MoodTracker.Wednesday;
           MoodTracker.Thursday; MoodTracker.Friday] |}].
Proof.
  rewrite (proj2 (weekly_pattern_exact
                    0 Fixtures.fortnight 7 5
                    (proj1 fortnight_on_all_days)
                    (proj2 fortnight_on_all_days)
                    greatestMean_fortnight leastMean_fortnight))
    by lra.
  rewrite representedDays_fortnight. unfold MoodAnalytics.allDays.
  cbn [filter]. rewrite !meanOn_fortnight.
  rewrite !(Rleb_true (7 - 0.3) 7), !(Rleb_false (7 - 0.3) 5) by lra.
  rewrite !(Rleb_true 5 (5 + 0.3)), !(Rleb_false 7 (5 + 0.3)) by lra.
  do 2 f_equal. f_equal. rewrite Rmin_right by lra. lra.
Qed.

(** ** Weekly patterns in double precision *)

Section WeeklyPatterns64.
Import PrimFloat.

Lemma push_week64 (day : MoodTracker.Weekday) (v : Float64.number)
      (f : MoodTracker.Weekday -> list Float64.number) :
  Float64.push day v (map (fun d => (d, f d)) MoodAnalytics.allDays)
  = map (fun d => (d, if MoodAnalytics.Weekday_eqb d day
                      then (f d ++ [v])%list else f d))
        MoodAnalytics.allDays.
Proof. destruct day; reflexivity. Qed.

Lemma moodsOn64_cons (tz : Z) (e : Float64.MoodEntry)
      (es : list Float64.MoodEntry) (d : MoodTracker.Weekday) :
  Float64.moodsOn tz (e :: es) d
  = if MoodAnalytics.Weekday_eqb
         (MoodAnalytics.dayName tz (Float64.date e)) d
    then Float64.mood e :: Float64.moodsOn tz es d
    else Float64.moodsOn tz es d.
Proof.
  unfold Float64.moodsOn. cbn [filter].
  destruct (MoodAnalytics.Weekday_eqb _ d); reflexivity.
Qed.

(** After the loop over the entries, the bucket of each weekday holds
    the moods recorded on that weekday, in the order of the entries. *)
Lemma buckets64 (tz : Z) (es : list Float64.MoodEntry) :
  forall f : MoodTracker.Weekday -> list Float64.number,
    fold_left (fun obj entry =>
                 Float64.push
                   (MoodAnalytics.dayName tz (Float64.date entry))
                   (Float64.mood entry) obj)
              es (map (fun d => (d, f d)) MoodAnalytics.allDays)
    = map (fun d => (d, (f d ++ Float64.moodsOn tz es d)%list))
          MoodAnalytics.allDays.
Proof.
  induction es as [| e es IH]; intros f.
  - cbn [fold_left]. apply map_ext. intros d.
    unfold Float64.moodsOn. cbn [filter map]. now rewrite app_nil_r.
  - cbn [fold_left]. rewrite push_week64, IH. apply map_ext. intros d.
    rewrite moodsOn64_cons, (Weekday_eqb_sym d).
    destruct (MoodAnalytics.Weekday_eqb _ d); [| reflexivity].
    now rewrite <- app_assoc.
Qed.

Lemma reduceFrom_add64 (l : list Float64.number) :
  forall (i : nat) (acc : Float64.number),
    JS.reduceFrom (fun sum v (_ : nat) => (sum + v)%float) i acc l
    = fold_left add l acc.
Proof.
  induction l as [| v l IH]; intros i acc; [reflexivity |].
  cbn [JS.reduceFrom fold_left]. apply IH.
Qed.

Lemma dayAverageOf64 (d : MoodTracker.Weekday) (moods : list Float64.number) :
  (0 < List.length moods)%nat ->
  Float64.dayAverageOf (d, moods)
  = {| Float64.day := d;
       Float64.average := Float64.meanOf moods;
       Float64.count := List.length moods |}.
Proof.
  intros Hlen. unfold Float64.dayAverageOf, Float64.meanOf.
  replace (0 <? List.length moods)%nat with true
    by (symmetry; now apply Nat.ltb_lt).
  unfold JS.reduce. now rewrite reduceFrom_add64.
Qed.

(** The averages that the code keeps are those of the represented
    weekdays, from Sunday to Saturday, each the mean of the moods of
    its day. *)
Lemma dayAveragesOf64 (tz : Z) (entries : list Float64.MoodEntry) :
  Float64.dayAveragesOf tz entries
  = map (fun d => {| Float64.day := d;
                     Float64.average := Float64.meanOn tz entries d;
                     Float64.count :=
                       List.length (Float64.moodsOn tz entries d) |})
        (Float64.representedDays tz entries).
Proof.
  unfold Float64.dayAveragesOf, Float64.emptyWeek.
  rewrite (buckets64 tz entries (fun _ => [])).
  rewrite map_map, filter_map_swap.
  cbn [app].
  assert (Hfilter :
            filter (fun d => (0 <? Float64.count
                                     (Float64.dayAverageOf
                                        (d, Float64.moodsOn tz entries d)))%nat)
                   MoodAnalytics.allDays
            = Float64.representedDays tz entries).
  { unfold Float64.representedDays. apply filter_ext. intros d. reflexivity. }
  rewrite Hfilter. apply map_ext_in. intros d Hd.
  apply filter_In in Hd. destruct Hd as [_ Hd].
  apply Nat.ltb_lt in Hd. now apply dayAverageOf64.
Qed.

Lemma averages64 (tz : Z) (entries : list Float64.MoodEntry) :
  map Float64.average (Float64.dayAveragesOf tz entries)
  = map (Float64.meanOn tz entries) (Float64.representedDays tz entries).
Proof. rewrite dayAveragesOf64, map_map. reflexivity. Qed.

Lemma days_of_filtered64 (tz : Z) (entries : list Float64.MoodEntry)
      (p : Float64.number -> bool) :
  map Float64.day
      (filter (fun d => p (Float64.average d))
              (Float64.dayAveragesOf tz entries))
  = filter (fun d => p (Float64.meanOn tz entries d))
           (Float64.representedDays tz entries).
Proof.
  rewrite dayAveragesOf64, filter_map_swap, map_map.
  cbn [Float64.day Float64.average]. apply map_id.
Qed.

(** The order of binary64: a number that is at least [b] is not below
    [b]. *)
Lemma SFcompare_antisym (x y : SpecFloat.spec_float) :
  SpecFloat.SFcompare y x
  = match SpecFloat.SFcompare x y with
    | Some c => Some (CompOpp c)
    | None => None
    end.
Proof.
  destruct x as [sx | sx | | sx mx ex], y as [sy | sy | | sy my ey];
    cbn; try reflexivity;
    try (destruct sx; reflexivity); try (destruct sy; reflexivity);
    try (destruct sx, sy; reflexivity).
  destruct sx, sy; try reflexivity;
    rewrite (Z.compare_antisym ey ex);
    destruct (ey ?= ex)%Z; cbn; try reflexivity;
    rewrite (ZC4 my mx), ?CompOpp_involutive; reflexivity.
Qed.

Lemma leb_not_ltb (a b : Float64.number) :
  (b <=? a)%float = true -> (a <? b)%float = false.
Proof.
  rewrite FloatAxioms.leb_spec, FloatAxioms.ltb_spec.
  unfold SpecFloat.SFleb, SpecFloat.SFltb.
  rewrite (SFcompare_antisym (FloatOps.Prim2SF a) (FloatOps.Prim2SF b)).
  destruct (SpecFloat.SFcompare (FloatOps.Prim2SF a) (FloatOps.Prim2SF b)) as [[| |] |];
    cbn; congruence.
Qed.

(** C7, as the code computes it.  On at least 14 entries spread over
    at least 4 weekdays, with the weekday means, their greatest [hi],
    their least [lo] and the variation [hi - lo] all computed in
    double precision as the engine computes them: if the variation is
    below 0.5 no pattern is returned; if it is not (in particular if it
    is 0.5 or more) exactly one weekly pattern is returned, whose peak
    days are the represented weekdays with a mean of at least
    [hi - 0.3], whose low days are those with a mean of at most
    [lo + 0.3], and whose strength is [min(1, variation / 3)]. *)
Theorem detectWeeklyPatterns_threshold (tz : Z)
        (entries : list Float64.MoodEntry) :
  14 <= List.length entries ->
  4 <= List.length (Float64.representedDays tz entries) ->
  let hi := Float64.greatestMean tz entries in
  let lo := Float64.leastMean tz entries in
  let variation := Float64.variation tz entries in
  let found :=
    [{| Float64.patternType := MoodTracker.weekly;
        Float64.strength := Float64.min 1%float (variation / 3)%float;
        Float64.peakDays :=
          filter (fun d => (hi - Float64.threeTenths
                            <=? Float64.meanOn tz entries d)%float)
                 (Float64.representedDays tz entries);
        Float64.lowDays :=
          filter (fun d => (Float64.meanOn tz entries d
                            <=? lo + Float64.threeTenths)%float)
                 (Float64.representedDays tz entries) |}] in
  ((variation <? 0.5)%float = true ->
   fst (Float64.detectWeeklyPatterns tz entries) = [])
  /\ ((variation <? 0.5)%float = false ->
      fst (Float64.detectWeeklyPatterns tz entries) = found)
  /\ ((0.5 <=? variation)%float = true ->
      fst (Float64.detectWeeklyPatterns tz entries) = found).
Proof.
  intros Hlen Hdays hi lo variation found.
  assert (Hrun :
            fst (Float64.detectWeeklyPatterns tz entries)
            = if (variation <? 0.5)%float then [] else found).
  { unfold Float64.detectWeeklyPatterns, JS.bind, JS.get.
    replace (List.length entries <? 14)%nat with false
      by (symmetry; apply Nat.ltb_ge; lia).
    replace (List.length (Float64.dayAveragesOf tz entries) <? 4)%nat
      with false
      by (symmetry; apply Nat.ltb_ge;
          rewrite dayAveragesOf64, length_map; lia).
    rewrite averages64.
    fold (Float64.greatestMean tz entries) (Float64.leastMean tz entries).
    fold hi lo. change (hi - lo)%float with variation.
    destruct (variation <? 0.5)%float; [reflexivity |].
    cbn [fst JS.ret]. unfold found.
    rewrite (days_of_filtered64 tz entries
               (fun a => (hi - Float64.threeTenths <=? a)%float)).
    rewrite (days_of_filtered64 tz entries
               (fun a => (a <=? lo + Float64.threeTenths)%float)).
    reflexivity. }
  split; [| split]; intros Hv.
  - now rewrite Hrun, Hv.
  - now rewrite Hrun, Hv.
  - now rewrite Hrun, (leb_not_ltb _ _ Hv).
Qed.

Lemma detectWeeklyPatterns_threshold_witness :
  fst (Float64.detectWeeklyPatterns 0 Fixtures.fortnight64)
  = [{| Float64.patternType := MoodTracker.weekly;
        Float64.strength := (2 / 3)%float;
        Float64.peakDays := [MoodTracker.Sunday; MoodTracker.Saturday];
        Float64.lowDays :=
          [MoodTracker.Monday; MoodTracker.Tuesday; MoodTracker.Wednesday;
           MoodTracker.Thursday; MoodTracker.Friday] |}].
Proof.
  refine (eq_trans
            (proj2 (proj2 (detectWeeklyPatterns_threshold
                             0 Fixtures.fortnight64 _ _)) _) _).
  - vm_compute. apply le_n.
  - vm_compute. repeat constructor.
  - vm_compute. reflexivity.
  - vm_compute. reflexivity.
Defined.

Lemma moodsOn_halfPoint (d : MoodTracker.Weekday) :
  Exact.moodsOn 0 Fixtures.halfPoint d
  = match d with
    | MoodTracker.Thursday => [4; 4; 5]%R
    | MoodTracker.Friday => [4; 4; 4; 4; 4; 3]%R
    | MoodTracker.Saturday => [4; 4; 4]%R
    | MoodTracker.Sunday => [4; 4]%R
    | _ => []
    end.
Proof.
  destruct d;
    cbv -[Rplus Rmult Rdiv Rminus Rinv Ropp IZR];
    repeat (f_equal; try lra).
Qed.

Lemma representedDays_halfPoint :
  Exact.representedDays 0 Fixtures.halfPoint
  = [MoodTracker.Sunday; MoodTracker.Thursday; MoodTracker.Friday;
     MoodTracker.Saturday].
Proof.
  unfold Exact.representedDays, Exact.represented, MoodAnalytics.allDays.
  cbn [filter]. rewrite !moodsOn_halfPoint. reflexivity.
Qed.

Lemma meanOn_halfPoint (d : MoodTracker.Weekday) :
  In d (Exact.representedDays 0 Fixtures.halfPoint) ->
  Exact.meanOn 0 Fixtures.halfPoint d
  = match d with
    | MoodTracker.Thursday => (13 / 3)%R
    | MoodTracker.Friday => (23 / 6)%R
    | _ => 4%R
    end.
Proof.
  rewrite representedDays_halfPoint. intros Hd.
  unfold Exact.meanOn, Exact.mean. rewrite moodsOn_halfPoint.
  destruct d; cbn [In] in Hd; try (exfalso; intuition discriminate);
    simpl; lra.
Qed.

Lemma halfPoint_extremes :
  Exact.greatestMean 0 Fixtures.halfPoint (13 / 3)
  /\ Exact.leastMean 0 Fixtures.halfPoint (23 / 6).
Proof.
  assert (HT : In MoodTracker.Thursday
                  (Exact.representedDays 0 Fixtures.halfPoint))
    by (rewrite representedDays_halfPoint; cbn; tauto).
  assert (HF : In MoodTracker.Friday
                  (Exact.representedDays 0 Fixtures.halfPoint))
    by (rewrite representedDays_halfPoint; cbn; tauto).
  split; split.
  - exists MoodTracker.Thursday. split; [exact HT |].
    now rewrite meanOn_halfPoint.
  - intros d Hd. rewrite meanOn_halfPoint by exact Hd. destruct d; lra.
  - exists MoodTracker.Friday. split; [exact HF |].
    now rewrite meanOn_halfPoint.
  - intros d Hd. rewrite meanOn_halfPoint by exact Hd. destruct d; lra.
Qed.

Lemma halfPoint_on_four_days :
  14 <= List.length Fixtures.halfPoint
  /\ 4 <= List.length (Exact.representedDays 0 Fixtures.halfPoint).
Proof.
  split.
  - unfold Fixtures.halfPoint. rewrite length_map. simpl. lia.
  - rewrite representedDays_halfPoint. simpl. lia.
Qed.

(** C7 as it is worded fails at the threshold.  On fourteen entries
    with whole-number moods whose weekday means are 13/3 and 23/6 at
    the two ends, the variation is exactly one half, so that a pattern
    is due (and the method over exact arithmetic returns one); but the
    two means are rounded, their difference in double precision is
    below 0.5, and the method returns no pattern. *)
Lemma detectWeeklyPatterns_at_threshold :
  14 <= List.length Fixtures.halfPoint
  /\ 4 <= List.length (Exact.representedDays 0 Fixtures.halfPoint)
  /\ Exact.greatestMean 0 Fixtures.halfPoint (13 / 3)
  /\ Exact.leastMean 0 Fixtures.halfPoint (23 / 6)
  /\ (0.5 <= 13 / 3 - 23 / 6)%R
  /\ fst (MoodAnalytics.detectWeeklyPatterns 0 Fixtures.halfPoint) <> []
  /\ (Float64.variation 0 Fixtures.halfPoint64 <? 0.5)%float = true
  /\ fst (Float64.detectWeeklyPatterns 0 Fixtures.halfPoint64) = [].
Proof.
  destruct halfPoint_on_four_days as [H14 H4].
  destruct halfPoint_extremes as [Hhi Hlo].
  repeat (split; [first [assumption | lra] |]).
  split; [| split].
  - rewrite (proj2 (weekly_pattern_exact 0 Fixtures.halfPoint
                      (13 / 3) (23 / 6) H14 H4 Hhi Hlo)) by lra.
    discriminate.
  - vm_compute. reflexivity.
  - vm_compute. reflexivity.
Qed.

End WeeklyPatterns64.

(* ================================================================= *)
(** * Part III: further properties of the code *)
(* ================================================================= *)

(** ** Constant sequences *)

(** A constant sequence has no spread. *)
Lemma cross_constant (c : R) (y : list R) :
  (forall v, In v y -> v = c) -> Exact.cross y y = 0%R.
Proof.
  induction y as [| b y IH]; intros Hc.
  - unfold Exact.cross. simpl. lra.
  - rewrite cross_cons, IH by (intros v Hv; apply Hc; now right).
    assert (Hb : b = c) by (apply Hc; now left). subst b.
    assert (Hz : Exact.Rsum (map (fun z => (z - c) * (z - c))%R y) = 0%R).
    { clear IH. induction y as [| z y IHy]; [reflexivity |].
      cbn [map Exact.Rsum fold_right].
      fold (Exact.Rsum (map (fun z => ((z - c) * (z - c))%R) y)).
      rewrite IHy by (intros v [E | Hv]; apply Hc;
                      [now left | right; now right]).
      assert (z = c) by (apply Hc; right; now left). subst z. lra. }
    rewrite Hz. lra.
Qed.

Lemma cross_constant_r (c : R) (x y : list R) :
  List.length x = List.length y ->
  (forall v, In v y -> v = c) -> Exact.cross x y = 0%R.
Proof.
  intros Hlen Hc.
  pose proof (cross_Cauchy_Schwarz x y Hlen) as CS.
  rewrite (cross_constant c y Hc) in CS. nra.
Qed.

(** ** The coefficient in general *)

Lemma pearson_r_exact (x y : list R) :
  List.length x = List.length y ->
  3 <= List.length x ->
  MoodAnalytics.r (MoodAnalytics.pearsonCorrelation x y)
  = if Req_dec_T (Exact.cross x x * Exact.cross y y) 0
    then JS.Fin 0
    else JS.Fin (Exact.cross x y
                 / sqrt (Exact.cross x x * Exact.cross y y)).
Proof.
  intros Hlen Hn.
  pose proof (cross_self_nonneg x) as HA.
  pose proof (cross_self_nonneg y) as HB.
  unfold MoodAnalytics.pearsonCorrelation.
  replace (List.length x <? 3)%nat with false
    by (symmetry; apply Nat.ltb_ge; lia).
  cbn [MoodAnalytics.r]. unfold MoodAnalytics.denominator.
  rewrite denominatorTerm_exact, numerator_exact by assumption.
  rewrite sqrt_fin by nra. cbn [JS.eq].
  destruct (Req_dec_T (Exact.cross x x * Exact.cross y y) 0) as [Hz | Hnz].
  - rewrite Hz, sqrt_0. now rewrite Reqb_true.
  - assert (0 < sqrt (Exact.cross x x * Exact.cross y y))%R
      by (apply sqrt_lt_R0; nra).
    rewrite Reqb_false by lra. now rewrite div_fin by lra.
Qed.

(** ** The p-value of a perfect correlation *)

Lemma Rsign_pos (u : R) : (0 < u)%R -> JS.Rsign u = JS.Pos.
Proof.
  intros H. unfold JS.Rsign.
  destruct (total_order_T u 0) as [[? | ?] | ?]; try lra. reflexivity.
Qed.

Lemma pearson_p_of_r (x y : list R) :
  3 <= List.length x ->
  let c := MoodAnalytics.pearsonCorrelation x y in
  let df := JS.ofNat (List.length x) - JS.Fin 2 in
  MoodAnalytics.p c
  = MoodAnalytics.tTestPValue
      (JS.abs (MoodAnalytics.r c)
       * JS.sqrt (df / (JS.Fin 1 - MoodAnalytics.r c * MoodAnalytics.r c)))
      df.
Proof.
  intros Hn. unfold MoodAnalytics.pearsonCorrelation.
  replace (List.length x <? 3)%nat with false
    by (symmetry; apply Nat.ltb_ge; lia).
  reflexivity.
Qed.

Lemma INR_ge_3 (k : nat) : 3 <= k -> (3 <= INR k)%R.
Proof.
  intros H. apply le_INR in H. simpl in H. lra.
Qed.

Lemma betaIncomplete_at_zero (a b : JS.number) :
  MoodAnalytics.betaIncomplete a b (JS.Fin 0) = JS.Fin 0.
Proof.
  unfold MoodAnalytics.betaIncomplete. cbn [JS.le].
  now rewrite Rleb_true by lra.
Qed.

Lemma tTestPValue_at_infinity (d : R) :
  MoodAnalytics.tTestPValue JS.PosInf (JS.Fin d) = JS.Fin 0.
Proof.
  unfold MoodAnalytics.tTestPValue. cbn [JS.mul JS.add].
  change (JS.Fin d / JS.PosInf) with (JS.Fin 0).
  apply betaIncomplete_at_zero.
Qed.

(** A coefficient of 1 or -1: [t] is infinite and the p-value is 0. *)
Lemma pvalue_of_unit (k : nat) (v : R) :
  3 <= k -> (v * v = 1)%R ->
  let df := JS.ofNat k - JS.Fin 2 in
  MoodAnalytics.tTestPValue
    (JS.abs (JS.Fin v) * JS.sqrt (df / (JS.Fin 1 - JS.Fin v * JS.Fin v))) df
  = JS.Fin 0.
Proof.
  intros Hk Hv df. pose proof (INR_ge_3 k Hk) as HI.
  unfold df, JS.ofNat. cbn [JS.sub JS.mul JS.abs].
  rewrite div_zero_pos by lra.
  cbn [JS.sqrt JS.mul JS.inf_of].
  rewrite Rsign_pos.
  2:{ apply Rabs_pos_lt. intros ->. lra. }
  cbn [JS.inf_of]. apply tTestPValue_at_infinity.
Qed.

(** ** Sequences on a line *)

Lemma Rsum_affine (a b : R) (x : list R) :
  Exact.Rsum (map (fun v => a * v + b)%R x)
  = (a * Exact.Rsum x + INR (List.length x) * b)%R.
Proof.
  induction x as [| v x IH].
  - simpl. lra.
  - change (List.length (v :: x)) with (S (List.length x)).
    rewrite S_INR. cbn [map Exact.Rsum fold_right].
    fold (Exact.Rsum (map (fun v => (a * v + b)%R) x)).
    fold (Exact.Rsum x). rewrite IH. lra.
Qed.

Lemma Rdot_affine (a b : R) (x : list R) :
  forall y, List.length x = List.length y ->
  Exact.Rdot x (map (fun v => a * v + b)%R y)
  = (a * Exact.Rdot x y + b * Exact.Rsum x)%R.
Proof.
  induction x as [| u x IH]; intros [| v y] Hlen; try discriminate.
  - simpl. lra.
  - injection Hlen as Hlen. cbn [map Exact.Rdot Exact.Rsum fold_right].
    fold (Exact.Rsum x). rewrite (IH y Hlen). lra.
Qed.

Lemma cross_affine_r (a b : R) (x y : list R) :
  List.length x = List.length y ->
  Exact.cross x (map (fun v => a * v + b)%R y) = (a * Exact.cross x y)%R.
Proof.
  intros Hlen. unfold Exact.cross.
  rewrite Rdot_affine, Rsum_affine by assumption. rewrite <- Hlen. lra.
Qed.

Lemma cross_comm (x y : list R) :
  List.length x = List.length y -> Exact.cross x y = Exact.cross y x.
Proof.
  intros Hlen. unfold Exact.cross. rewrite (Rdot_comm x y), Hlen. lra.
Qed.

Lemma cross_affine_self (a b : R) (x : list R) :
  Exact.cross (map (fun v => a * v + b)%R x) (map (fun v => a * v + b)%R x)
  = (a * a * Exact.cross x x)%R.
Proof.
  rewrite cross_affine_r by (now rewrite length_map).
  rewrite cross_comm by (now rewrite length_map).
  rewrite cross_affine_r by reflexivity. lra.
Qed.

(** When one sequence is a line over the other, with a slope that is
    not 0 and values that vary, the correlation is perfect: [r] is 1
    for a rising line and -1 for a falling one, and the p-value is
    0. *)
Theorem pearsonCorrelation_of_line (a b : R) (x : list R) :
  3 <= List.length x ->
  Exact.varies x ->
  a <> 0%R ->
  MoodAnalytics.pearsonCorrelation x (map (fun v => a * v + b)%R x)
  = {| MoodAnalytics.r := JS.Fin (if Rlt_dec 0 a then 1 else -1);
       MoodAnalytics.p := JS.Fin 0;
       MoodAnalytics.n := List.length x |}.
Proof.
  intros Hn Hx Ha.
  pose proof (cross_varies x Hx) as HA.
  set (y := map (fun v => (a * v + b)%R) x).
  assert (Hlen : List.length x = List.length y)
    by (unfold y; now rewrite length_map).
  assert (Hr : MoodAnalytics.r (MoodAnalytics.pearsonCorrelation x y)
               = JS.Fin (if Rlt_dec 0 a then 1 else -1)).
  { rewrite pearson_r_exact by assumption. unfold y.
    rewrite cross_affine_self, cross_affine_r by reflexivity.
    set (A := Exact.cross x x) in *.
    assert (Hsq : (A * (a * a * A) = (Rabs a * A) * (Rabs a * A))%R).
    { replace (a * a)%R with (Rabs a * Rabs a)%R; [ring |].
      unfold Rabs. destruct (Rcase_abs a); ring. }
    assert (Hpos : (0 < Rabs a * A)%R)
      by (apply Rmult_lt_0_compat; [now apply Rabs_pos_lt | exact HA]).
    destruct (Req_dec_T (A * (a * a * A)) 0) as [Hz | _].
    { rewrite Hsq in Hz. nra. }
    rewrite Hsq, sqrt_square by lra. f_equal.
    unfold Rabs. destruct (Rcase_abs a) as [Hneg | Hge].
    - destruct (Rlt_dec 0 a); [lra |]. field. lra.
    - destruct (Rlt_dec 0 a); [| lra]. field. lra. }
  assert (Hp : MoodAnalytics.p (MoodAnalytics.pearsonCorrelation x y)
               = JS.Fin 0).
  { rewrite pearson_p_of_r by assumption. cbv zeta. rewrite Hr.
    apply pvalue_of_unit; [assumption |].
    destruct (Rlt_dec 0 a); lra. }
  assert (Hsize : MoodAnalytics.n (MoodAnalytics.pearsonCorrelation x y)
                  = List.length x).
  { unfold MoodAnalytics.pearsonCorrelation.
    destruct (List.length x <? 3)%nat; reflexivity. }
  destruct (MoodAnalytics.pearsonCorrelation x y) as [r0 p0 n0].
  cbn in Hr, Hp, Hsize. now subst.
Qed.

Lemma varies_123 : Exact.varies [1; 2; 3]%R.
Proof.
  exists 1%R, 2%R. repeat split; [now left | right; now left | lra].
Qed.

Lemma pearsonCorrelation_of_line_witness :
  MoodAnalytics.pearsonCorrelation
    [1; 2; 3]%R (map (fun v => -2 * v + 10)%R [1; 2; 3]%R)
  = {| MoodAnalytics.r := JS.Fin (if Rlt_dec 0 (-2) then 1 else -1);
       MoodAnalytics.p := JS.Fin 0;
       MoodAnalytics.n := 3 |}.
Proof.
  apply (pearsonCorrelation_of_line (-2) 10 [1; 2; 3]%R).
  - simpl. lia.
  - exact varies_123.
  - lra.
Defined.

(** ** Linear regression in general *)

Lemma reduceFrom_residuals (s c : R) (y : list R) :
  forall (pre x : list R) (acc : R),
    List.length x = List.length y ->
    JS.reduceFrom
      (fun sum val i =>
         sum + JS.pow2 (JS.Fin val
                        - (JS.Fin s * JS.index (pre ++ x) i + JS.Fin c)))
      (List.length pre) (JS.Fin acc) y
    = JS.Fin (acc + Exact.sqResiduals s c x y).
Proof.
  induction y as [| b y IH]; intros pre x acc Hlen.
  - destruct x; [| discriminate]. simpl. f_equal. lra.
  - destruct x as [| a x]; [discriminate |].
    cbn [JS.reduceFrom]. rewrite index_app.
    change (JS.Fin acc
            + JS.pow2 (JS.Fin b - (JS.Fin s * JS.Fin a + JS.Fin c)))
      with (JS.Fin (acc + (b - (s * a + c)) * (b - (s * a + c)))).
    replace (pre ++ a :: x)%list with ((pre ++ [a]) ++ x)%list
      by (now rewrite <- app_assoc).
    replace (S (List.length pre)) with (List.length (pre ++ [a])%list)
      by (rewrite length_app; simpl; lia).
    rewrite IH by (simpl in Hlen; lia).
    cbn [Exact.sqResiduals]. f_equal. lra.
Qed.

Lemma reduceFrom_deviations (mu : R) (y : list R) :
  forall (i : nat) (acc : R),
    JS.reduceFrom
      (fun sum val (_ : nat) => sum + JS.pow2 (JS.Fin val - JS.Fin mu))
      i (JS.Fin acc) y
    = JS.Fin (acc + Exact.Rsum (map (fun v => (v - mu) * (v - mu))%R y)).
Proof.
  induction y as [| v y IH]; intros i acc; simpl.
  - f_equal. lra.
  - rewrite IH. f_equal. lra.
Qed.

(** What [linearRegression] computes when [x] varies: the least-squares
    slope and intercept, and [1 - ssRes / ssTot] with both sums
    finite. *)
Lemma linearRegression_run (x y : list R) :
  List.length x = List.length y ->
  (0 < Exact.cross x x)%R ->
  let s := (Exact.cross x y / Exact.cross x x)%R in
  let c := ((Exact.Rsum y - s * Exact.Rsum x) / INR (List.length x))%R in
  MoodAnalytics.linearRegression x y
  = {| MoodAnalytics.slope := JS.Fin s;
       MoodAnalytics.intercept := JS.Fin c;
       MoodAnalytics.r2 :=
         JS.Fin 1
         - JS.Fin (Exact.sqResiduals s c x y)
           / JS.Fin (Exact.Rsum
                       (map (fun v => (v - Exact.mean y)
                                      * (v - Exact.mean y))%R y)) |}.
Proof.
  intros Hlen HA s c.
  assert (Hn : (0 < INR (List.length x))%R).
  { apply lt_0_INR. destruct x; [| simpl; lia].
    unfold Exact.cross in HA. simpl in HA. lra. }
  unfold MoodAnalytics.linearRegression.
  rewrite !sumOf_exact, sumSq_exact, sumProd_exact by assumption.
  unfold JS.ofNat.
  change (JS.Fin (INR (List.length x)) * JS.Fin (Exact.Rdot x y)
          - JS.Fin (Exact.Rsum x) * JS.Fin (Exact.Rsum y))
    with (JS.Fin (Exact.cross x y)).
  change (JS.Fin (INR (List.length x)) * JS.Fin (Exact.Rdot x x)
          - JS.Fin (Exact.Rsum x) * JS.Fin (Exact.Rsum x))
    with (JS.Fin (Exact.cross x x)).
  rewrite (div_fin (Exact.cross x y) (Exact.cross x x)) by lra.
  fold s.
  change (JS.Fin (Exact.Rsum y) - JS.Fin s * JS.Fin (Exact.Rsum x))
    with (JS.Fin (Exact.Rsum y - s * Exact.Rsum x)).
  rewrite (div_fin (Exact.Rsum y - s * Exact.Rsum x)
                   (INR (List.length x))) by lra.
  fold c.
  rewrite (div_fin (Exact.Rsum y) (INR (List.length x))) by lra.
  replace (Exact.Rsum y / INR (List.length x))%R with (Exact.mean y)
    by (unfold Exact.mean; now rewrite Hlen).
  unfold JS.reduce.
  pose proof (reduceFrom_residuals s c y [] x 0 Hlen) as Hres.
  cbn [app List.length] in Hres. rewrite Hres.
  rewrite reduceFrom_deviations, !Rplus_0_l. reflexivity.
Qed.

Lemma sumSq_deviations (y : list R) :
  (0 < INR (List.length y))%R ->
  Exact.Rsum (map (fun v => (v - Exact.mean y) * (v - Exact.mean y))%R y)
  = (Exact.cross y y / INR (List.length y))%R.
Proof.
  intros Hn. rewrite Rsum_shift_sq. unfold Exact.mean, Exact.cross.
  field. lra.
Qed.

Lemma sqResiduals_expand (s c : R) (x : list R) :
  forall y, List.length x = List.length y ->
  Exact.sqResiduals s c x y
  = (Exact.Rdot y y - 2 * s * Exact.Rdot x y - 2 * c * Exact.Rsum y
     + s * s * Exact.Rdot x x + 2 * s * c * Exact.Rsum x
     + INR (List.length x) * (c * c))%R.
Proof.
  induction x as [| a x IH]; intros [| b y] Hlen; try discriminate.
  - simpl. lra.
  - injection Hlen as Hlen.
    change (List.length (a :: x)) with (S (List.length x)).
    rewrite S_INR. cbn [Exact.sqResiduals Exact.Rdot Exact.Rsum fold_right].
    fold (Exact.Rsum x). fold (Exact.Rsum y).
    rewrite (IH y Hlen). lra.
Qed.

(** When both sequences vary, the R² of the regression is the square
    of the product-moment coefficient: a finite number between 0
    and 1. *)
Theorem linearRegression_r2_is_r_squared (x y : list R) :
  List.length x = List.length y ->
  Exact.varies x ->
  Exact.varies y ->
  exists v : R,
    MoodAnalytics.r2 (MoodAnalytics.linearRegression x y) = JS.Fin v
    /\ (0 <= v <= 1)%R
    /\ (v = Exact.cross x y * Exact.cross x y
            / (Exact.cross x x * Exact.cross y y))%R
    /\ (3 <= List.length x ->
        MoodAnalytics.r (MoodAnalytics.pearsonCorrelation x y)
        * MoodAnalytics.r (MoodAnalytics.pearsonCorrelation x y)
        = JS.Fin v).
Proof.
  intros Hlen Hx Hy.
  pose proof (cross_varies x Hx) as HA.
  pose proof (cross_varies y Hy) as HB.
  pose proof (cross_Cauchy_Schwarz x y Hlen) as CS.
  assert (Hn : (0 < INR (List.length x))%R).
  { apply lt_0_INR. destruct x; [| simpl; lia].
    unfold Exact.cross in HA. simpl in HA. lra. }
  rewrite (linearRegression_run x y Hlen HA). cbn [MoodAnalytics.r2].
  rewrite sumSq_deviations by (now rewrite <- Hlen).
  rewrite sqResiduals_expand by assumption. rewrite <- Hlen.
  set (A := Exact.cross x x) in *. set (B := Exact.cross y y) in *.
  set (C := Exact.cross x y) in *.
  assert (HBn : (0 < B / INR (List.length x))%R)
    by (apply Rdiv_lt_0_compat; assumption).
  rewrite div_fin by lra. cbn [JS.sub].
  exists (C * C / (A * B))%R.
  assert (HAB : (0 < A * B)%R) by nra.
  split; [| split; [| split]].
  - f_equal. unfold A, B, C, Exact.cross. rewrite <- Hlen.
    fold A. field.
    unfold A, B, Exact.cross in *. rewrite <- Hlen in HB.
    repeat split; lra.
  - split.
    + apply Rmult_le_pos; [nra | left; now apply Rinv_0_lt_compat].
    + apply Rmult_le_reg_r with (A * B)%R; [assumption |].
      replace (C * C / (A * B) * (A * B))%R with (C * C)%R
        by (field; lra).
      lra.
  - reflexivity.
  - intros H3. rewrite pearson_r_exact by assumption. fold A B C.
    destruct (Req_dec_T (A * B) 0) as [Hz | _]; [lra |].
    cbn [JS.mul]. f_equal.
    pose proof (sqrt_sqrt (A * B) (Rlt_le _ _ HAB)) as HDD.
    pose proof (sqrt_lt_R0 _ HAB) as HD.
    set (D := sqrt (A * B)) in *. rewrite <- HDD. field. lra.
Qed.

Lemma varies_2479 : Exact.varies [2; 4; 7; 9]%R.
Proof.
  exists 2%R, 4%R. repeat split; [now left | right; now left | lra].
Qed.

Lemma varies_1234 : Exact.varies [1; 2; 3; 4]%R.
Proof.
  exists 1%R, 2%R. repeat split; [now left | right; now left | lra].
Qed.

Lemma linearRegression_r2_is_r_squared_witness :
  exists v : R,
    MoodAnalytics.r2
      (MoodAnalytics.linearRegression [1; 2; 3; 4]%R [2; 4; 7; 9]%R)
    = JS.Fin v
    /\ (0 <= v <= 1)%R.
Proof.
  destruct (linearRegression_r2_is_r_squared
              [1; 2; 3; 4]%R [2; 4; 7; 9]%R eq_refl
              varies_1234 varies_2479) as (v & Hv & Hb & _).
  exists v. now split.
Defined.

Lemma sqResiduals_on_line (a b : R) (x : list R) :
  Exact.sqResiduals a b x (map (fun v => a * v + b)%R x) = 0%R.
Proof.
  induction x as [| v x IH]; [reflexivity |].
  cbn [map Exact.sqResiduals]. rewrite IH. lra.
Qed.

Lemma regression_on_line (a b : R) (x : list R) :
  Exact.varies x ->
  a <> 0%R ->
  MoodAnalytics.linearRegression x (map (fun v => a * v + b)%R x)
  = {| MoodAnalytics.slope := JS.Fin a;
       MoodAnalytics.intercept := JS.Fin b;
       MoodAnalytics.r2 := JS.Fin 1 |}.
Proof.
  intros Hx Ha.
  pose proof (cross_varies x Hx) as HA.
  set (y := map (fun v => (a * v + b)%R) x).
  assert (Hlen : List.length x = List.length y)
    by (unfold y; now rewrite length_map).
  assert (Hn : (0 < INR (List.length x))%R).
  { apply lt_0_INR. destruct x; [| simpl; lia].
    unfold Exact.cross in HA. simpl in HA. lra. }
  rewrite (linearRegression_run x y Hlen HA).
  assert (Hs : (Exact.cross x y / Exact.cross x x = a)%R).
  { unfold y. rewrite cross_affine_r by reflexivity. field. lra. }
  rewrite Hs.
  assert (Hc : ((Exact.Rsum y - a * Exact.Rsum x) / INR (List.length x)
                = b)%R).
  { unfold y. rewrite Rsum_affine. field. lra. }
  rewrite Hc. unfold y at 1. rewrite sqResiduals_on_line.
  rewrite sumSq_deviations by (now rewrite <- Hlen).
  assert (HB : (0 < Exact.cross y y / INR (List.length y))%R).
  { unfold y at 1 2. rewrite cross_affine_self, <- Hlen.
    apply Rdiv_lt_0_compat; [| assumption].
    assert (0 < a * a)%R by nra. nra. }
  rewrite div_fin by lra. cbn [JS.sub].
  do 2 f_equal. unfold Rdiv. lra.
Qed.

(** Points that lie on a line [y = a x + b] with [a <> 0], over values
    of [x] that vary, give back the line: slope [a], intercept [b]
    and an R² of 1. *)
Theorem linearRegression_of_line (a b : R) (x : list R) :
  Exact.varies x ->
  a <> 0%R ->
  MoodAnalytics.linearRegression x (map (fun v => a * v + b)%R x)
  = {| MoodAnalytics.slope := JS.Fin a;
       MoodAnalytics.intercept := JS.Fin b;
       MoodAnalytics.r2 := JS.Fin 1 |}.
Proof. exact (regression_on_line a b x). Qed.

Lemma linearRegression_of_line_witness :
  MoodAnalytics.linearRegression
    [1; 2; 3; 4]%R (map (fun v => 3 * v + 1)%R [1; 2; 3; 4]%R)
  = {| MoodAnalytics.slope := JS.Fin 3;
       MoodAnalytics.intercept := JS.Fin 1;
       MoodAnalytics.r2 := JS.Fin 1 |}.
Proof.
  apply (linearRegression_of_line 3 1 [1; 2; 3; 4]%R varies_1234). lra.
Defined.

Lemma Rsum_constant (c : R) (y : list R) :
  (forall v, In v y -> v = c) ->
  Exact.Rsum y = (INR (List.length y) * c)%R.
Proof.
  induction y as [| b y IH]; intros Hc.
  - simpl. lra.
  - change (List.length (b :: y)) with (S (List.length y)).
    rewrite S_INR. cbn [Exact.Rsum fold_right]. fold (Exact.Rsum y).
    rewrite IH by (intros v Hv; apply Hc; now right).
    assert (b = c) by (apply Hc; now left). subst b. lra.
Qed.

Lemma reduceFrom_NaN {A : Type} (f : JS.number -> A -> nat -> JS.number)
      (l : list A) :
  (forall v i, f JS.NaN v i = JS.NaN) ->
  forall i, JS.reduceFrom f i JS.NaN l = JS.NaN.
Proof.
  intros Hf. induction l as [| v l IH]; intros i; [reflexivity |].
  cbn [JS.reduceFrom]. rewrite Hf. apply IH.
Qed.

Lemma regression_on_constant_x (c : R) (x y : list R) :
  List.length x = List.length y ->
  (forall v, In v x -> v = c) ->
  MoodAnalytics.linearRegression x y
  = {| MoodAnalytics.slope := JS.NaN;
       MoodAnalytics.intercept := JS.NaN;
       MoodAnalytics.r2 := JS.NaN |}.
Proof.
  intros Hlen Hx.
  unfold MoodAnalytics.linearRegression.
  rewrite !sumOf_exact, sumSq_exact, sumProd_exact by assumption.
  unfold JS.ofNat.
  change (JS.Fin (INR (List.length x)) * JS.Fin (Exact.Rdot x y)
          - JS.Fin (Exact.Rsum x) * JS.Fin (Exact.Rsum y))
    with (JS.Fin (Exact.cross x y)).
  change (JS.Fin (INR (List.length x)) * JS.Fin (Exact.Rdot x x)
          - JS.Fin (Exact.Rsum x) * JS.Fin (Exact.Rsum x))
    with (JS.Fin (Exact.cross x x)).
  rewrite (cross_constant c x Hx).
  rewrite (cross_comm x y Hlen), (cross_constant_r c y x (eq_sym Hlen) Hx).
  rewrite div_zero_zero.
  change (JS.Fin (Exact.Rsum y) - JS.NaN * JS.Fin (Exact.Rsum x))
    with JS.NaN.
  change (JS.NaN / JS.Fin (INR (List.length x))) with JS.NaN.
  f_equal. unfold JS.reduce.
  destruct y as [| b y].
  - cbn [JS.reduceFrom]. now rewrite div_zero_zero.
  - cbn [JS.reduceFrom].
    change (JS.Fin 0 + JS.pow2 (JS.Fin b - (JS.NaN * JS.index x 0 + JS.NaN)))
      with JS.NaN.
    rewrite reduceFrom_NaN by reflexivity. reflexivity.
Qed.

(** When every value of [x] is the same, which is what the day index
    is when all the entries carry one date, both sums of the slope are
    0 and the regression is NaN throughout. *)
Theorem linearRegression_of_constant_x (c : R) (x y : list R) :
  List.length x = List.length y ->
  (forall v, In v x -> v = c) ->
  MoodAnalytics.linearRegression x y
  = {| MoodAnalytics.slope := JS.NaN;
       MoodAnalytics.intercept := JS.NaN;
       MoodAnalytics.r2 := JS.NaN |}.
Proof. exact (regression_on_constant_x c x y). Qed.

Lemma linearRegression_of_constant_x_witness :
  MoodAnalytics.linearRegression [0; 0; 0]%R [5; 6; 7]%R
  = {| MoodAnalytics.slope := JS.NaN;
       MoodAnalytics.intercept := JS.NaN;
       MoodAnalytics.r2 := JS.NaN |}.
Proof.
  apply (linearRegression_of_constant_x 0 [0; 0; 0]%R [5; 6; 7]%R).
  - reflexivity.
  - intros v Hv. simpl in Hv. intuition congruence.
Defined.

(** ** Trends on special series *)

Lemma trendOf_among (entries : list MoodTracker.MoodEntry)
      (tr : MoodTracker.TrendAnalysis) :
  In tr (fst (MoodAnalytics.analyzeTrends entries)) ->
  exists m, tr = MoodAnalytics.trendOf entries m.
Proof.
  unfold MoodAnalytics.analyzeTrends, JS.bind, JS.get.
  destruct (_ <? _)%nat; cbn [fst JS.ret]; [contradiction |].
  intros Hin. apply (Permutation_in _ (sort_perm _ _)) in Hin.
  apply in_map_iff in Hin. destruct Hin as (m & <- & _). now exists m.
Qed.

Lemma timeIndicesOf_one_date (d : Z) (entries : list MoodTracker.MoodEntry) :
  (forall e, In e entries -> MoodTracker.date e = d) ->
  forall v, In v (MoodAnalytics.timeIndicesOf entries) -> v = 0%R.
Proof.
  intros Hd v Hv. destruct entries as [| first rest]; [contradiction |].
  unfold MoodAnalytics.timeIndicesOf in Hv. apply in_map_iff in Hv.
  destruct Hv as (e & <- & He).
  rewrite (Hd e He), (Hd first (or_introl eq_refl)).
  unfold Rdiv. lra.
Qed.

(** When all the entries carry one and the same date there is no time
    axis to regress on: every trend that [analyzeTrends] reports has a
    NaN magnitude and a NaN significance, and its direction is
    [decreasing], whatever the values are. *)
Theorem analyzeTrends_on_one_date (d : Z)
        (entries : list MoodTracker.MoodEntry)
        (tr : MoodTracker.TrendAnalysis) :
  (forall e, In e entries -> MoodTracker.date e = d) ->
  In tr (fst (MoodAnalytics.analyzeTrends entries)) ->
  MoodTracker.direction tr = MoodTracker.decreasing
  /\ MoodTracker.magnitude tr = JS.NaN
  /\ MoodTracker.trendSignificance tr = JS.NaN.
Proof.
  intros Hd Hin. apply trendOf_among in Hin. destruct Hin as (m & ->).
  unfold MoodAnalytics.trendOf.
  rewrite (regression_on_constant_x 0 (MoodAnalytics.timeIndicesOf entries)).
  - repeat split.
  - now rewrite timeIndicesOf_length, length_map.
  - now apply (timeIndicesOf_one_date d).
Qed.

Lemma repeat_entry_dates (k : nat) (e : MoodTracker.MoodEntry) :
  forall e', In e' (repeat e k) -> MoodTracker.date e' = MoodTracker.date e.
Proof. intros e' H. apply repeat_spec in H. now subst. Qed.

Lemma analyzeTrends_on_one_date_witness :
  let entries := repeat (Fixtures.entryAt "a" 1 5 3) 14 in
  let tr := MoodAnalytics.trendOf entries MoodTracker.key_mood in
  MoodTracker.direction tr = MoodTracker.decreasing
  /\ MoodTracker.magnitude tr = JS.NaN
  /\ MoodTracker.trendSignificance tr = JS.NaN.
Proof.
  intros entries tr.
  apply (analyzeTrends_on_one_date
           (MoodTracker.date (Fixtures.entryAt "a" 1 5 3)) entries tr).
  - apply repeat_entry_dates.
  - apply (Permutation_in _ (Permutation_sym (sort_perm _ _))).
    apply in_map. now left.
Defined.

(** The entries carry two different dates. *)
Lemma timeIndicesOf_vary (entries : list MoodTracker.MoodEntry) :
  (exists e1 e2, In e1 entries /\ In e2 entries
                 /\ MoodTracker.date e1 <> MoodTracker.date e2) ->
  Exact.varies (MoodAnalytics.timeIndicesOf entries).
Proof.
  intros (e1 & e2 & H1 & H2 & Hne).
  destruct entries as [| first rest]; [contradiction |].
  unfold MoodAnalytics.timeIndicesOf.
  set (g := fun entry : MoodTracker.MoodEntry =>
              ((IZR (MoodTracker.date entry)
                - IZR (MoodTracker.date first))
               / (1000 * 60 * 60 * 24))%R).
  exists (g e1), (g e2). repeat split; try (now apply in_map).
  unfold g. intros H.
  assert (IZR (MoodTracker.date e1) = IZR (MoodTracker.date e2)).
  { unfold Rdiv in H. lra. }
  apply eq_IZR in H0. contradiction.
Qed.

Lemma fortnight_dates_vary :
  exists e1 e2, In e1 Fixtures.fortnight /\ In e2 Fixtures.fortnight
                /\ MoodTracker.date e1 <> MoodTracker.date e2.
Proof.
  unfold Fixtures.fortnight.
  eexists. eexists. split; [| split].
  - apply in_map with (x := 0). apply in_seq. lia.
  - apply in_map with (x := 1). apply in_seq. lia.
  - cbn. discriminate.
Qed.




(** ** The stress trend on two series that rise *)

Lemma fortnight_stored_stress_on_line :
  map MoodTracker.stress Fixtures.fortnight
  = map (fun t => 0.1 * t + 3)%R
        (MoodAnalytics.timeIndicesOf Fixtures.fortnight).
Proof.
  cbv -[Rplus Rmult Rdiv Rminus Rinv Ropp IZR].
  repeat (f_equal; try lra).
Qed.

Lemma fortnight_stored_slope :
  MoodAnalytics.slope
    (MoodAnalytics.linearRegression
       (MoodAnalytics.timeIndicesOf Fixtures.fortnight)
       (map MoodTracker.stress Fixtures.fortnight))
  = JS.Fin 0.1.
Proof.
  rewrite fortnight_stored_stress_on_line.
  rewrite (regression_on_line 0.1 3 _
             (timeIndicesOf_vary _ fortnight_dates_vary)) by lra.
  reflexivity.
Qed.

Lemma analyzeTrends_stress_inverted_witness :
  In (MoodAnalytics.trendFrom MoodTracker.key_stress
        (MoodAnalytics.linearRegression
           (MoodAnalytics.timeIndicesOf Fixtures.fortnight)
           (map (fun e => 10 - MoodTracker.stress e)%R Fixtures.fortnight))
        (List.length Fixtures.fortnight))
     (fst (MoodAnalytics.analyzeTrends Fixtures.fortnight))
  /\ MoodTracker.direction
       (MoodAnalytics.trendFrom MoodTracker.key_stress
          (MoodAnalytics.linearRegression
             (MoodAnalytics.timeIndicesOf Fixtures.fortnight)
             (map (fun e => 10 - MoodTracker.stress e)%R Fixtures.fortnight))
          (List.length Fixtures.fortnight))
     = MoodTracker.decreasing.
Proof.
  split.
  - exact (proj1 (proj1 (analyzeTrends_stress_inverted
                           Fixtures.fortnight fortnight_length))).
  - refine (proj1 (proj2 (proj2
             (proj2 (proj2 (proj2 (analyzeTrends_stress_inverted
                                     Fixtures.fortnight fortnight_length)))
                    0.1%R fortnight_stored_slope))) _).
    lra.
Defined.

Lemma slowRise_length :
  MoodTracker.minEntriesForTrends MoodAnalytics.config
  <= List.length Fixtures.slowRise.
Proof.
  unfold Fixtures.slowRise. rewrite length_map, length_seq.
  cbn [MoodAnalytics.config MoodTracker.DEFAULT_ANALYTICS_CONFIG
       MoodTracker.minEntriesForTrends]. lia.
Qed.

Lemma slowRise_dates_vary :
  exists e1 e2, In e1 Fixtures.slowRise /\ In e2 Fixtures.slowRise
                /\ MoodTracker.date e1 <> MoodTracker.date e2.
Proof.
  unfold Fixtures.slowRise.
  eexists. eexists. split; [| split].
  - apply in_map with (x := 0). apply in_seq. lia.
  - apply in_map with (x := 1). apply in_seq. lia.
  - cbn. discriminate.
Qed.

Lemma slowRise_stored_stress_on_line :
  map MoodTracker.stress Fixtures.slowRise
  = map (fun t => 0.01 * t + 3)%R
        (MoodAnalytics.timeIndicesOf Fixtures.slowRise).
Proof.
  cbv -[Rplus Rmult Rdiv Rminus Rinv Ropp IZR].
  repeat (f_equal; try lra).
Qed.

Lemma slowRise_stress_on_line :
  map (fun e => MoodAnalytics.getEntryValue e MoodTracker.key_stress)
      Fixtures.slowRise
  = map (fun t => -0.01 * t + 7)%R
        (MoodAnalytics.timeIndicesOf Fixtures.slowRise).
Proof.
  cbv -[Rplus Rmult Rdiv Rminus Rinv Ropp IZR].
  repeat (f_equal; try lra).
Qed.

(** C10 as it is worded fails below the threshold: on fourteen daily
    entries whose stored stress rises by a hundredth a day (slope 0.01,
    0.07 a week) the trend that [analyzeTrends] reports for stress is
    [stable], not [decreasing]. *)
Lemma analyzeTrends_slow_rise_stable :
  MoodAnalytics.slope
    (MoodAnalytics.linearRegression
       (MoodAnalytics.timeIndicesOf Fixtures.slowRise)
       (map MoodTracker.stress Fixtures.slowRise))
  = JS.Fin 0.01
  /\ In (MoodAnalytics.trendOf Fixtures.slowRise MoodTracker.key_stress)
        (fst (MoodAnalytics.analyzeTrends Fixtures.slowRise))
  /\ MoodTracker.direction
       (MoodAnalytics.trendOf Fixtures.slowRise MoodTracker.key_stress)
     = MoodTracker.stable
  /\ MoodTracker.direction
       (MoodAnalytics.trendOf Fixtures.slowRise MoodTracker.key_stress)
     <> MoodTracker.decreasing.
Proof.
  assert (Hvary := timeIndicesOf_vary _ slowRise_dates_vary).
  assert (Hdir : MoodTracker.direction
                   (MoodAnalytics.trendOf Fixtures.slowRise
                                          MoodTracker.key_stress)
                 = MoodTracker.stable).
  { unfold MoodAnalytics.trendOf. rewrite slowRise_stress_on_line.
    rewrite (regression_on_line (-0.01) 7 _ Hvary) by lra.
    unfold MoodAnalytics.trendFrom.
    cbn [MoodAnalytics.slope JS.mul MoodTracker.direction].
    rewrite directionOf_fin.
    destruct (Rlt_dec (Rabs (-0.01 * 7)) 0.1) as [_ | H]; [reflexivity |].
    exfalso. apply H. rewrite Rabs_left; lra. }
  split; [| split; [| split]].
  - rewrite slowRise_stored_stress_on_line.
    rewrite (regression_on_line 0.01 3 _ Hvary) by lra. reflexivity.
  - apply (analyzeTrends_run _ slowRise_length).
    now exists MoodTracker.key_stress.
  - exact Hdir.
  - rewrite Hdir. discriminate.
Qed.

(** ** The correlation list *)

Lemma sub_antisym (u v : JS.number) :
  (u - v >? JS.Fin 0) = true -> (v - u >? JS.Fin 0) = false.
Proof.
  destruct u as [a | | |], v as [b | | |]; cbn; try discriminate;
    try reflexivity.
  apply (byDate_antisym_fin a b).
Qed.

Lemma Sorted_weaken {A : Type} (P R : A -> A -> Prop) (Q : A -> Prop)
      (l : list A) :
  (forall a b, Q a -> Q b -> P a b -> R a b) ->
  Forall Q l -> Sorted P l -> Sorted R l.
Proof.
  intros HPR HQ HS. induction HS as [| a l HS IH Hd]; [constructor |].
  inversion HQ as [| ? ? Ha Hl]; subst.
  constructor; [now apply IH |].
  destruct Hd as [| b l Hab]; constructor.
  inversion Hl; subst. now apply HPR.
Qed.

(** [calculateCorrelations] returns nothing below
    [minEntriesForCorrelation] entries, and otherwise one result for
    each of the six factors, in some order, each over a sample of all
    the entries. *)
Theorem calculateCorrelations_shape (entries : list MoodTracker.MoodEntry) :
  let results := fst (MoodAnalytics.calculateCorrelations entries) in
  (List.length entries
   < MoodTracker.minEntriesForCorrelation MoodAnalytics.config ->
   results = [])
  /\ (MoodTracker.minEntriesForCorrelation MoodAnalytics.config
      <= List.length entries ->
      Permutation (map MoodTracker.factor results)
                  ["Energy"; "Stress"; "Sleep"; "Hydration"; "Exercise";
                   "Nutrition"]%string
      /\ Forall (fun c => MoodTracker.sampleSize c = List.length entries)
                results).
Proof.
  intros results.
  unfold results, MoodAnalytics.calculateCorrelations, JS.bind, JS.get.
  split; intros Hlen.
  - replace (List.length entries
             <? MoodTracker.minEntriesForCorrelation MoodAnalytics.config)%nat
      with true by (symmetry; apply Nat.ltb_lt; assumption).
    reflexivity.
  - replace (List.length entries
             <? MoodTracker.minEntriesForCorrelation MoodAnalytics.config)%nat
      with false by (symmetry; apply Nat.ltb_ge; assumption).
    cbn [fst JS.ret].
    set (cmp := fun a b : MoodTracker.CorrelationData =>
                  JS.abs (MoodTracker.correlation b)
                  - JS.abs (MoodTracker.correlation a)).
    set (raw := map (MoodAnalytics.correlationOf entries) _).
    split.
    + rewrite (Permutation_map MoodTracker.factor (sort_perm cmp raw)).
      reflexivity.
    + apply Forall_forall. intros c Hc.
      apply (Permutation_in _ (sort_perm _ _)) in Hc.
      unfold raw in Hc. apply in_map_iff in Hc. destruct Hc as (k & <- & _).
      unfold MoodAnalytics.correlationOf. cbn [MoodTracker.sampleSize].
      unfold MoodAnalytics.pearsonCorrelation.
      destruct (List.length (map MoodTracker.mood entries) <? 3)%nat;
        cbn [MoodAnalytics.n]; now rewrite length_map.
Qed.

(** ** Wellness metrics *)

(** With fewer than 21 entries the window of the 14 entries before the
    last 14 holds fewer than 7 of them, and the improvement trend is
    [stable] whatever the moods are. *)
Theorem calculateWellnessMetrics_needs_21
        (entries : list MoodTracker.MoodEntry) :
  List.length entries < 21 ->
  MoodTracker.improvementTrend
    (fst (MoodAnalytics.calculateWellnessMetrics entries))
  = MoodTracker.trend_stable.
Proof.
  intros Hn.
  unfold MoodAnalytics.calculateWellnessMetrics, JS.bind, JS.get.
  destruct (List.length entries =? 0)%nat; [reflexivity |].
  cbn [fst JS.ret MoodTracker.improvementTrend].
  replace (7 <=? List.length (MoodAnalytics.sliceBetween 28 14 entries))%nat
    with false.
  - now rewrite andb_false_r.
  - symmetry. apply Nat.leb_gt. unfold MoodAnalytics.sliceBetween.
    rewrite length_firstn. lia.
Qed.

Lemma calculateWellnessMetrics_needs_21_witness :
  MoodTracker.improvementTrend
    (fst (MoodAnalytics.calculateWellnessMetrics Fixtures.fortnight))
  = MoodTracker.trend_stable.
Proof.
  apply (calculateWellnessMetrics_needs_21 Fixtures.fortnight).
  unfold Fixtures.fortnight. rewrite length_map, length_seq. lia.
Defined.

(** ** Suggestions *)

Lemma suggestionFor_priority (corr : MoodTracker.CorrelationData)
      (s : MoodTracker.OptimizationSuggestion) :
  MoodAnalytics.suggestionFor corr = Some s ->
  1 <= MoodTracker.priority s <= 3.
Proof.
  unfold MoodAnalytics.suggestionFor.
  repeat match goal with
         | |- context [if (?a =? ?b)%string then _ else _] =>
             destruct (a =? b)%string
         end;
    intros H; try discriminate; injection H as <-;
    cbn [MoodTracker.priority];
    repeat match goal with
           | |- context [if ?c then _ else _] => destruct c
           end; lia.
Qed.

Lemma suggestionsOf_short (corr : MoodTracker.CorrelationData) :
  List.length (MoodAnalytics.suggestionsOf corr) <= 1
  /\ Forall (fun s => 1 <= MoodTracker.priority s <= 3)
            (MoodAnalytics.suggestionsOf corr).
Proof.
  unfold MoodAnalytics.suggestionsOf.
  destruct (_ && _); [| split; [simpl; lia | constructor]].
  destruct (MoodAnalytics.suggestionFor corr) as [s |] eqn:Hs;
    [| split; [simpl; lia | constructor]].
  split; [simpl; lia |].
  constructor; [now apply (suggestionFor_priority corr) | constructor].
Qed.

Lemma flat_map_short {A B : Type} (f : A -> list B) (l : list A) :
  (forall a, List.length (f a) <= 1) ->
  List.length (flat_map f l) <= List.length l.
Proof.
  intros Hf. induction l as [| a l IH]; [simpl; lia |].
  cbn [flat_map]. rewrite length_app. specialize (Hf a). simpl. lia.
Qed.

Lemma bySuggestionRank_antisym (a b : MoodTracker.OptimizationSuggestion) :
  (MoodAnalytics.bySuggestionRank a b >? JS.Fin 0) = true ->
  (MoodAnalytics.bySuggestionRank b a >? JS.Fin 0) = false.
Proof.
  unfold MoodAnalytics.bySuggestionRank.
  rewrite (Nat.eqb_sym (MoodTracker.priority b)).
  destruct (MoodTracker.priority a =? MoodTracker.priority b)%nat;
    cbn [negb].
  - apply sub_antisym.
  - unfold JS.ofNat. apply byDate_antisym_fin.
Qed.

Lemma bySuggestionRank_inOrder (a b : MoodTracker.OptimizationSuggestion) :
  JS.inOrder MoodAnalytics.bySuggestionRank a b ->
  MoodTracker.priority a <= MoodTracker.priority b.
Proof.
  unfold JS.inOrder, MoodAnalytics.bySuggestionRank.
  destruct (MoodTracker.priority a =? MoodTracker.priority b)%nat eqn:E;
    cbn [negb].
  - intros _. apply Nat.eqb_eq in E. lia.
  - unfold JS.ofNat. cbn. unfold JS.Rltb.
    destruct (Rlt_dec 0 (INR (MoodTracker.priority a)
                         - INR (MoodTracker.priority b)));
      [discriminate | intros _].
    apply INR_le. lra.
Qed.

(** The suggestions of [generateOptimizations] come by ascending
    priority, every priority is 1, 2 or 3, and there are at most six
    of them. *)
Theorem generateOptimizations_ranked (entries : list MoodTracker.MoodEntry) :
  let suggestions := fst (MoodAnalytics.generateOptimizations entries) in
  Forall (fun s => 1 <= MoodTracker.priority s <= 3) suggestions
  /\ StronglySorted
       (fun a b => MoodTracker.priority a <= MoodTracker.priority b)
       suggestions
  /\ List.length suggestions <= 6.
Proof.
  unfold MoodAnalytics.generateOptimizations, JS.bind.
  rewrite (readOnly_run _ _ (calculateCorrelations_readOnly entries)).
  cbn [fst JS.ret].
  set (cs := fst (MoodAnalytics.calculateCorrelations entries)).
  repeat split.
  - apply Forall_forall. intros s Hs.
    apply (Permutation_in _ (sort_perm _ _)) in Hs.
    apply in_flat_map in Hs. destruct Hs as (corr & _ & Hs).
    destruct (suggestionsOf_short corr) as [_ Hall].
    rewrite Forall_forall in Hall. now apply Hall.
  - apply Sorted_StronglySorted; [intros a b c; lia |].
    apply (Sorted_weaken (JS.inOrder MoodAnalytics.bySuggestionRank) _
             (fun _ => True)).
    + intros a b _ _. apply bySuggestionRank_inOrder.
    + apply Forall_forall. trivial.
    + apply sort_Sorted. exact bySuggestionRank_antisym.
  - rewrite sort_length.
    etransitivity; [apply flat_map_short; apply suggestionsOf_short |].
    unfold cs, MoodAnalytics.calculateCorrelations, JS.bind, JS.get.
    destruct (_ <? _)%nat; cbn [fst JS.ret]; [simpl; lia |].
    rewrite sort_length, length_map. simpl. lia.
Qed.

(** ** Insights *)

Lemma reduceFrom_field (field : MoodTracker.MoodEntry -> R)
      (l : list MoodTracker.MoodEntry) :
  forall (i : nat) (acc : R),
    JS.reduceFrom (fun sum e (_ : nat) => sum + JS.Fin (field e))
                  i (JS.Fin acc) l
    = JS.Fin (acc + Exact.Rsum (map field l)).
Proof.
  induction l as [| e l IH]; intros i acc; simpl.
  - f_equal. lra.
  - rewrite IH. f_equal. lra.
Qed.

(** The average of a field over a non-empty array is its exact mean. *)
Lemma averageOf_exact (field : MoodTracker.MoodEntry -> R)
      (l : list MoodTracker.MoodEntry) :
  0 < List.length l ->
  MoodAnalytics.averageOf field l = JS.Fin (Exact.mean (map field l)).
Proof.
  intros Hl. unfold MoodAnalytics.averageOf, JS.reduce, JS.ofNat.
  rewrite reduceFrom_field, Rplus_0_l.
  rewrite div_fin by (apply not_0_INR; lia).
  unfold Exact.mean. now rewrite length_map.
Qed.

Lemma generateAdvancedInsights_run (tz : Z)
      (entries : list MoodTracker.MoodEntry) :
  fst (MoodAnalytics.generateAdvancedInsights tz entries)
  = let correlations := fst (MoodAnalytics.calculateCorrelations entries) in
    let trends := fst (MoodAnalytics.analyzeTrends entries) in
    let recentEntries := MoodAnalytics.sliceLast 7 entries in
    let avgRecentMood :=
      if (0 <? List.length recentEntries)%nat
      then MoodAnalytics.averageOf MoodTracker.mood recentEntries
      else JS.Fin 5 in
    let moodTrend :=
      find (fun t => MoodAnalytics.isMood (MoodTracker.metric t)) trends in
    {| MoodTracker.correlations := correlations;
       MoodTracker.trends := trends;
       MoodTracker.patterns :=
         fst (MoodAnalytics.detectWeeklyPatterns tz entries);
       MoodTracker.optimizations :=
         fst (MoodAnalytics.generateOptimizations entries);
       MoodTracker.predictions :=
         {| MoodTracker.nextWeekMood :=
              match moodTrend with
              | Some t =>
                  JS.max (JS.Fin 1)
                    (JS.min (JS.Fin 10)
                       (avgRecentMood
                        + MoodTracker.magnitude t
                          * (if MoodAnalytics.isIncreasing
                                  (MoodTracker.direction t)
                             then JS.Fin 1 else JS.Fin (-1))))
              | None => avgRecentMood
              end;
            MoodTracker.confidence :=
              JS.min (JS.Fin 90)
                     (JS.ofNat (List.length entries) * JS.Fin 3);
            MoodTracker.basedOn :=
              (map MoodTracker.factor (firstn 3 correlations)
               ++ match moodTrend with
                  | Some t =>
                      [(MoodAnalytics.directionName (MoodTracker.direction t)
                        ++ " mood trend")%string]
                  | None => []
                  end)%list |} |}.
Proof.
  unfold MoodAnalytics.generateAdvancedInsights, JS.bind.
  rewrite (readOnly_run _ _ (calculateCorrelations_readOnly entries)).
  rewrite (readOnly_run _ _ (analyzeTrends_readOnly entries)).
  rewrite (readOnly_run _ _ (detectWeeklyPatterns_readOnly tz entries)).
  rewrite (readOnly_run _ _ (generateOptimizations_readOnly entries)).
  reflexivity.
Qed.

(** With at least one entry and fewer than
    [minEntriesForCorrelation], the insights hold no correlation, no
    trend, no pattern and no suggestion; the predicted mood is the
    plain mean of the moods, not brought into the range 1 to 10, the
    confidence is three times the number of entries, and the
    prediction names no factor. *)
Theorem generateAdvancedInsights_few_entries (tz : Z)
        (entries : list MoodTracker.MoodEntry) :
  0 < List.length entries ->
  List.length entries
  < MoodTracker.minEntriesForCorrelation MoodAnalytics.config ->
  fst (MoodAnalytics.generateAdvancedInsights tz entries)
  = {| MoodTracker.correlations := [];
       MoodTracker.trends := [];
       MoodTracker.patterns := [];
       MoodTracker.optimizations := [];
       MoodTracker.predictions :=
         {| MoodTracker.nextWeekMood :=
              JS.Fin (Exact.mean (map MoodTracker.mood entries));
            MoodTracker.confidence :=
              JS.Fin (INR (List.length entries) * 3);
            MoodTracker.basedOn := [] |} |}.
Proof.
  intros Hpos Hn. rewrite generateAdvancedInsights_run.
  cbn [MoodAnalytics.config MoodTracker.DEFAULT_ANALYTICS_CONFIG
       MoodTracker.minEntriesForCorrelation] in Hn.
  assert (Hcorr : fst (MoodAnalytics.calculateCorrelations entries) = []).
  { unfold MoodAnalytics.calculateCorrelations, JS.bind, JS.get.
    replace (List.length entries
             <? MoodTracker.minEntriesForCorrelation MoodAnalytics.config)%nat
      with true by (symmetry; now apply Nat.ltb_lt).
    reflexivity. }
  assert (Htrend : fst (MoodAnalytics.analyzeTrends entries) = []).
  { unfold MoodAnalytics.analyzeTrends, JS.bind, JS.get.
    replace (List.length entries
             <? MoodTracker.minEntriesForTrends MoodAnalytics.config)%nat
      with true
      by (symmetry; apply Nat.ltb_lt;
          cbn [MoodAnalytics.config MoodTracker.DEFAULT_ANALYTICS_CONFIG
               MoodTracker.minEntriesForTrends]; lia).
    reflexivity. }
  assert (Hpat : fst (MoodAnalytics.detectWeeklyPatterns tz entries) = []).
  { unfold MoodAnalytics.detectWeeklyPatterns, JS.bind, JS.get.
    replace (List.length entries <? 14)%nat with true
      by (symmetry; apply Nat.ltb_lt; lia).
    reflexivity. }
  assert (Hopt : fst (MoodAnalytics.generateOptimizations entries) = []).
  { unfold MoodAnalytics.generateOptimizations, JS.bind.
    rewrite (readOnly_run _ _ (calculateCorrelations_readOnly entries)).
    rewrite Hcorr. reflexivity. }
  assert (Hslice : MoodAnalytics.sliceLast 7 entries = entries).
  { unfold MoodAnalytics.sliceLast.
    replace (List.length entries - 7)%nat with 0%nat by lia. reflexivity. }
  cbv zeta. rewrite Hcorr, Htrend, Hpat, Hopt, Hslice.
  cbn [find firstn map app].
  replace (0 <? List.length entries)%nat with true
    by (symmetry; now apply Nat.ltb_lt).
  rewrite averageOf_exact by assumption.
  unfold JS.ofNat. cbn [JS.mul JS.min].
  do 3 f_equal. apply Rmin_right.
  assert (INR (List.length entries) <= 7)%R.
  { replace 7%R with (INR 7) by (simpl; lra). apply le_INR. lia. }
  lra.
Qed.

Lemma generateAdvancedInsights_few_entries_witness :
  fst (MoodAnalytics.generateAdvancedInsights
         0 Fixtures.entriesNewestFirst)
  = {| MoodTracker.correlations := [];
       MoodTracker.trends := [];
       MoodTracker.patterns := [];
       MoodTracker.optimizations := [];
       MoodTracker.predictions :=
         {| MoodTracker.nextWeekMood :=
              JS.Fin (Exact.mean (map MoodTracker.mood
                                      Fixtures.entriesNewestFirst));
            MoodTracker.confidence :=
              JS.Fin (INR (List.length Fixtures.entriesNewestFirst) * 3);
            MoodTracker.basedOn := [] |} |}.
Proof.
  apply (generateAdvancedInsights_few_entries 0 Fixtures.entriesNewestFirst).
  - simpl. lia.
  - simpl. lia.
Defined.

Lemma sliceLast_length {A : Type} (k : nat) (l : list A) :
  List.length (MoodAnalytics.sliceLast k l) = Nat.min k (List.length l).
Proof.
  unfold MoodAnalytics.sliceLast. rewrite length_skipn. lia.
Qed.

Lemma moodTrend_found (entries : list MoodTracker.MoodEntry) :
  MoodTracker.minEntriesForTrends MoodAnalytics.config
  <= List.length entries ->
  find (fun t => MoodAnalytics.isMood (MoodTracker.metric t))
       (fst (MoodAnalytics.analyzeTrends entries))
  = Some (MoodAnalytics.trendOf entries MoodTracker.key_mood).
Proof.
  intros Hn.
  destruct (find _ (fst (MoodAnalytics.analyzeTrends entries)))
    as [t |] eqn:Hf.
  - apply find_some in Hf. destruct Hf as [Hin Hmood].
    apply trendOf_among in Hin. destruct Hin as (m & ->).
    destruct m; try discriminate. reflexivity.
  - exfalso.
    assert (Hin : In (MoodAnalytics.trendOf entries MoodTracker.key_mood)
                     (fst (MoodAnalytics.analyzeTrends entries))).
    { apply (analyzeTrends_run entries Hn).
      now exists MoodTracker.key_mood. }
    pose proof (find_none _ _ Hf _ Hin) as Hno. discriminate Hno.
Qed.

(** With at least [minEntriesForTrends] entries of at least two
    different dates, the predicted mood is a finite number between 1
    and 10, and the confidence a finite number of at most 90. *)
Theorem generateAdvancedInsights_prediction_range (tz : Z)
        (entries : list MoodTracker.MoodEntry) :
  MoodTracker.minEntriesForTrends MoodAnalytics.config
  <= List.length entries ->
  (exists e1 e2, In e1 entries /\ In e2 entries
                 /\ MoodTracker.date e1 <> MoodTracker.date e2) ->
  let predicted :=
    MoodTracker.predictions
      (fst (MoodAnalytics.generateAdvancedInsights tz entries)) in
  (exists v : R,
      MoodTracker.nextWeekMood predicted = JS.Fin v /\ (1 <= v <= 10)%R)
  /\ (exists c : R,
         MoodTracker.confidence predicted = JS.Fin c /\ (c <= 90)%R).
Proof.
  intros Hn Hdates predicted. unfold predicted.
  rewrite generateAdvancedInsights_run. cbv zeta.
  cbn [MoodTracker.predictions MoodTracker.nextWeekMood
       MoodTracker.confidence].
  rewrite (moodTrend_found entries Hn).
  assert (Hn14 : 14 <= List.length entries) by exact Hn.
  split.
  - replace (0 <? List.length (MoodAnalytics.sliceLast 7 entries))%nat
      with true
      by (symmetry; apply Nat.ltb_lt; rewrite sliceLast_length; lia).
    rewrite averageOf_exact by (rewrite sliceLast_length; lia).
    unfold MoodAnalytics.trendOf, MoodAnalytics.trendFrom.
    cbn [MoodTracker.magnitude MoodTracker.direction].
    rewrite slope_exact by (now rewrite timeIndicesOf_length, length_map).
    pose proof (cross_varies _ (timeIndicesOf_vary entries Hdates)) as HA.
    rewrite div_fin by lra. cbn [JS.mul JS.abs].
    destruct (MoodAnalytics.isIncreasing _);
      cbn [JS.mul JS.add JS.min JS.max];
      (eexists; split; [reflexivity |]);
      (split; [apply Rmax_l |]);
      (apply Rmax_lub; [lra | apply Rmin_l]).
  - unfold JS.ofNat. cbn [JS.mul JS.min].
    eexists. split; [reflexivity | apply Rmin_l].
Qed.

Lemma generateAdvancedInsights_prediction_range_witness :
  exists v : R,
    MoodTracker.nextWeekMood
      (MoodTracker.predictions
         (fst (MoodAnalytics.generateAdvancedInsights
                 0 Fixtures.fortnight)))
    = JS.Fin v /\ (1 <= v <= 10)%R.
Proof.
  exact (proj1 (generateAdvancedInsights_prediction_range
                  0 Fixtures.fortnight fortnight_length
                  fortnight_dates_vary)).
Defined.

(** ** The reported weekly pattern *)

Lemma greatestMean_exists (tz : Z) (entries : list MoodTracker.MoodEntry) :
  Exact.representedDays tz entries <> [] ->
  exists hi, Exact.greatestMean tz entries hi.
Proof.
  intros Hne.
  destruct (maxOf_fin (map (Exact.meanOn tz entries)
                           (Exact.representedDays tz entries)))
    as (hi & _ & Hin & Hub).
  { destruct (Exact.representedDays tz entries); [now elim Hne | discriminate]. }
  exists hi. apply in_map_iff in Hin. destruct Hin as (d & Hd & Hin).
  split; [now exists d |].
  intros d' Hd'. apply Hub. now apply in_map.
Qed.

Lemma leastMean_exists (tz : Z) (entries : list MoodTracker.MoodEntry) :
  Exact.representedDays tz entries <> [] ->
  exists lo, Exact.leastMean tz entries lo.
Proof.
  intros Hne.
  destruct (minOf_fin (map (Exact.meanOn tz entries)
                           (Exact.representedDays tz entries)))
    as (lo & _ & Hin & Hlb).
  { destruct (Exact.representedDays tz entries); [now elim Hne | discriminate]. }
  exists lo. apply in_map_iff in Hin. destruct Hin as (d & Hd & Hin).
  split; [now exists d |].
  intros d' Hd'. apply Hlb. now apply in_map.
Qed.

Lemma detectWeeklyPatterns_too_few (tz : Z)
      (entries : list MoodTracker.MoodEntry) :
  List.length entries < 14
  \/ List.length (Exact.representedDays tz entries) < 4 ->
  fst (MoodAnalytics.detectWeeklyPatterns tz entries) = [].
Proof.
  intros H. unfold MoodAnalytics.detectWeeklyPatterns, JS.bind, JS.get.
  destruct (List.length entries <? 14)%nat eqn:E14; [reflexivity |].
  destruct H as [H | H]; [apply Nat.ltb_ge in E14; lia |].
  replace (List.length (MoodAnalytics.dayAveragesOf tz entries) <? 4)%nat
    with true
    by (symmetry; apply Nat.ltb_lt;
        now rewrite dayAveragesOf_exact, length_map).
  reflexivity.
Qed.

(** Whatever [detectWeeklyPatterns] reports is a weekly pattern found
    on at least 14 entries over at least 4 weekdays; it names at least
    one peak day and one low day, its strength is a finite number
    between 1/6 and 1, and a weekday is named both as a peak and as a
    low day only in a pattern of strength 0.2 or less. *)
Theorem detectWeeklyPatterns_reported (tz : Z)
        (entries : list MoodTracker.MoodEntry) (pat : MoodTracker.MoodPattern) :
  In pat (fst (MoodAnalytics.detectWeeklyPatterns tz entries)) ->
  14 <= List.length entries
  /\ 4 <= List.length (Exact.representedDays tz entries)
  /\ fst (MoodAnalytics.detectWeeklyPatterns tz entries) = [pat]
  /\ MoodTracker.patternType pat = MoodTracker.weekly
  /\ MoodTracker.peakDays pat <> []
  /\ MoodTracker.lowDays pat <> []
  /\ exists s : R,
       MoodTracker.strength pat = JS.Fin s
       /\ (1 / 6 <= s <= 1)%R
       /\ forall d, In d (MoodTracker.peakDays pat) ->
                    In d (MoodTracker.lowDays pat) -> (s <= 0.2)%R.
Proof.
  intros Hin.
  destruct (le_lt_dec 14 (List.length entries)) as [H14 | H14].
  2:{ rewrite detectWeeklyPatterns_too_few in Hin by (now left).
      contradiction. }
  destruct (le_lt_dec 4 (List.length (Exact.representedDays tz entries)))
    as [H4 | H4].
  2:{ rewrite detectWeeklyPatterns_too_few in Hin by (now right).
      contradiction. }
  assert (Hne : Exact.representedDays tz entries <> []).
  { intros E. rewrite E in H4. simpl in H4. lia. }
  destruct (greatestMean_exists tz entries Hne) as (hi & Hhi).
  destruct (leastMean_exists tz entries Hne) as (lo & Hlo).
  destruct (weekly_pattern_exact tz entries hi lo H14 H4 Hhi Hlo)
    as [Hnone Hsome].
  destruct (Rlt_dec (hi - lo) 0.5) as [Hv | Hv].
  { rewrite (Hnone Hv) in Hin. contradiction. }
  assert (Hvar : (0.5 <= hi - lo)%R) by lra.
  rewrite (Hsome Hvar) in Hin |- *.
  destruct Hin as [<- | []].
  cbn [MoodTracker.patternType MoodTracker.peakDays MoodTracker.lowDays
       MoodTracker.strength].
  destruct Hhi as ((dhi & Hdhi & Ehi) & Hub).
  destruct Hlo as ((dlo & Hdlo & Elo) & Hlb).
  repeat split; try assumption.
  - intros E.
    assert (Hd : In dhi (filter (fun d => JS.Rleb (hi - 0.3)
                                            (Exact.meanOn tz entries d))
                                (Exact.representedDays tz entries))).
    { apply filter_In. split; [assumption |].
      rewrite Ehi. apply Rleb_true. lra. }
    rewrite E in Hd. contradiction.
  - intros E.
    assert (Hd : In dlo (filter (fun d => JS.Rleb
                                            (Exact.meanOn tz entries d)
                                            (lo + 0.3))
                                (Exact.representedDays tz entries))).
    { apply filter_In. split; [assumption |].
      rewrite Elo. apply Rleb_true. lra. }
    rewrite E in Hd. contradiction.
  - exists (Rmin 1 ((hi - lo) / 3)). split; [reflexivity |]. split.
    + split; [| apply Rmin_l].
      apply Rmin_glb; lra.
    + intros d Hp Hl. apply filter_In in Hp, Hl.
      destruct Hp as [_ Hp]. destruct Hl as [_ Hl].
      unfold JS.Rleb in Hp, Hl.
      destruct (Rle_dec (hi - 0.3) (Exact.meanOn tz entries d));
        [| discriminate].
      destruct (Rle_dec (Exact.meanOn tz entries d) (lo + 0.3));
        [| discriminate].
      etransitivity; [apply Rmin_r | lra].
Qed.

Lemma detectWeeklyPatterns_reported_witness :
  let pat :=
    {| MoodTracker.patternType := MoodTracker.weekly;
       MoodTracker.strength := JS.Fin (2 / 3);
       MoodTracker.peakDays := [MoodTracker.Sunday; MoodTracker.Saturday];
       MoodTracker.lowDays :=
         [MoodTracker.Monday; MoodTracker.Tuesday; MoodTracker.Wednesday;
          MoodTracker.Thursday; MoodTracker.Friday] |} in
  fst (MoodAnalytics.detectWeeklyPatterns 0 Fixtures.fortnight) = [pat].
Proof.
  intros pat.
  apply (detectWeeklyPatterns_reported 0 Fixtures.fortnight pat).
  rewrite detectWeeklyPatterns_fortnight. now left.
Defined.

(** ** The caller's array, in general *)

Lemma inOrder_byDate (u v : Z) :
  (JS.ofZ u - JS.ofZ v >? JS.Fin 0) = false <-> (u <= v)%Z.
Proof.
  unfold JS.ofZ. cbn. unfold JS.Rltb.
  destruct (Rlt_dec 0 (IZR u - IZR v)) as [H | H]; split; intros H'.
  - discriminate.
  - apply IZR_le in H'. lra.
  - apply le_IZR. lra.
  - reflexivity.
Qed.

Lemma goal_sort_byDate_ascending (pd : list Goals.GoalProgress) :
  StronglySorted (fun a b => (Goals.date a <= Goals.date b)%Z)
                 (JS.sort GoalOptimizer.byDate pd).
Proof.
  apply Sorted_StronglySorted; [intros a b c; lia |].
  apply (Sorted_weaken (JS.inOrder GoalOptimizer.byDate) _ (fun _ => True)).
  - intros a b _ _ H. now apply inOrder_byDate.
  - apply Forall_forall. trivial.
  - apply sort_Sorted. exact goal_byDate_antisym.
Qed.

Lemma goal_sort_of_ascending (pd : list Goals.GoalProgress) :
  Sorted (fun a b => (Goals.date a <= Goals.date b)%Z) pd ->
  JS.sort GoalOptimizer.byDate pd = pd.
Proof.
  intros H. apply sort_of_Sorted.
  apply (Sorted_weaken _ _ (fun _ => True) pd
           (fun a b _ _ Hab => proj2 (inOrder_byDate _ _) Hab)).
  - apply Forall_forall. trivial.
  - exact H.
Qed.

(** After [calculateGoalMetrics], and after [analyzeGoalOptimization],
    the caller's array holds the same samples as before; with two
    samples or more they stand in ascending order of date. *)
Theorem caller_array_after_metrics (now : Z) (goal : Goals.Goal)
        (allGoals : list Goals.Goal) (pd : list Goals.GoalProgress) :
  let after := snd (GoalOptimizer.calculateGoalMetrics now goal pd) in
  Permutation after pd
  /\ (List.length pd <= 1
      \/ StronglySorted (fun a b => (Goals.date a <= Goals.date b)%Z) after)
  /\ snd (GoalOptimizer.analyzeGoalOptimization now goal allGoals pd)
     = after.
Proof.
  intros after. unfold after.
  rewrite analyzeGoalOptimization_array, calculateGoalMetrics_array.
  destruct (1 <? List.length pd)%nat eqn:Hlen.
  - repeat split; [apply sort_perm | right; apply goal_sort_byDate_ascending].
  - apply Nat.ltb_ge in Hlen. repeat split; [reflexivity | now left].
Qed.

(** An array that is in ascending order of date already is left as it
    is by [calculateGoalMetrics] and by [analyzeGoalOptimization]. *)
Theorem calculateGoalMetrics_keeps_ascending (now : Z) (goal : Goals.Goal)
        (allGoals : list Goals.Goal) (pd : list Goals.GoalProgress) :
  Sorted (fun a b => (Goals.date a <= Goals.date b)%Z) pd ->
  JS.readOnly (GoalOptimizer.calculateGoalMetrics now goal) pd
  /\ JS.readOnly (GoalOptimizer.analyzeGoalOptimization now goal allGoals) pd.
Proof.
  intros Hs. unfold JS.readOnly.
  rewrite analyzeGoalOptimization_array, calculateGoalMetrics_array.
  destruct (1 <? List.length pd)%nat; [| now split].
  now rewrite goal_sort_of_ascending.
Qed.

Lemma flatProgress_ascending :
  Sorted (fun a b => (Goals.date a <= Goals.date b)%Z) Fixtures.flatProgress.
Proof.
  unfold Fixtures.flatProgress.
  repeat constructor; cbn; discriminate.
Qed.

Lemma calculateGoalMetrics_keeps_ascending_witness :
  JS.readOnly (GoalOptimizer.calculateGoalMetrics
                 (3 * Fixtures.oneDay) Fixtures.tenDayGoal)
              Fixtures.flatProgress.
Proof.
  exact (proj1 (calculateGoalMetrics_keeps_ascending
                  (3 * Fixtures.oneDay) Fixtures.tenDayGoal []
                  Fixtures.flatProgress flatProgress_ascending)).
Defined.

(** ** The pooled rate *)

Lemma last_cons_default {A : Type} (l : list A) :
  forall a d : A, last (a :: l) d = last l a.
Proof.
  induction l as [| b l IH]; intros a d; [reflexivity |].
  change (last (a :: b :: l) d) with (last (b :: l) d).
  now rewrite (IH b d), (IH b a).
Qed.

Lemma pooledLoop_telescopes (rest : list Goals.GoalProgress) :
  forall (prev : Goals.GoalProgress) (tp td : R),
    Sorted (fun a b => (Goals.date a < Goals.date b)%Z) (prev :: rest) ->
    GoalOptimizer.pooledLoop prev rest (JS.Fin tp) (JS.Fin td)
    = (JS.Fin (tp + (Goals.value (last rest prev) - Goals.value prev)),
       JS.Fin (td + (IZR (Goals.date (last rest prev))
                     - IZR (Goals.date prev))
                    / (1000 * 60 * 60 * 24))).
Proof.
  induction rest as [| cur rest IH]; intros prev tp td Hs.
  - cbn. f_equal; f_equal; unfold Rdiv; lra.
  - inversion Hs as [| ? ? Hs' Hd]; subst. inversion Hd as [| ? ? Hlt]; subst.
    apply IZR_lt in Hlt.
    cbn [GoalOptimizer.pooledLoop]. rewrite msPerDay_fin.
    unfold JS.ofZ. cbn [JS.sub].
    rewrite div_fin by lra. rewrite gt_fin.
    rewrite Rltb_true
      by (apply Rdiv_lt_0_compat; lra).
    cbn [JS.add]. rewrite (IH cur _ _ Hs').
    rewrite (last_cons_default rest cur prev).
    f_equal; f_equal; unfold Rdiv; lra.
Qed.

(** When the samples (two or more) are handed over in strictly
    ascending order of date, the average daily progress is the whole
    change of value over the whole span of days, from the first sample
    to the last. *)
Theorem calculateAverageDailyProgress_telescopes
        (first : Goals.GoalProgress) (rest : list Goals.GoalProgress) :
  rest <> [] ->
  Sorted (fun a b => (Goals.date a < Goals.date b)%Z) (first :: rest) ->
  fst (GoalOptimizer.calculateAverageDailyProgress (first :: rest))
  = JS.Fin ((Goals.value (last rest first) - Goals.value first)
            / ((IZR (Goals.date (last rest first))
                - IZR (Goals.date first))
               / (1000 * 60 * 60 * 24))).
Proof.
  intros Hne Hs.
  assert (Hspan : (Goals.date first < Goals.date (last rest first))%Z).
  { apply Sorted_StronglySorted in Hs; [| intros a b c; lia].
    inversion Hs as [| ? ? _ Hall]; subst.
    rewrite Forall_forall in Hall. apply Hall.
    destruct rest as [| c r]; [now elim Hne |].
    apply (@exists_last _ (c :: r)) in Hne.
    destruct Hne as (l' & z & E). rewrite E, last_last.
    apply in_or_app. right. now left. }
  apply IZR_lt in Hspan.
  rewrite calculateAverageDailyProgress_run.
  replace (List.length (first :: rest) <? 2)%nat with false
    by (destruct rest; [now elim Hne | reflexivity]).
  cbn [fst].
  rewrite goal_sort_of_ascending.
  2:{ apply (Sorted_weaken _ _ (fun _ => True) _
               (fun a b _ _ (Hab : (Goals.date a < Goals.date b)%Z) =>
                  Z.lt_le_incl _ _ Hab));
        [apply Forall_forall; trivial | exact Hs]. }
  unfold GoalOptimizer.pooledRate.
  rewrite (pooledLoop_telescopes rest first 0 0 Hs).
  rewrite gt_fin, !Rplus_0_l.
  assert (0 < (IZR (Goals.date (last rest first)) - IZR (Goals.date first))
              / (1000 * 60 * 60 * 24))%R
    by (apply Rdiv_lt_0_compat; lra).
  rewrite Rltb_true by assumption.
  now rewrite div_fin by lra.
Qed.

Lemma newestFirst_reversed_ascending :
  Sorted (fun a b => (Goals.date a < Goals.date b)%Z)
         [Fixtures.sampleAt 1 10; Fixtures.sampleAt 2 30].
Proof. repeat constructor. Qed.

Lemma calculateAverageDailyProgress_telescopes_witness :
  fst (GoalOptimizer.calculateAverageDailyProgress
         [Fixtures.sampleAt 1 10; Fixtures.sampleAt 2 30])
  = JS.Fin ((30 - 10)
            / ((IZR (2 * Fixtures.oneDay) - IZR (1 * Fixtures.oneDay))
               / (1000 * 60 * 60 * 24))).
Proof.
  apply (calculateAverageDailyProgress_telescopes
           (Fixtures.sampleAt 1 10) [Fixtures.sampleAt 2 30]).
  - discriminate.
  - exact newestFirst_reversed_ascending.
Defined.

(** ** The ranges of the goal metrics *)

Lemma consistency_range (steps : list R) :
  (0 <= Exact.consistency steps <= 100)%R.
Proof.
  unfold Exact.consistency. split; [apply Rmax_l |].
  apply Rmax_lub; [lra |].
  destruct (Rlt_dec 0 (Exact.mean steps)) as [Hmu | _]; [| lra].
  assert (0 <= Exact.stddev steps / Exact.mean steps)%R.
  { apply Rmult_le_pos; [apply sqrt_pos |].
    left. now apply Rinv_0_lt_compat. }
  lra.
Qed.

Lemma consistencyScore_range (pd : list Goals.GoalProgress) :
  exists v : R,
    fst (GoalOptimizer.calculateConsistencyScore pd) = JS.Fin v
    /\ (0 <= v <= 100)%R.
Proof.
  destruct (le_lt_dec 3 (List.length pd)) as [Hn | Hn].
  - rewrite consistency_of_three_or_more by assumption.
    eexists. split; [reflexivity | apply consistency_range].
  - rewrite calculateConsistencyScore_run.
    replace (List.length pd <? 3)%nat with true
      by (symmetry; now apply Nat.ltb_lt).
    exists 50%R. split; [reflexivity | lra].
Qed.

Lemma min_100_never_above (z : JS.number) :
  (JS.min (JS.Fin 100) z >? JS.Fin 100) = false.
Proof.
  destruct z as [v | | |]; cbn; try reflexivity.
  - apply Rltb_false. apply Rmin_l.
  - apply Rltb_false. lra.
Qed.

(** The metrics of [calculateGoalMetrics]: the time remaining is a
    finite number of days that is never negative, and is 0 exactly when
    the deadline is not in the future; the efficiency score is never
    above 100; the consistency score is a finite number between 0 and
    100. *)
Theorem calculateGoalMetrics_ranges (now : Z) (goal : Goals.Goal)
        (pd : list Goals.GoalProgress) :
  let m := fst (GoalOptimizer.calculateGoalMetrics now goal pd) in
  (exists v : R,
      Goals.timeRemaining m = JS.Fin v
      /\ (0 <= v)%R
      /\ (v = 0%R <-> (Goals.deadline goal <= now)%Z))
  /\ (Goals.efficiencyScore m >? JS.Fin 100) = false
  /\ (exists v : R,
         Goals.consistencyScore m = JS.Fin v /\ (0 <= v <= 100)%R).
Proof.
  intros m. split; [| split].
  - unfold m. rewrite calculateGoalMetrics_timeRemaining, msPerDay_fin.
    unfold JS.ofZ. cbn [JS.sub JS.max]. rewrite div_fin by lra.
    eexists. split; [reflexivity |].
    pose proof (Rmax_l 0 (IZR (Goals.deadline goal) - IZR now)) as Hl.
    pose proof (Rmax_r 0 (IZR (Goals.deadline goal) - IZR now)) as Hr.
    split; [apply Rmult_le_pos; [exact Hl | lra] |].
    split.
    + intros Hz. apply le_IZR.
      assert (Rmax 0 (IZR (Goals.deadline goal) - IZR now) = 0)%R.
      { unfold Rdiv in Hz. apply Rmult_integral in Hz.
        destruct Hz as [Hz | Hz]; [exact Hz | lra]. }
      lra.
    + intros Hle. apply IZR_le in Hle.
      rewrite Rmax_left by lra. unfold Rdiv. lra.
  - unfold m. rewrite calculateGoalMetrics_efficiency.
    apply min_100_never_above.
  - unfold m, GoalOptimizer.calculateGoalMetrics, JS.bind, JS.get.
    destruct (if (1 <? List.length pd)%nat
              then GoalOptimizer.calculateAverageDailyProgress
              else _) as [dailyProgress s1].
    pose proof (consistencyScore_range s1) as Hc.
    destruct (GoalOptimizer.calculateConsistencyScore s1) as [c s2].
    exact Hc.
Qed.

(** Steady progress: when the positive steps between the samples
    sorted by date (three samples or more) are all the same positive
    amount, the consistency score is 100. *)
Theorem calculateConsistencyScore_steady (c : R)
        (pd : list Goals.GoalProgress) :
  3 <= List.length pd ->
  (0 < c)%R ->
  (forall s, In s (Exact.positiveSteps (JS.sort GoalOptimizer.byDate pd))
             -> s = c) ->
  fst (GoalOptimizer.calculateConsistencyScore pd) = JS.Fin 100.
Proof.
  intros Hn Hc Hsteps.
  rewrite consistency_of_three_or_more by assumption. f_equal.
  set (steps := Exact.positiveSteps (JS.sort GoalOptimizer.byDate pd)) in *.
  assert (Hk : (0 < INR (List.length steps))%R).
  { apply lt_0_INR. unfold steps.
    rewrite positiveSteps_length, sort_length. lia. }
  assert (Hmean : Exact.mean steps = c).
  { unfold Exact.mean. rewrite (Rsum_constant c steps Hsteps).
    field. lra. }
  assert (Hdev : Exact.stddev steps = 0%R).
  { unfold Exact.stddev. rewrite Hmean.
    replace (Exact.Rsum (map (fun v => (v - c) * (v - c))%R steps))
      with 0%R.
    - unfold Rdiv. rewrite Rmult_0_l. apply sqrt_0.
    - clear Hk Hmean. induction steps as [| s l IH]; [reflexivity |].
      cbn [map Exact.Rsum fold_right].
      fold (Exact.Rsum (map (fun v => ((v - c) * (v - c))%R) l)).
      rewrite <- IH by (intros t Ht; apply Hsteps; now right).
      rewrite (Hsteps s (or_introl eq_refl)). lra. }
  unfold Exact.consistency. rewrite Hmean, Hdev.
  destruct (Rlt_dec 0 c); [| contradiction].
  rewrite Rmax_right; unfold Rdiv; lra.
Qed.

Lemma calculateConsistencyScore_steady_witness :
  fst (GoalOptimizer.calculateConsistencyScore
         [Fixtures.sampleAt 1 10; Fixtures.sampleAt 2 15;
          Fixtures.sampleAt 3 20])
  = JS.Fin 100.
Proof.
  apply (calculateConsistencyScore_steady 5).
  - simpl. lia.
  - lra.
  - replace (JS.sort GoalOptimizer.byDate
               [Fixtures.sampleAt 1 10; Fixtures.sampleAt 2 15;
                Fixtures.sampleAt 3 20])
      with [Fixtures.sampleAt 1 10; Fixtures.sampleAt 2 15;
            Fixtures.sampleAt 3 20].
    + cbn [Exact.positiveSteps Exact.stepsFrom Fixtures.sampleAt Goals.value].
      intros s [<- | [<- | []]]; rewrite Rmax_right by lra; lra.
    + symmetry. apply goal_sort_of_ascending.
      repeat constructor; cbn; discriminate.
Defined.

(** ** Bottlenecks and recommendations *)

Lemma lt_below (z : JS.number) (u v : R) :
  (u <= v)%R -> (z <? JS.Fin u) = true -> (z <? JS.Fin v) = true.
Proof.
  intros Huv. destruct z as [w | | |]; cbn; try discriminate; try reflexivity.
  unfold JS.Rltb. destruct (Rlt_dec w u); [| discriminate].
  intros _. destruct (Rlt_dec w v); [reflexivity | lra].
Qed.

Lemma analyzeGoalOptimization_run (now : Z) (goal : Goals.Goal)
      (allGoals : list Goals.Goal) (pd : list Goals.GoalProgress) :
  let m := fst (GoalOptimizer.calculateGoalMetrics now goal pd) in
  let after := snd (GoalOptimizer.calculateGoalMetrics now goal pd) in
  let analysis :=
    fst (GoalOptimizer.analyzeGoalOptimization now goal allGoals pd) in
  Goals.bottlenecks analysis
  = fst (GoalOptimizer.identifyBottlenecks now goal m after)
  /\ Goals.recommendations analysis
     = GoalOptimizer.generateRecommendations
         goal m (fst (GoalOptimizer.identifyBottlenecks now goal m after))
  /\ Goals.currentEfficiency analysis = Goals.efficiencyScore m.
Proof.
  unfold GoalOptimizer.analyzeGoalOptimization, JS.bind.
  destruct (GoalOptimizer.calculateGoalMetrics now goal pd) as [m s1].
  cbn [fst snd].
  unfold GoalOptimizer.identifyBottlenecks at 1, JS.bind, JS.get, JS.ret.
  repeat split.
Qed.

Lemma bottleneck_texts (now : Z) (goal : Goals.Goal) (m : Goals.GoalMetrics)
      (pd : list Goals.GoalProgress) (b : string) :
  In b (fst (GoalOptimizer.identifyBottlenecks now goal m pd)) ->
  (b = "Low progress rate - may need increased frequency or intensity"%string
   /\ (Goals.efficiencyScore m <? JS.Fin 50) = true)
  \/ (b = "High variability in progress - inconsistent effort patterns"%string
      /\ (Goals.consistencyScore m <? JS.Fin 40) = true)
  \/ b = "Time constraint - approaching deadline with significant work remaining"%string
  \/ b = "Progress stagnation - no recent activity recorded"%string.
Proof.
  unfold GoalOptimizer.identifyBottlenecks, JS.bind, JS.get, JS.ret.
  cbn [fst]. intros Hin.
  repeat (apply in_app_or in Hin; destruct Hin as [Hin | Hin]).
  - destruct (Goals.efficiencyScore m <? JS.Fin 50); [| contradiction].
    destruct Hin as [<- | []]. left. now split.
  - destruct (Goals.consistencyScore m <? JS.Fin 40); [| contradiction].
    destruct Hin as [<- | []]. right. left. now split.
  - destruct (_ && _); [| contradiction].
    destruct Hin as [<- | []]. right. right. now left.
  - destruct (_ && _); [| contradiction].
    destruct Hin as [<- | []]. right. right. now right.
Qed.

Lemma recommendation_present (goal : Goals.Goal) (m : Goals.GoalMetrics)
      (bs : list string) (rec : Goals.OptimizationRecommendation)
      (before after : list Goals.OptimizationRecommendation) :
  GoalOptimizer.generateRecommendations goal m bs
  = JS.sort (fun a b => JS.ofNat (Goals.priority a)
                        - JS.ofNat (Goals.priority b))
            (before ++ rec :: after)%list ->
  In rec (GoalOptimizer.generateRecommendations goal m bs).
Proof.
  intros ->. apply (Permutation_in _ (Permutation_sym (sort_perm _ _))).
  apply in_or_app. right. now left.
Qed.

(** In the analysis of a goal, the bottleneck of a low progress rate
    never comes without the recommendation to increase the frequency,
    nor the bottleneck of a high variability without the
    recommendation to add support. *)
Theorem bottleneck_has_recommendation (now : Z) (goal : Goals.Goal)
        (allGoals : list Goals.Goal) (pd : list Goals.GoalProgress) :
  let analysis :=
    fst (GoalOptimizer.analyzeGoalOptimization now goal allGoals pd) in
  (In "Low progress rate - may need increased frequency or intensity"%string
      (Goals.bottlenecks analysis) ->
   exists rec, In rec (Goals.recommendations analysis)
               /\ Goals.type rec = Goals.increase_frequency
               /\ Goals.priority rec = 1)
  /\ (In "High variability in progress - inconsistent effort patterns"%string
         (Goals.bottlenecks analysis) ->
      exists rec, In rec (Goals.recommendations analysis)
                  /\ Goals.type rec = Goals.add_support
                  /\ Goals.priority rec = 2).
Proof.
  intros analysis.
  destruct (analyzeGoalOptimization_run now goal allGoals pd)
    as (Hb & Hr & _).
  cbv zeta in Hb, Hr. fold analysis in Hb, Hr. rewrite Hb, Hr.
  set (m := fst (GoalOptimizer.calculateGoalMetrics now goal pd)).
  set (after := snd (GoalOptimizer.calculateGoalMetrics now goal pd)).
  split; intros Hin; apply bottleneck_texts in Hin.
  - assert (He : (Goals.efficiencyScore m <? JS.Fin 60) = true).
    { destruct Hin as [[_ He] | [[E _] | [E | E]]];
        [apply (lt_below _ 50 60); [lra | exact He]
        | discriminate E | discriminate E | discriminate E]. }
    eexists. split.
    + unfold GoalOptimizer.generateRecommendations. rewrite He.
      apply (Permutation_in _ (Permutation_sym (sort_perm _ _))).
      now left.
    + now split.
  - assert (Hc : (Goals.consistencyScore m <? JS.Fin 50) = true).
    { destruct Hin as [[E _] | [[_ Hc] | [E | E]]];
        [discriminate E
        | apply (lt_below _ 40 50); [lra | exact Hc]
        | discriminate E | discriminate E]. }
    eexists. split.
    + unfold GoalOptimizer.generateRecommendations. rewrite Hc.
      apply (Permutation_in _ (Permutation_sym (sort_perm _ _))).
      apply in_or_app. right. now left.
    + now split.
Qed.

(** ** The dashboard's bottleneck types *)

Lemma bump_keys (t : string) (counts : list (string * nat)) (k : string) :
  In k (map fst (Dashboard.bump t counts)) ->
  k = t \/ In k (map fst counts).
Proof.
  induction counts as [| [k0 c] rest IH]; cbn [Dashboard.bump].
  - intros [<- | []]. now left.
  - destruct (k0 =? t)%string; cbn [map fst In].
    + intros H. now right.
    + intros [<- | H]; [right; now left |].
      destruct (IH H) as [-> | H']; [now left | right; now right].
Qed.

Lemma classify_bottleneck (now : Z) (goal : Goals.Goal)
      (m : Goals.GoalMetrics) (pd : list Goals.GoalProgress) (b : string) :
  In b (fst (GoalOptimizer.identifyBottlenecks now goal m pd)) ->
  Dashboard.classify b = "Other"%string
  \/ Dashboard.classify b = "Progress Stagnation"%string.
Proof.
  intros Hin. apply bottleneck_texts in Hin.
  destruct Hin as [[-> _] | [[-> _] | [-> | ->]]];
    [left | left | left | right]; vm_compute; reflexivity.
Qed.

Lemma analysis_bottlenecks_classified (now : Z) (goal : Goals.Goal)
      (allGoals : list Goals.Goal) (pd : list Goals.GoalProgress)
      (b : string) :
  In b (Goals.bottlenecks
          (fst (GoalOptimizer.analyzeGoalOptimization
                  now goal allGoals pd))) ->
  Dashboard.classify b = "Other"%string
  \/ Dashboard.classify b = "Progress Stagnation"%string.
Proof.
  destruct (analyzeGoalOptimization_run now goal allGoals pd) as (Hb & _).
  cbv zeta in Hb. rewrite Hb. apply classify_bottleneck.
Qed.

Lemma counted_types (bs : list string) :
  (forall b, In b bs ->
             Dashboard.classify b = "Other"%string
             \/ Dashboard.classify b = "Progress Stagnation"%string) ->
  forall counts k,
    (forall k', In k' (map fst counts) ->
                k' = "Other"%string \/ k' = "Progress Stagnation"%string) ->
    In k (map fst (fold_left
                     (fun c b => Dashboard.bump (Dashboard.classify b) c)
                     bs counts)) ->
    k = "Other"%string \/ k = "Progress Stagnation"%string.
Proof.
  induction bs as [| b bs IH]; intros Hbs counts k Hcounts; cbn [fold_left].
  - apply Hcounts.
  - apply IH; [intros b' Hb'; apply Hbs; now right |].
    intros k' Hk'. apply bump_keys in Hk'. destruct Hk' as [-> | Hk'].
    + apply Hbs. now left.
    + now apply Hcounts.
Qed.

(** The dashboard looks for the words "efficiency", "consistency" and
    "time" (in lower case) in the bottleneck texts, and no text of
    [identifyBottlenecks] holds any of them: whatever the goals and
    their progress, every type that [bottleneckAnalysis] reports is
    "Other" or "Progress Stagnation", never "Low Efficiency", "Poor
    Consistency" or "Time Pressure". *)
Theorem bottleneckAnalysis_types (now : Z)
        (goals : list Dashboard.TrackedGoal)
        (progressData : Dashboard.ProgressData) :
  Forall (fun stat => Dashboard.type stat = "Other"%string
                      \/ Dashboard.type stat = "Progress Stagnation"%string)
         (fst (Dashboard.bottleneckAnalysis now goals progressData)).
Proof.
  apply Forall_forall. intros stat.
  unfold Dashboard.bottleneckAnalysis.
  set (allGoals := map Dashboard.goal goals).
  set (step := fun '(counts, o) g =>
                 let (analysis, o') :=
                   Dashboard.analyzeStored now g allGoals o in
                 (fold_left
                    (fun c bottleneck =>
                       Dashboard.bump (Dashboard.classify bottleneck) c)
                    (Goals.bottlenecks analysis) counts, o')).
  assert (Hinv : forall gs acc,
             (forall k, In k (map fst (fst acc)) ->
                        k = "Other"%string
                        \/ k = "Progress Stagnation"%string) ->
             forall k, In k (map fst (fst (fold_left step gs acc))) ->
                       k = "Other"%string
                       \/ k = "Progress Stagnation"%string).
  { induction gs as [| g gs IH]; intros [counts o] Hacc; cbn [fold_left];
      [exact Hacc |].
    apply IH. unfold step at 1.
    destruct (Dashboard.analyzeStored now g allGoals o) as [analysis o']
      eqn:Han.
    cbn [fst]. intros k Hk.
    apply (counted_types (Goals.bottlenecks analysis)) with (counts := counts);
      [| exact Hacc | exact Hk].
    intros b Hb. unfold Dashboard.analyzeStored in Han.
    destruct (Dashboard.lookup (Dashboard.id g) o) as [arr |].
    - destruct (GoalOptimizer.analyzeGoalOptimization
                  now (Dashboard.goal g) allGoals arr) as [a arr'] eqn:Ea.
      injection Han as <- _.
      apply (analysis_bottlenecks_classified
               now (Dashboard.goal g) allGoals arr).
      now rewrite Ea.
    - injection Han as <- _.
      now apply (analysis_bottlenecks_classified
                   now (Dashboard.goal g) allGoals []). }
  specialize (Hinv goals ([], progressData)).
  destruct (fold_left step goals ([], progressData)) as [types obj'].
  cbn [fst] in *. intros Hin. apply in_map_iff in Hin.
  destruct Hin as ([t c] & <- & Htc). cbn [Dashboard.type].
  apply Hinv; [intros k [] |].
  apply in_map_iff. now exists (t, c).
Qed.

(** ** Recording progress on the goals page *)

Lemma calculateGoalMetrics_completionRate (now : Z) (goal : Goals.Goal)
      (pd : list Goals.GoalProgress) :
  Goals.completionRate (fst (GoalOptimizer.calculateGoalMetrics now goal pd))
  = JS.Fin (Goals.currentValue goal) / JS.Fin (Goals.targetValue goal)
    * JS.Fin 100.
Proof.
  unfold GoalOptimizer.calculateGoalMetrics, JS.bind, JS.get.
  destruct (if (1 <? List.length pd)%nat
            then GoalOptimizer.calculateAverageDailyProgress
            else _) as [dailyProgress s1].
  destruct (GoalOptimizer.calculateConsistencyScore s1) as [c s2].
  reflexivity.
Qed.

(** [handleUpdateProgress] computes the metrics of the goal before it
    writes the new value into it.  So, for a goal with a positive
    target, the goal that comes out holds the new value, but its
    completion rate is that of the value it had before; its status
    becomes COMPLETED if that former value had reached the target, and
    is left as it was otherwise, whatever the new value is. *)
Theorem updateGoal_uses_former_value (now : Z) (goalId : string)
        (value : R) (progressData : Dashboard.ProgressData)
        (progress : Goals.GoalProgress) (g : GoalsPage.PageGoal) :
  GoalsPage.id g = goalId ->
  (0 < Goals.targetValue (GoalsPage.goal g))%R ->
  let former := Goals.currentValue (GoalsPage.goal g) in
  let target := Goals.targetValue (GoalsPage.goal g) in
  let g' := GoalsPage.updateGoal now goalId value progressData progress g in
  Goals.currentValue (GoalsPage.goal g') = value
  /\ Goals.completionRate (GoalsPage.metrics g')
     = JS.Fin (former / target * 100)
  /\ ((former < target)%R -> GoalsPage.status g' = GoalsPage.status g)
  /\ ((target <= former)%R -> GoalsPage.status g' = GoalsPage.COMPLETED).
Proof.
  intros Hid Htarget former target g'.
  unfold g', GoalsPage.updateGoal.
  replace (GoalsPage.id g =? goalId)%string with true
    by (symmetry; now apply String.eqb_eq).
  cbn [GoalsPage.goal GoalsPage.metrics GoalsPage.status
       GoalsPage.withCurrentValue Goals.currentValue].
  rewrite calculateGoalMetrics_completionRate.
  fold former target. rewrite div_fin by (unfold target; lra).
  cbn [JS.mul JS.ge JS.le].
  split; [reflexivity | split; [reflexivity | split]]; intros H.
  - rewrite Rleb_false; [reflexivity |].
    apply Rmult_lt_reg_r with (/ 100)%R; [lra |].
    apply Rmult_lt_reg_r with target; [assumption |].
    replace (former / target * 100 * / 100 * target)%R with former
      by (field; unfold target; lra).
    lra.
  - rewrite Rleb_true; [reflexivity |].
    apply Rmult_le_reg_r with (/ 100)%R; [lra |].
    apply Rmult_le_reg_r with target; [assumption |].
    replace (former / target * 100 * / 100 * target)%R with former
      by (field; unfold target; lra).
    lra.
Qed.

Lemma updateGoal_uses_former_value_witness :
  let g := {| GoalsPage.id := "g1"; GoalsPage.goal := Fixtures.tenDayGoal;
              GoalsPage.status := GoalsPage.ACTIVE;
              GoalsPage.metrics :=
                fst (GoalOptimizer.calculateGoalMetrics
                       0 Fixtures.tenDayGoal []);
              GoalsPage.updatedAt := 0 |} in
  let g' := GoalsPage.updateGoal (2 * Fixtures.oneDay) "g1" 100 []
                                 (Fixtures.sampleAt 2 100) g in
  Goals.currentValue (GoalsPage.goal g') = 100%R
  /\ Goals.completionRate (GoalsPage.metrics g') = JS.Fin (40 / 100 * 100)
  /\ GoalsPage.status g' = GoalsPage.ACTIVE.
Proof.
  intros g g'.
  destruct (updateGoal_uses_former_value
              (2 * Fixtures.oneDay) "g1" 100 [] (Fixtures.sampleAt 2 100) g)
    as (Hv & Hr & Hs & _).
  - reflexivity.
  - cbn. lra.
  - split; [exact Hv | split; [exact Hr |]].
    apply Hs. cbn. lra.
Defined.

(** ** The entries of the hook and their analytics *)

Lemma mood_sort_of_sorted (entries : list MoodTracker.MoodEntry) :
  Sorted (JS.inOrder MoodAnalytics.byDate) entries ->
  JS.readOnly MoodAnalytics.constructor entries.
Proof.
  intros Hs. unfold JS.readOnly, MoodAnalytics.constructor, JS.bind,
    JS.sortInPlace, JS.ret. cbn [snd].
  now apply sort_of_Sorted.
Qed.

Lemma filter_Sorted_transitive {A : Type} (R : A -> A -> Prop)
      (p : A -> bool) (l : list A) :
  (forall a b c, R a b -> R b c -> R a c) ->
  Sorted R l -> Sorted R (filter p l).
Proof.
  intros Htrans Hs. apply StronglySorted_Sorted.
  apply Sorted_StronglySorted in Hs; [| exact Htrans].
  induction Hs as [| a l Hs IH Hall]; cbn [filter]; [constructor |].
  destruct (p a); [| exact IH].
  constructor; [exact IH |].
  rewrite Forall_forall in *. intros b Hb. apply filter_In in Hb.
  now apply Hall.
Qed.

Lemma mood_inOrder_trans (a b c : MoodTracker.MoodEntry) :
  JS.inOrder MoodAnalytics.byDate a b ->
  JS.inOrder MoodAnalytics.byDate b c ->
  JS.inOrder MoodAnalytics.byDate a c.
Proof.
  unfold JS.inOrder, MoodAnalytics.byDate. rewrite !inOrder_byDate. lia.
Qed.

Lemma hook_analytics_readOnly (tz : Z)
      (entries : list MoodTracker.MoodEntry) :
  Sorted (JS.inOrder MoodAnalytics.byDate) entries ->
  JS.readOnly (MoodTrackerHook.analytics tz) entries
  /\ JS.readOnly MoodTrackerHook.wellnessMetrics entries.
Proof.
  intros Hs. pose proof (mood_sort_of_sorted entries Hs) as Hc.
  unfold JS.readOnly, MoodTrackerHook.analytics,
    MoodTrackerHook.wellnessMetrics, JS.bind, JS.get.
  split.
  - destruct (List.length entries <? 3)%nat; [reflexivity |].
    rewrite (readOnly_run _ _ Hc).
    rewrite (readOnly_run _ _ (generateAdvancedInsights_readOnly tz entries)).
    reflexivity.
  - destruct (List.length entries =? 0)%nat; [reflexivity |].
    rewrite (readOnly_run _ _ Hc).
    apply calculateWellnessMetrics_readOnly.
Qed.

(** The states that [addEntry] and [deleteEntry] of the hook produce
    are in ascending order of date ([deleteEntry] keeps the order it
    finds), and on such a state the in-place sort of the
    [MoodAnalytics] constructor changes nothing: the memoized
    analytics and wellness metrics leave the state array as it is. *)
Theorem hook_entries_stay_in_place (tz : Z)
        (newEntry : MoodTracker.MoodEntry) (id : string)
        (entries : list MoodTracker.MoodEntry) :
  let added := MoodTrackerHook.addEntry newEntry entries in
  let deleted := MoodTrackerHook.deleteEntry id added in
  Permutation added (newEntry :: entries)
  /\ StronglySorted
       (fun a b => (MoodTracker.date a <= MoodTracker.date b)%Z) added
  /\ JS.readOnly (MoodTrackerHook.analytics tz) added
  /\ JS.readOnly MoodTrackerHook.wellnessMetrics added
  /\ JS.readOnly (MoodTrackerHook.analytics tz) deleted
  /\ JS.readOnly MoodTrackerHook.wellnessMetrics deleted.
Proof.
  intros added deleted.
  assert (Hs : Sorted (JS.inOrder MoodAnalytics.byDate) added)
    by (apply sort_Sorted; exact mood_byDate_antisym).
  assert (Hd : Sorted (JS.inOrder MoodAnalytics.byDate) deleted)
    by (apply filter_Sorted_transitive;
        [exact mood_inOrder_trans | exact Hs]).
  split; [| split].
  - unfold added, MoodTrackerHook.addEntry. rewrite sort_perm.
    apply Permutation_sym, Permutation_cons_append.
  - apply Sorted_StronglySorted; [intros a b c; lia |].
    apply (Sorted_weaken (JS.inOrder MoodAnalytics.byDate) _ (fun _ => True));
      [| apply Forall_forall; trivial | exact Hs].
    intros a b _ _ H. now apply inOrder_byDate.
  - destruct (hook_analytics_readOnly tz added Hs).
    destruct (hook_analytics_readOnly tz deleted Hd).
    repeat split; assumption.
Qed.

(** ** The entries after construction *)

(** The constructor leaves in the caller's array the same entries, in
    ascending order of date; so the day indices that [analyzeTrends]
    then computes start at 0 and are never negative. *)
Theorem constructor_sorts (entries : list MoodTracker.MoodEntry) :
  let after := snd (MoodAnalytics.constructor entries) in
  Permutation after entries
  /\ StronglySorted
       (fun a b => (MoodTracker.date a <= MoodTracker.date b)%Z) after
  /\ Forall (fun t => (0 <= t)%R) (MoodAnalytics.timeIndicesOf after)
  /\ match MoodAnalytics.timeIndicesOf after with
     | [] => after = []
     | t :: _ => t = 0%R
     end.
Proof.
  intros after.
  assert (Hafter : after = JS.sort MoodAnalytics.byDate entries)
    by reflexivity.
  assert (Hs : StronglySorted
                 (fun a b => (MoodTracker.date a <= MoodTracker.date b)%Z)
                 after).
  { rewrite Hafter. apply Sorted_StronglySorted; [intros a b c; lia |].
    apply (Sorted_weaken (JS.inOrder MoodAnalytics.byDate) _ (fun _ => True));
      [| apply Forall_forall; trivial
       | apply sort_Sorted; exact mood_byDate_antisym].
    intros a b _ _ H. now apply inOrder_byDate. }
  split; [rewrite Hafter; apply sort_perm | split; [exact Hs |]].
  destruct after as [| first rest]; [split; [constructor | reflexivity] |].
  inversion Hs as [| ? ? _ Hall]; subst.
  unfold MoodAnalytics.timeIndicesOf. split.
  - apply Forall_forall. intros t Ht. apply in_map_iff in Ht.
    destruct Ht as (e & <- & [<- | He]).
    + unfold Rdiv. lra.
    + rewrite Forall_forall in Hall. specialize (Hall e He).
      apply IZR_le in Hall. apply Rmult_le_pos; lra.
  - cbn [map]. unfold Rdiv. lra.
Qed.
